(** * Version history of the Decentralized File Metadata Manager

    A shallow embedding of the request handlers of
    [src/controllers/fileController.js], of the document methods of
    [src/models/fileMetadata.js], of [src/utils/hashUtils.js] and of the
    content-store adapter, followed by the properties of the
    version-history model.

    Conventions.
    - A collection of the document store is a list of documents in insertion
      order; a document is identified by its position (documents are never
      removed), which plays the role of Mongo's [_id].
    - Strings are sequences of 8-bit code units.  The setters that the
      schema declares ([trim: true]) are applied where Mongoose applies
      them: when a document or a sub-document is built from a plain object,
      and to the values given for these fields in a query.
    - A JavaScript number is [NaN] or an integer.  The embedding is exact for
      integers of magnitude at most 2^53 - 1; statements about parsed
      numbers are made inside that range.
    - [crypto]'s digests, the content identifier computed by the IPFS node
      and the parts of the store's query language that the handlers do not
      fix are operations of the [Primitives] class. *)

From Stdlib Require Import Ascii String DecimalString DecimalPos ZArith Lia.
From Stdlib.Strings Require Import Byte.
From stdpp Require Import base decidable option list list_numbers numbers strings gmap sorting.

Local Open Scope string_scope.

(** ** JavaScript primitives used by the handlers *)
Module Js.

(** A string that may be [undefined] (a missing text field of a form, or
    a missing route parameter). *)
Definition truthy (v : option string) : bool :=
  match v with
  | None => false
  | Some s => negb (String.eqb s "")
  end.

Inductive Number : Type :=
| NaN
| Num (z : Z).

Definition safeInteger (z : Z) : Prop := (Z.abs z ≤ 2 ^ 53 - 1)%Z.

(** [a === b] on numbers: [NaN] is equal to nothing. *)
Definition strictEq (a b : Number) : bool :=
  match a, b with
  | Num x, Num y => Z.eqb x y
  | _, _ => false
  end.

(** WhiteSpace and LineTerminator code units below 256. *)
Definition isWhiteSpace (c : ascii) : bool :=
  let n := nat_of_ascii c in
  Nat.eqb n 9 || Nat.eqb n 10 || Nat.eqb n 11 || Nat.eqb n 12
  || Nat.eqb n 13 || Nat.eqb n 32 || Nat.eqb n 160.

Fixpoint trimStart (s : string) : string :=
  match s with
  | String c r => if isWhiteSpace c then trimStart r else s
  | EmptyString => EmptyString
  end.

(** [s.trimEnd()]: a code unit is kept when something is kept after it, or
    when it is not white space. *)
Fixpoint trimEnd (s : string) : string :=
  match s with
  | EmptyString => EmptyString
  | String c r =>
    match trimEnd r with
    | EmptyString => if isWhiteSpace c then EmptyString else String c EmptyString
    | kept => String c kept
    end
  end.

Definition trim (s : string) : string := trimEnd (trimStart s).
Arguments trim : simpl never.

(** [s.split(',')]: never empty, [''.split(',')] is [['']]. *)
Fixpoint split (sep : ascii) (s : string) : list string :=
  match s with
  | EmptyString => [EmptyString]
  | String c r =>
      if Ascii.eqb c sep then EmptyString :: split sep r
      else match split sep r with
           | piece :: rest => String c piece :: rest
           | [] => [String c EmptyString]
           end
  end.

(** Upper-case code units below 256: A-Z and the Latin-1 capitals. *)
Definition toLowerChar (c : ascii) : ascii :=
  let n := nat_of_ascii c in
  if (Nat.leb 65 n && Nat.leb n 90)
     || (Nat.leb 192 n && Nat.leb n 222 && negb (Nat.eqb n 215))
  then ascii_of_nat (n + 32) else c.

Fixpoint toLowerCase (s : string) : string :=
  match s with
  | EmptyString => EmptyString
  | String c r => String (toLowerChar c) (toLowerCase r)
  end.

(** Value of a code unit as a digit of the given radix (10 or 16). *)
Definition digitValue (radix : Z) (c : ascii) : option Z :=
  let n := nat_of_ascii c in
  if Nat.leb 48 n && Nat.leb n 57 then Some (Z.of_nat (n - 48))
  else if Z.eqb radix 16 && Nat.leb 97 n && Nat.leb n 102
       then Some (Z.of_nat (n - 87))
  else if Z.eqb radix 16 && Nat.leb 65 n && Nat.leb n 70
       then Some (Z.of_nat (n - 55))
  else None.

(** The longest prefix of radix digits, accumulated left to right;
    [None] when that prefix is empty. *)
Fixpoint parseDigits (radix : Z) (s : string) (acc : option Z) : option Z :=
  match s with
  | EmptyString => acc
  | String c r =>
      match digitValue radix c with
      | Some d => parseDigits radix r (Some (default 0 acc * radix + d)%Z)
      | None => acc
      end
  end.

Definition stripSign (s : string) : Z * string :=
  match s with
  | String "-" r => ((-1)%Z, r)
  | String "+" r => (1%Z, r)
  | _ => (1%Z, s)
  end.

Definition stripPrefix (s : string) : Z * string :=
  match s with
  | String "0" (String "x" r) => (16%Z, r)
  | String "0" (String "X" r) => (16%Z, r)
  | _ => (10%Z, s)
  end.

(** [parseInt(string)] with no radix argument (ECMAScript 19.2.5).  The
    result is the exact value of the digits; JavaScript rounds it to a
    double, which is the same number up to 2^53. *)
Definition parseIntString (s : string) : Number :=
  let '(sign, s1) := stripSign (trimStart s) in
  let '(radix, s2) := stripPrefix s1 in
  match parseDigits radix s2 None with
  | None => NaN
  | Some m => Num (sign * m)
  end.

(** [String(n)] for the numbers of the embedding: all the digits of the
    integer, as JavaScript prints integers below 10^21. *)
Definition numberToString (n : Number) : string :=
  match n with
  | NaN => "NaN"
  | Num z => NilZero.string_of_int (Z.to_int z)
  end.

(** A value that a request can carry where the handlers expect a string:
    [express.json()] delivers any JSON value in [req.body], and the
    query-string parser delivers strings, arrays and objects in
    [req.query].  [VString] and [VNumber] are also the two kinds of
    argument that the handlers themselves pass to [parseInt]. *)
Local Unset Elimination Schemes.
Inductive Value : Type :=
| VString (s : string)
| VNumber (n : Number)
| VNull
| VBool (b : bool)
| VArray (items : list Value)
| VObject (fields : list (string * Value)).
Local Set Elimination Schemes.

(** [!!v], with [None] for [undefined]. *)
Definition truthyValue (v : option Value) : bool :=
  match v with
  | None => false
  | Some (VString s) => negb (String.eqb s "")
  | Some (VNumber NaN) => false
  | Some (VNumber (Num z)) => negb (Z.eqb z 0)
  | Some VNull => false
  | Some (VBool b) => b
  | Some (VArray _) => true
  | Some (VObject _) => true
  end.

(** [String(v)]: an array is the join of its elements with commas, [null]
    elements giving the empty string; a plain object is
    ["[object Object]"]. *)
Fixpoint toString (v : Value) : string :=
  match v with
  | VString s => s
  | VNumber n => numberToString n
  | VNull => "null"
  | VBool b => if b then "true" else "false"
  | VArray items =>
    (fix join (l : list Value) : string :=
       match l with
       | [] => ""
       | x :: rest =>
         let first := match x with VNull => "" | _ => toString x end in
         match rest with
         | [] => first
         | _ :: _ => first ++ "," ++ join rest
         end
       end) items
  | VObject _ => "[object Object]"
  end.

(** [parseInt(v)]: the argument is first converted to a string. *)
Definition parseInt (v : Value) : Number := parseIntString (toString v).

(** [a - b] and [a * b] on numbers. *)
Definition minus (a b : Number) : Number :=
  match a, b with
  | Num x, Num y => Num (x - y)
  | _, _ => NaN
  end.

Definition times (a b : Number) : Number :=
  match a, b with
  | Num x, Num y => Num (x * y)
  | _, _ => NaN
  end.

(** [a > b] on numbers: false as soon as one side is [NaN]. *)
Definition greaterThan (a b : Number) : bool :=
  match a, b with
  | Num x, Num y => Z.ltb y x
  | _, _ => false
  end.

(** The value of [Math.ceil(a / b)] for an integer [a]: not a number, an
    infinity, or an integer.  The quotient of two safe integers is rounded
    to a double that lies on the same side of every integer as the exact
    quotient, so that the ceiling is the exact one. *)
Inductive Quotient : Type :=
| QNaN
| QInfinity (negative : bool)
| QInt (z : Z).

Definition ceilDiv (a : Z) (b : Number) : Quotient :=
  match b with
  | NaN => QNaN
  | Num n =>
    if Z.eqb n 0 then (if Z.eqb a 0 then QNaN else QInfinity (Z.ltb a 0))
    else QInt (- ((- a) / n))
  end.

(** [x < q] *)
Definition lessThan (x : Number) (q : Quotient) : bool :=
  match x, q with
  | Num p, QInt z => Z.ltb p z
  | Num _, QInfinity negative => negb negative
  | _, _ => false
  end.

End Js.


(** ** Operations of external libraries

    [sha256_hex] is [crypto.createHash('sha256').update(b).digest('hex')],
    [md5_hex] the same for MD5 on a string, [cid_of] and [cid_size] the
    content identifier and the size that the IPFS node reports for a
    payload.  A hexadecimal digest and a content identifier have no white
    space at their ends ([md5_hex_trimmed], [cid_of_trimmed]).

    The remaining operations belong to the document store.  [regex_i] is
    its case-insensitive [$regex] match for a pattern value ([None]: the
    pattern is refused).  [query_value] is its reading of a value that is
    not a string where a query names a string field (a number, an array,
    an operator object such as [{$ne: 'x'}]): the test it applies to the
    stored string, or [None] when it refuses the value.  [cursor_other] is
    its reading of a [skip] and a [limit] outside the regular range (a
    skip that is [NaN], a limit that is [NaN] or below 1): how many
    documents it passes over and at most how many it returns ([None]: no
    bound), or [None] when it refuses them. *)
Class Primitives : Type := {
  sha256_hex : list byte → string;
  md5_hex : string → string;
  cid_of : list byte → string;
  cid_size : list byte → Z;
  regex_i : Js.Value → option (string → bool);
  query_value : Js.Value → option (string → bool);
  cursor_other : Js.Number → Js.Number → option (nat * option nat);
  md5_hex_trimmed : ∀ s, Js.trim (md5_hex s) = md5_hex s;
  cid_of_trimmed : ∀ b, Js.trim (cid_of b) = cid_of b
}.

(** ** models/fileMetadata.js *)
Module Model.

Record FileVersion : Type := {
  versionNumber : Z;
  sha256Hash : string;
  ipfsHash : string;
  fileSize : Z;
  mimeType : string;
  uploadedAt : Z;
  uploadedBy : string
}.

Record FileMetadata : Type := {
  fileId : string;
  originalFileName : string;
  owner : string;
  isActive : bool;
  versions : list FileVersion;
  tags : list string;
  description : string;
  createdAt : Z;
  updatedAt : Z
}.

(** The argument of [addVersion]. *)
Record VersionData : Type := {
  vd_sha256Hash : string;
  vd_ipfsHash : string;
  vd_fileSize : Z;
  vd_mimeType : string;
  vd_uploadedBy : string
}.

(** A version as a plain object, [{versionNumber, ...versionData}]: what
    the handlers put into a [versions] array and what [addVersion]
    returns.  It has no [uploadedAt]. *)
Record NewVersion : Type := {
  nv_versionNumber : Z;
  nv_sha256Hash : string;
  nv_ipfsHash : string;
  nv_fileSize : Z;
  nv_mimeType : string;
  nv_uploadedBy : string
}.

(** The sub-document that [fileVersionSchema] makes of a plain version:
    [ipfsHash], [mimeType] and [uploadedBy] pass through their [trim]
    setters and [uploadedAt] takes its default, the clock. *)
Definition castVersion (now : Z) (nv : NewVersion) : FileVersion :=
  {| versionNumber := nv_versionNumber nv;
     sha256Hash := nv_sha256Hash nv;
     ipfsHash := Js.trim (nv_ipfsHash nv);
     fileSize := nv_fileSize nv;
     mimeType := Js.trim (nv_mimeType nv);
     uploadedAt := now;
     uploadedBy := Js.trim (nv_uploadedBy nv) |}.

(** The argument of [new FileMetadata({...})] in [uploadFile]. *)
Record Fields : Type := {
  f_fileId : string;
  f_originalFileName : string;
  f_owner : string;
  f_description : string;
  f_tags : list string;
  f_versions : list NewVersion
}.

(** [new FileMetadata(fields)]: the string fields pass through their
    [trim] setters, [isActive] takes its default [true], and the dates
    are read from the clock. *)
Definition create (now : Z) (fields : Fields) : FileMetadata :=
  {| fileId := Js.trim (f_fileId fields);
     originalFileName := Js.trim (f_originalFileName fields);
     owner := Js.trim (f_owner fields);
     isActive := true;
     versions := castVersion now <$> f_versions fields;
     tags := Js.trim <$> f_tags fields;
     description := Js.trim (f_description fields);
     createdAt := now;
     updatedAt := now |}.

Definition set_versions (vs : list FileVersion) (ts : Z) (d : FileMetadata)
  : FileMetadata :=
  {| fileId := fileId d; originalFileName := originalFileName d;
     owner := owner d; isActive := isActive d; versions := vs;
     tags := tags d; description := description d;
     createdAt := createdAt d; updatedAt := ts |}.

Definition set_isActive (b : bool) (d : FileMetadata) : FileMetadata :=
  {| fileId := fileId d; originalFileName := originalFileName d;
     owner := owner d; isActive := b; versions := versions d;
     tags := tags d; description := description d;
     createdAt := createdAt d; updatedAt := updatedAt d |}.

Definition set_updatedAt (ts : Z) (d : FileMetadata) : FileMetadata :=
  set_versions (versions d) ts d.

(** [versionCount] virtual. *)
Definition versionCount (d : FileMetadata) : Z :=
  Z.of_nat (length (versions d)).

(** [addVersion(versionData)]: the plain object it returns and the
    mutated document, whose array received the object as a sub-document.
    [now] is the clock read by [new Date()] and by the default of
    [uploadedAt]. *)
Definition addVersion (now : Z) (vd : VersionData) (d : FileMetadata)
  : NewVersion * FileMetadata :=
  let nextVersionNumber := (Z.of_nat (length (versions d)) + 1)%Z in
  let newVersion :=
    {| nv_versionNumber := nextVersionNumber;
       nv_sha256Hash := vd_sha256Hash vd;
       nv_ipfsHash := vd_ipfsHash vd;
       nv_fileSize := vd_fileSize vd;
       nv_mimeType := vd_mimeType vd;
       nv_uploadedBy := vd_uploadedBy vd |} in
  (newVersion,
   set_versions (versions d ++ [castVersion now newVersion]) now d).

(** [getVersion(versionNumber)]: [undefined] is [None]. *)
Definition getVersion (arg : Js.Value) (d : FileMetadata)
  : option FileVersion :=
  List.find
    (λ v, Js.strictEq (Js.Num (versionNumber v)) (Js.parseInt arg))
    (versions d).

(** [getLatestVersion()]: [null] is [None]. *)
Definition getLatestVersion (d : FileMetadata) : option FileVersion :=
  if Nat.eqb (length (versions d)) 0 then None
  else versions d !! (length (versions d) - 1)%nat.

Definition hasHash (hash : string) (d : FileMetadata) : bool :=
  existsb (λ v, String.eqb (sha256Hash v) hash) (versions d).

(** [findOne(conditions)]: the first document of the collection that
    satisfies the conditions, with its position. *)
Definition findOne (cond : FileMetadata → bool) (db : list FileMetadata)
  : option (nat * FileMetadata) :=
  list_find (λ d, cond d = true) db.

(** [findByHash(hash)]: [{'versions.sha256Hash': hash, isActive: true}]. *)
Definition findByHash (hash : string) (db : list FileMetadata)
  : option (nat * FileMetadata) :=
  findOne (λ d, hasHash hash d && isActive d) db.

(** [{fileId, isActive: true}]: the value given for [fileId] passes
    through the field's [trim] setter. *)
Definition byId (fid : string) (d : FileMetadata) : bool :=
  String.eqb (fileId d) (Js.trim fid) && isActive d.

(** [{fileId, owner, isActive: true}], [ownerIs] being the test that the
    store makes of the value given for [owner]. *)
Definition byIdOwner (fid : string) (ownerIs : string → bool)
    (d : FileMetadata) : bool :=
  String.eqb (fileId d) (Js.trim fid) && ownerIs (owner d) && isActive d.

(** [currentVersion] virtual. *)
Definition currentVersion (d : FileMetadata) : option FileVersion :=
  if Nat.ltb 0 (length (versions d))
  then versions d !! (length (versions d) - 1)%nat
  else None.

End Model.

(** ** State of the two stores, and the effects of a handler *)

(** The IPFS node seen through [ipfsService]: the service's connection
    flag, whether the node answers, and the blocks it holds by content
    identifier. *)
Record IpfsNode : Type := {
  isConnected : bool;
  online : bool;
  blocks : gmap string (list byte)
}.

(** [drawn] counts the calls of [crypto.randomBytes] made so far. *)
Record World : Type := {
  db : list Model.FileMetadata;
  ipfs : IpfsNode;
  drawn : nat
}.

(** What the environment supplies to one request: the clock, the outputs
    of [crypto.randomBytes(4).toString('hex')] by call number, and whether
    the metadata store accepts the request's write: whether the document
    passes the validators of the schema ([required], [min], [maxlength],
    the format of [sha256Hash]) and the store is available. *)
Record Env : Type := {
  now : Z;
  entropy : nat → string;
  storeAccepts : bool
}.

Inductive Exn (A : Type) : Type :=
| Return (a : A)
| Throw (msg : string).
Arguments Return {A} a.
Arguments Throw {A} msg.

(** A computation that reads and writes the world and may throw. *)
Definition M (A : Type) : Type := World → Exn A * World.

#[export] Instance M_ret : MRet M := λ A a w, (Return a, w).
#[export] Instance M_bind : MBind M := λ A B f m w,
  match m w with
  | (Return a, w') => f a w'
  | (Throw e, w') => (Throw e, w')
  end.

Definition throw {A} (msg : string) : M A := λ w, (Throw msg, w).

(** A step that touches no store. *)
Definition pure {A} (x : Exn A) : M A := λ w, (x, w).

(** [try { body } catch (error) { handler(error.message) }] inside a
    handler, and around a whole handler. *)
Definition catch {A} (body : M A) (handler : string → M A) : M A :=
  λ w, match body w with
       | (Return a, w') => (Return a, w')
       | (Throw e, w') => handler e w'
       end.

Definition tryCatch {A} (body : M A) (handler : string → A)
  : World → A * World :=
  λ w, match body w with
       | (Return a, w') => (a, w')
       | (Throw e, w') => (handler e, w')
       end.

Definition set_db (l : list Model.FileMetadata) (w : World) : World :=
  {| db := l; ipfs := ipfs w; drawn := drawn w |}.
Definition set_ipfs (n : IpfsNode) (w : World) : World :=
  {| db := db w; ipfs := n; drawn := drawn w |}.
Definition set_blocks (b : gmap string (list byte)) (n : IpfsNode) : IpfsNode :=
  {| isConnected := isConnected n; online := online n; blocks := b |}.

(** ** services/ipfsService.js *)
Module IpfsService.
Section WithPrimitives.
Context `{Primitives}.

Record UploadResult : Type := { hash : string; size : Z }.

(** [uploadFile(fileBuffer)]: [client.add] with [pin: true]. *)
Definition uploadFile (fileBuffer : list byte) : M UploadResult := λ w,
  if negb (isConnected (ipfs w)) then
    (Throw "IPFS client is not connected", w)
  else if negb (online (ipfs w)) then
    (Throw "Failed to upload file to IPFS: request failed", w)
  else
    let cid := cid_of fileBuffer in
    (Return {| hash := cid; size := cid_size fileBuffer |},
     set_ipfs (set_blocks (<[cid := fileBuffer]> (blocks (ipfs w))) (ipfs w)) w).

(** [downloadFile(hash)]: [client.cat], chunks concatenated. *)
Definition downloadFile (cid : string) : M (list byte) := λ w,
  if negb (isConnected (ipfs w)) then
    (Throw "IPFS client is not connected", w)
  else if negb (online (ipfs w)) then
    (Throw "Failed to download file from IPFS: request failed", w)
  else
    match blocks (ipfs w) !! cid with
    | Some fileBuffer => (Return fileBuffer, w)
    | None => (Throw "Failed to download file from IPFS: not found", w)
    end.

End WithPrimitives.
End IpfsService.

(** ** Node's [Buffer] and [crypto] operations used by [secureCompare] *)
Module Node.

(** [Buffer.from(s, 'hex')]: one byte per pair of hexadecimal digits; the
    decoding stops at the first pair that is not made of two hexadecimal
    digits, and a last single character is dropped. *)
Fixpoint bufferFromHex (s : string) : list Z :=
  match s with
  | String c1 (String c2 r) =>
    match Js.digitValue 16 c1, Js.digitValue 16 c2 with
    | Some hi, Some lo => (hi * 16 + lo)%Z :: bufferFromHex r
    | _, _ => []
    end
  | _ => []
  end.

(** [crypto.timingSafeEqual(a, b)] throws when the lengths differ. *)
Definition timingSafeEqual (a b : list Z) : Exn bool :=
  if Nat.eqb (length a) (length b) then Return (bool_decide (a = b))
  else Throw "Input buffers must have the same byte length".

End Node.

(** ** utils/hashUtils.js *)
Module HashUtils.
Section WithPrimitives.
Context `{Primitives}.

Definition isHexDigit (c : ascii) : bool :=
  match Js.digitValue 16 c with
  | Some _ => true
  | None => false
  end.

(** [isValidSHA256(hash)]: [/^[a-f0-9]{64}$/i], and [false] for a value
    that is missing or empty. *)
Definition isValidSHA256 (hash : option string) : bool :=
  match hash with
  | None => false
  | Some h =>
    if negb (Js.truthy (Some h)) then false
    else Nat.eqb (String.length h) 64
         && forallb isHexDigit (list_ascii_of_string h)
  end.

(** [secureCompare(hash1, hash2)] *)
Definition secureCompare (hash1 hash2 : option string) : bool :=
  match hash1, hash2 with
  | Some h1, Some h2 =>
    if negb (Js.truthy hash1) || negb (Js.truthy hash2)
       || negb (Nat.eqb (String.length h1) (String.length h2))
    then false
    else
      let buf1 := Node.bufferFromHex h1 in
      let buf2 := Node.bufferFromHex h2 in
      match Node.timingSafeEqual buf1 buf2 with
      | Return equal => equal
      | Throw _ => false
      end
  | _, _ => false
  end.

Definition generateSHA256FromBuffer (buffer : list byte) : string :=
  sha256_hex buffer.

Definition verifyHash (buffer : list byte) (expectedHash : string) : bool :=
  let actualHash := generateSHA256FromBuffer buffer in
  String.eqb (Js.toLowerCase actualHash) (Js.toLowerCase expectedHash).

(** [generateFileId(originalName, owner)], given the values read from
    [Date.now()] and [crypto.randomBytes(4).toString('hex')]. *)
Definition fileIdOf (originalName owner : string) (timestamp : Z)
    (randomBytes : string) : string :=
  md5_hex (originalName ++ "_" ++ owner ++ "_"
           ++ Js.numberToString (Js.Num timestamp) ++ "_" ++ randomBytes).

Definition generateFileId (env : Env) (originalName owner : string)
  : M string := λ w,
  (Return (fileIdOf originalName owner (now env) (entropy env (drawn w))),
   {| db := db w; ipfs := ipfs w; drawn := S (drawn w) |}).

End WithPrimitives.
End HashUtils.

(** ** The metadata store: [findOne], [save], [find], [countDocuments] *)
Module Store.

Definition findOne (cond : Model.FileMetadata → bool)
  : M (option (nat * Model.FileMetadata)) := λ w,
  (Return (Model.findOne cond (db w)), w).

Definition findByHash (hash : string)
  : M (option (nat * Model.FileMetadata)) := λ w,
  (Return (Model.findByHash hash (db w)), w).

(** [save()] of a new document: the [unique] index on [fileId] rejects a
    second document with the same identifier. *)
Definition saveNew (env : Env) (doc : Model.FileMetadata) : M unit := λ w,
  if negb (storeAccepts env) then
    (Throw "FileMetadata validation failed", w)
  else if existsb (λ d, String.eqb (Model.fileId d) (Model.fileId doc)) (db w)
  then (Throw "E11000 duplicate key error", w)
  else (Return (), set_db (db w ++ [Model.set_updatedAt (now env) doc]) w).

(** [save()] of the document fetched from position [i]; the pre-save
    hook stamps [updatedAt]. *)
Definition save (env : Env) (i : nat) (doc : Model.FileMetadata)
  : M unit := λ w,
  if negb (storeAccepts env) then
    (Throw "FileMetadata validation failed", w)
  else (Return (), set_db (<[i := Model.set_updatedAt (now env) doc]> (db w)) w).

(** The conditions that [searchFiles] hands to [find] and
    [countDocuments]; [isActive: true] is always part of them.  [c_regex]
    is the pattern of the [$or] of two [$regex] on [originalFileName] and
    [description], [c_owner] the value given for [owner], [c_tagsIn] the
    array of [tags: {$in: ...}]. *)
Record Conditions : Type := {
  c_regex : option Js.Value;
  c_owner : option Js.Value;
  c_tagsIn : option (list string)
}.

Section WithPrimitives.
Context `{Primitives}.

(** The test that the store makes of a value given for a string field
    with a [trim] setter: a string is trimmed and compared for equality;
    any other value is read as [query_value] says. *)
Definition stringQuery (v : Js.Value) : option (string → bool) :=
  match v with
  | Js.VString s => Some (λ stored, String.eqb stored (Js.trim s))
  | _ => query_value v
  end.

(** [findOne({fileId, owner, isActive: true})] *)
Definition findOneOwned (fid : string) (owner : Js.Value)
  : M (option (nat * Model.FileMetadata)) := λ w,
  match stringQuery owner with
  | None => (Throw "Cast to string failed for path owner", w)
  | Some ownerIs => (Return (Model.findOne (Model.byIdOwner fid ownerIs) (db w)), w)
  end.

(** The test on a document that the store makes of the conditions;
    [None] when it refuses the pattern or the owner value.  A tag of the
    [$in] array matches a document that has it among its tags. *)
Definition matcher (c : Conditions) : option (Model.FileMetadata → bool) :=
  match match c_regex c with
        | Some pattern => Some <$> regex_i pattern
        | None => Some None
        end,
        match c_owner c with
        | Some v => Some <$> stringQuery v
        | None => Some None
        end with
  | Some re, Some ownerIs =>
    Some (λ d,
      Model.isActive d
      && match re with
         | Some test =>
           test (Model.originalFileName d) || test (Model.description d)
         | None => true
         end
      && match ownerIs with
         | Some test => test (Model.owner d)
         | None => true
         end
      && match c_tagsIn c with
         | Some wanted =>
           existsb (λ t, existsb (String.eqb t) wanted) (Model.tags d)
         | None => true
         end)
  | _, _ => None
  end.

(** [.sort({createdAt: -1})]: the newest document first.  Documents
    created at the same instant are left in the order of the collection;
    the store promises no order among them. *)
Fixpoint insertNewest (d : Model.FileMetadata) (l : list Model.FileMetadata)
  : list Model.FileMetadata :=
  match l with
  | [] => [d]
  | x :: rest =>
    if (Model.createdAt x <=? Model.createdAt d)%Z then d :: l
    else x :: insertNewest d rest
  end.

Definition sortNewestFirst (l : list Model.FileMetadata)
  : list Model.FileMetadata :=
  foldr insertNewest [] l.

(** [.skip(skip).limit(limit)]: how many documents are passed over and at
    most how many are returned.  A skip of at least 0 with a limit of at
    least 1 is taken as it is, and a negative skip is refused; every
    other pair is read as [cursor_other] says. *)
Definition cursor (skip limit : Js.Number) : option (nat * option nat) :=
  match skip, limit with
  | Js.Num s, Js.Num l =>
    if (s <? 0)%Z then None
    else if (1 <=? l)%Z then Some (Z.to_nat s, Some (Z.to_nat l))
    else cursor_other skip limit
  | _, _ => cursor_other skip limit
  end.

Definition window {A} (passed : nat) (most : option nat) (l : list A) : list A :=
  match most with
  | Some n => take n (drop passed l)
  | None => drop passed l
  end.

(** [find(conditions).sort({createdAt: -1}).skip(skip).limit(limit)] *)
Definition find (c : Conditions) (skip limit : Js.Number)
  : M (list Model.FileMetadata) := λ w,
  match matcher c with
  | None => (Throw "The query was refused", w)
  | Some test =>
    match cursor skip limit with
    | None => (Throw "The skip or the limit was refused", w)
    | Some (passed, most) =>
      (Return (window passed most (sortNewestFirst (List.filter test (db w)))), w)
    end
  end.

(** [countDocuments(conditions)] *)
Definition countDocuments (c : Conditions) : M Z := λ w,
  match matcher c with
  | None => (Throw "The query was refused", w)
  | Some test => (Return (Z.of_nat (length (List.filter test (db w)))), w)
  end.

End WithPrimitives.
End Store.

(** ** controllers/fileController.js *)
Module Controller.

(** [res.status(status).json({success, message, data, error})] *)
Record Response (D : Type) : Type := {
  status : Z;
  success : bool;
  message : string;
  data : option D;
  error : option string
}.
Arguments status {D} _.
Arguments success {D} _.
Arguments message {D} _.
Arguments data {D} _.
Arguments error {D} _.

Definition reply {D} (st : Z) (ok : bool) (msg : string) (d : option D)
  : Response D :=
  {| status := st; success := ok; message := msg; data := d; error := None |}.

Definition failed {D} (msg e : string) (d : option D) : Response D :=
  {| status := 500; success := false; message := msg; data := d;
     error := Some e |}.

(** [req.file] as left by the upload middleware. *)
Record File : Type := {
  buffer : list byte;
  originalname : string;
  mimetype : string;
  size : Z
}.

(** The text fields of the multipart form of an upload. *)
Record UploadRequest : Type := {
  up_file : option File;
  up_owner : option string;
  up_description : option string;
  up_tags : option string
}.

Inductive UploadData : Type :=
| ExistingFile (existingFileId existingHash : string)
| Uploaded (fileId originalFileName owner sha256Hash ipfsHash : string)
    (fileSize : Z) (mimeType : string) (versionNumber uploadedAt : Z).

Record UpdateRequest : Type := {
  upd_fileId : string;
  upd_file : option File;
  upd_uploadedBy : option string
}.

(** The [data] of the answers of [addNewVersion].  The fields of
    [VersionAdded] other than [fileId] are read from the plain object
    that [addVersion] returned, whose [uploadedAt] is [undefined]. *)
Inductive UpdateData : Type :=
| ExistingVersion (existingVersion : Z)
| VersionAdded (fileId : string) (added : Model.NewVersion).

(** The [versionIndex] route parameter is optional on the download
    route and required on the verify route. *)
Record DownloadRequest : Type := {
  dl_fileId : string;
  dl_versionIndex : option string
}.

Record Download : Type := {
  contentType : string;
  contentLength : Z;
  fileName : string;
  xFileHash : string;
  xIpfsHash : string;
  xVersion : Z;
  body : list byte
}.

Record VerifyRequest : Type := {
  vf_fileId : string;
  vf_versionIndex : string
}.

Inductive VerifyData : Type :=
| VerificationResult (fileId : string) (versionNumber : Js.Number)
    (ipfsHash expectedHash actualHash : string) (isValid : bool)
    (fileSize expectedFileSize : Z) (sizesMatch : bool) (verifiedAt : Z)
| VerifyContext (fileId : string) (versionNumber : Js.Number)
    (ipfsHash : string).

(** [owner] is read from the JSON body. *)
Record DeleteRequest : Type := {
  del_fileId : string;
  del_owner : option Js.Value
}.

Record Deleted : Type := { deleted_fileId : string; deletedAt : Z }.

(** The query parameters of a search. *)
Record SearchRequest : Type := {
  q_query : option Js.Value;
  q_owner : option Js.Value;
  q_tags : option Js.Value;
  q_page : option Js.Value;
  q_limit : option Js.Value
}.

(** What a listing shows of a file. *)
Record FileSummary : Type := {
  fs_fileId : string;
  fs_originalFileName : string;
  fs_owner : string;
  fs_description : string;
  fs_tags : list string;
  fs_versionCount : Z;
  fs_currentVersion : option Model.FileVersion;
  fs_createdAt : Z;
  fs_updatedAt : Z
}.

Definition summary (file : Model.FileMetadata) : FileSummary :=
  {| fs_fileId := Model.fileId file;
     fs_originalFileName := Model.originalFileName file;
     fs_owner := Model.owner file;
     fs_description := Model.description file;
     fs_tags := Model.tags file;
     fs_versionCount := Model.versionCount file;
     fs_currentVersion := Model.currentVersion file;
     fs_createdAt := Model.createdAt file;
     fs_updatedAt := Model.updatedAt file |}.

(** The [pagination] object that [getFilesByOwner] and [searchFiles]
    build from the [page] and [limit] query parameters (defaults 1 and
    10 when a parameter is absent) and the count of matching files. *)
Record Pagination : Type := {
  currentPage : Js.Number;
  totalPages : Js.Quotient;
  pg_totalCount : Z;
  hasNext : bool;
  hasPrev : bool
}.

Record SearchCriteria : Type := {
  sc_query : option Js.Value;
  sc_owner : option Js.Value;
  sc_tags : option Js.Value
}.

Record SearchData : Type := {
  files : list FileSummary;
  sd_pagination : Pagination;
  searchCriteria : SearchCriteria
}.

Definition queryNumber (preset : Z) (v : option Js.Value) : Js.Number :=
  match v with
  | None => Js.parseInt (Js.VNumber (Js.Num preset))
  | Some given => Js.parseInt given
  end.

Definition pagination (page limit : option Js.Value) (totalCount : Z)
  : Pagination :=
  let pageNumber := queryNumber 1 page in
  let limitNumber := queryNumber 10 limit in
  {| currentPage := pageNumber;
     totalPages := Js.ceilDiv totalCount limitNumber;
     pg_totalCount := totalCount;
     hasNext := Js.lessThan pageNumber (Js.ceilDiv totalCount limitNumber);
     hasPrev := Js.greaterThan pageNumber (Js.Num 1) |}.

(** The version selection shared by the download route: a present
    [versionIndex] is parsed and looked up, an absent one selects the
    latest version. *)
Definition selectVersion (versionIndex : option string)
    (fileMetadata : Model.FileMetadata)
  : Response Download + Model.FileVersion :=
  if Js.truthy versionIndex then
    let versionNumber := Js.parseInt (Js.VString (default "" versionIndex)) in
    match Model.getVersion (Js.VNumber versionNumber) fileMetadata with
    | None =>
      inl (reply 404 false
             ("Version " ++ Js.numberToString versionNumber ++ " not found") None)
    | Some version => inr version
    end
  else
    match Model.getLatestVersion fileMetadata with
    | None => inl (reply 404 false "No versions available" None)
    | Some version => inr version
    end.

(** The [data] of [getFileMetadata]. *)
Record MetadataView : Type := {
  mv_fileId : string;
  mv_originalFileName : string;
  mv_owner : string;
  mv_description : string;
  mv_tags : list string;
  mv_versionCount : Z;
  mv_currentVersion : option Model.FileVersion;
  mv_versions : list Model.FileVersion;
  mv_createdAt : Z;
  mv_updatedAt : Z
}.

Section WithPrimitives.
Context `{Primitives}.

(** The plain version object of a new file. *)
Definition firstVersion (file : File) (owner sha256Hash ipfsHash : string)
  : Model.NewVersion :=
  {| Model.nv_versionNumber := 1;
     Model.nv_sha256Hash := sha256Hash;
     Model.nv_ipfsHash := ipfsHash;
     Model.nv_fileSize := size file;
     Model.nv_mimeType := mimetype file;
     Model.nv_uploadedBy := owner |}.

(** [uploadFile]: POST /api/files/upload.  The answer repeats the values
    of the request; the document holds them as the schema's setters
    left them. *)
Definition uploadFile (req : UploadRequest) (env : Env)
  : World → Response UploadData * World :=
  tryCatch
    (match up_file req with
     | None => mret (reply 400 false "No file provided" None)
     | Some file =>
       if negb (Js.truthy (up_owner req)) then
         mret (reply 400 false "Owner ID is required" None)
       else
         let owner := default "" (up_owner req) in
         let fileBuffer := buffer file in
         let originalFileName := originalname file in
         let sha256Hash := HashUtils.generateSHA256FromBuffer fileBuffer in
         existingFile ← Store.findByHash sha256Hash;
         match existingFile with
         | Some (_, existing) =>
           mret (reply 409 false "File with identical content already exists"
                   (Some (ExistingFile (Model.fileId existing) sha256Hash)))
         | None =>
           ipfsResult ← IpfsService.uploadFile fileBuffer;
           let ipfsHash := IpfsService.hash ipfsResult in
           fileId ← HashUtils.generateFileId env originalFileName owner;
           let fileMetadata :=
             Model.create (now env)
               {| Model.f_fileId := fileId;
                  Model.f_originalFileName := originalFileName;
                  Model.f_owner := owner;
                  Model.f_description :=
                    if Js.truthy (up_description req)
                    then default "" (up_description req) else "";
                  Model.f_tags :=
                    match up_tags req with
                    | Some t => if Js.truthy (Some t)
                                then Js.trim <$> Js.split "," t else []
                    | None => []
                    end;
                  Model.f_versions :=
                    [firstVersion file owner sha256Hash ipfsHash] |} in
           _ ← Store.saveNew env fileMetadata;
           mret (reply 201 true "File uploaded successfully"
                   (Some (Uploaded fileId originalFileName owner sha256Hash
                            ipfsHash (size file) (mimetype file) 1 (now env))))
         end
     end)
    (λ e, failed "Failed to upload file" e None).

Definition versionData (file : File) (sha256Hash ipfsHash uploadedBy : string)
  : Model.VersionData :=
  {| Model.vd_sha256Hash := sha256Hash;
     Model.vd_ipfsHash := ipfsHash;
     Model.vd_fileSize := size file;
     Model.vd_mimeType := mimetype file;
     Model.vd_uploadedBy := uploadedBy |}.

(** [addNewVersion]: POST /api/files/update/:fileId *)
Definition addNewVersion (req : UpdateRequest) (env : Env)
  : World → Response UpdateData * World :=
  tryCatch
    (match upd_file req with
     | None => mret (reply 400 false "No file provided" None)
     | Some file =>
       if negb (Js.truthy (upd_uploadedBy req)) then
         mret (reply 400 false "uploadedBy is required" None)
       else
         let uploadedBy := default "" (upd_uploadedBy req) in
         found ← Store.findOne (Model.byId (upd_fileId req));
         match found with
         | None => mret (reply 404 false "File not found" None)
         | Some (i, fileMetadata) =>
           let fileBuffer := buffer file in
           let sha256Hash := HashUtils.generateSHA256FromBuffer fileBuffer in
           match List.find (λ v, String.eqb (Model.sha256Hash v) sha256Hash)
                   (Model.versions fileMetadata) with
           | Some existingVersion =>
             mret (reply 409 false "This version already exists"
                     (Some (ExistingVersion (Model.versionNumber existingVersion))))
           | None =>
             ipfsResult ← IpfsService.uploadFile fileBuffer;
             let ipfsHash := IpfsService.hash ipfsResult in
             let '(newVersion, fileMetadata') :=
               Model.addVersion (now env)
                 (versionData file sha256Hash ipfsHash uploadedBy) fileMetadata in
             _ ← Store.save env i fileMetadata';
             mret (reply 201 true "New version added successfully"
                     (Some (VersionAdded (Model.fileId fileMetadata') newVersion)))
           end
         end
     end)
    (λ e, failed "Failed to add new version" e None).

(** [downloadFile]: GET /api/files/download/:fileId/:versionIndex? *)
Definition downloadFile (req : DownloadRequest)
  : World → Response Download * World :=
  tryCatch
    (found ← Store.findOne (Model.byId (dl_fileId req));
     match found with
     | None => mret (reply 404 false "File not found" None)
     | Some (_, fileMetadata) =>
       match selectVersion (dl_versionIndex req) fileMetadata with
       | inl notFound => mret notFound
       | inr version =>
         fileBuffer ← IpfsService.downloadFile (Model.ipfsHash version);
         let isValid := HashUtils.verifyHash fileBuffer (Model.sha256Hash version) in
         if negb isValid then
           mret (reply 500 false "File integrity verification failed" None)
         else
           mret (reply 200 true ""
                   (Some {| contentType := Model.mimeType version;
                            contentLength := Z.of_nat (length fileBuffer);
                            fileName := Model.originalFileName fileMetadata;
                            xFileHash := Model.sha256Hash version;
                            xIpfsHash := Model.ipfsHash version;
                            xVersion := Model.versionNumber version;
                            body := fileBuffer |}))
       end
     end)
    (λ e, failed "Failed to download file" e None).

(** [verifyFileIntegrity]: GET /api/files/verify/:fileId/:versionIndex.
    The inner [try] surrounds the download and the comparison. *)
Definition verifyFileIntegrity (req : VerifyRequest) (env : Env)
  : World → Response VerifyData * World :=
  tryCatch
    (found ← Store.findOne (Model.byId (vf_fileId req));
     match found with
     | None => mret (reply 404 false "File not found" None)
     | Some (_, fileMetadata) =>
       let versionNumber := Js.parseInt (Js.VString (vf_versionIndex req)) in
       match Model.getVersion (Js.VNumber versionNumber) fileMetadata with
       | None =>
         mret (reply 404 false
                 ("Version " ++ Js.numberToString versionNumber ++ " not found")
                 None)
       | Some version =>
         catch
           (fileBuffer ← IpfsService.downloadFile (Model.ipfsHash version);
            let isValid :=
              HashUtils.verifyHash fileBuffer (Model.sha256Hash version) in
            let verificationResult :=
              VerificationResult (vf_fileId req) versionNumber
                (Model.ipfsHash version) (Model.sha256Hash version)
                (HashUtils.generateSHA256FromBuffer fileBuffer) isValid
                (Z.of_nat (length fileBuffer)) (Model.fileSize version)
                (Z.eqb (Z.of_nat (length fileBuffer)) (Model.fileSize version))
                (now env) in
            mret (reply 200 true
                    (if isValid then "File integrity verified"
                     else "File integrity verification failed")
                    (Some verificationResult)))
           (λ ipfsError,
              mret (failed "Failed to download file from IPFS for verification"
                      ipfsError
                      (Some (VerifyContext (vf_fileId req) versionNumber
                               (Model.ipfsHash version)))))
       end
     end)
    (λ e, failed "Failed to verify file integrity" e None).

(** [deleteFile]: DELETE /api/files/:fileId.  The [owner] of the body is
    tested for truthiness and handed to the query as it is. *)
Definition deleteFile (req : DeleteRequest) (env : Env)
  : World → Response Deleted * World :=
  tryCatch
    (if negb (Js.truthyValue (del_owner req)) then
       mret (reply 400 false "Owner verification required" None)
     else
       let owner := default Js.VNull (del_owner req) in
       found ← Store.findOneOwned (del_fileId req) owner;
       match found with
       | None => mret (reply 404 false "File not found or access denied" None)
       | Some (i, fileMetadata) =>
         _ ← Store.save env i (Model.set_isActive false fileMetadata);
         mret (reply 200 true "File deleted successfully"
                 (Some {| deleted_fileId := del_fileId req;
                          deletedAt := now env |}))
       end)
    (λ e, failed "Failed to delete file" e None).

(** The conditions [searchFiles] builds from the populated filters.
    [tags.split] exists on a string only. *)
Definition searchConditions (req : SearchRequest) : Exn Store.Conditions :=
  let regex := if Js.truthyValue (q_query req) then q_query req else None in
  let owner := if Js.truthyValue (q_owner req) then q_owner req else None in
  if Js.truthyValue (q_tags req) then
    match q_tags req with
    | Some (Js.VString tags) =>
      Return {| Store.c_regex := regex; Store.c_owner := owner;
                Store.c_tagsIn := Some (Js.trim <$> Js.split "," tags) |}
    | _ => Throw "tags.split is not a function"
    end
  else
    Return {| Store.c_regex := regex; Store.c_owner := owner;
              Store.c_tagsIn := None |}.

(** [searchFiles]: GET /api/files/system/search *)
Definition searchFiles (req : SearchRequest)
  : World → Response SearchData * World :=
  tryCatch
    (if negb (Js.truthyValue (q_query req))
        && negb (Js.truthyValue (q_owner req))
        && negb (Js.truthyValue (q_tags req)) then
       mret (reply 400 false "At least one search parameter is required" None)
     else
       conditions ← pure (searchConditions req);
       let skip :=
         Js.times (Js.minus (queryNumber 1 (q_page req)) (Js.Num 1))
           (queryNumber 10 (q_limit req)) in
       found ← Store.find conditions skip (queryNumber 10 (q_limit req));
       totalCount ← Store.countDocuments conditions;
       mret (reply 200 true ""
               (Some {| files := summary <$> found;
                        sd_pagination :=
                          pagination (q_page req) (q_limit req) totalCount;
                        searchCriteria :=
                          {| sc_query := q_query req;
                             sc_owner := q_owner req;
                             sc_tags := q_tags req |} |})))
    (λ e, failed "Failed to search files" e None).

(** [getFileMetadata]: GET /api/files/:fileId *)
Definition getFileMetadata (fileId : string)
  : World → Response MetadataView * World :=
  tryCatch
    (found ← Store.findOne (Model.byId fileId);
     match found with
     | None => mret (reply 404 false "File not found" None)
     | Some (_, fileMetadata) =>
       mret (reply 200 true ""
               (Some {| mv_fileId := Model.fileId fileMetadata;
                        mv_originalFileName := Model.originalFileName fileMetadata;
                        mv_owner := Model.owner fileMetadata;
                        mv_description := Model.description fileMetadata;
                        mv_tags := Model.tags fileMetadata;
                        mv_versionCount := Model.versionCount fileMetadata;
                        mv_currentVersion := Model.currentVersion fileMetadata;
                        mv_versions := Model.versions fileMetadata;
                        mv_createdAt := Model.createdAt fileMetadata;
                        mv_updatedAt := Model.updatedAt fileMetadata |}))
     end)
    (λ e, failed "Failed to retrieve file metadata" e None).

End WithPrimitives.
End Controller.

(** ** Sequences of requests served one after another *)
Module Engine.
Section WithPrimitives.
Context `{Primitives}.

Inductive Op : Type :=
| CreateFile (req : Controller.UploadRequest) (env : Env)
| AppendVersion (req : Controller.UpdateRequest) (env : Env)
| SoftDelete (req : Controller.DeleteRequest) (env : Env).

Definition exec (w : World) (op : Op) : World :=
  match op with
  | CreateFile req env => snd (Controller.uploadFile req env w)
  | AppendVersion req env => snd (Controller.addNewVersion req env w)
  | SoftDelete req env => snd (Controller.deleteFile req env w)
  end.

Definition run (ops : list Op) (w : World) : World := fold_left exec ops w.

(** The store before the first request. *)
Definition emptyWorld (node : IpfsNode) : World :=
  {| db := []; ipfs := node; drawn := 0 |}.

(** The digest of the payload of an update request. *)
Definition payloadDigest (req : Controller.UpdateRequest) : option string :=
  (λ file, HashUtils.generateSHA256FromBuffer (Controller.buffer file))
  <$> Controller.upd_file req.

(** [addNewVersion] requests served one after another, with their
    responses in order. *)
Fixpoint appendAll (reqs : list (Controller.UpdateRequest * Env)) (w : World)
  : list (Controller.Response Controller.UpdateData) * World :=
  match reqs with
  | [] => ([], w)
  | (req, env) :: rest =>
    let '(r, w1) := Controller.addNewVersion req env w in
    let '(rs, w2) := appendAll rest w1 in
    (r :: rs, w2)
  end.

End WithPrimitives.
End Engine.

(** ** [addNewVersion] calls in flight at the same time

    A handler runs without interruption between two [await]s.
    [addNewVersion] awaits [findOne], then [ipfsService.uploadFile], then
    [save]; a call in flight is therefore in one of the states below, and
    a schedule says which call runs its next stretch. *)
Module Concurrent.
Section WithPrimitives.
Context `{Primitives}.

(** What [save()] of a fetched and mutated document writes: the whole
    document, or the change made to it (a push of the new version onto
    the stored array, as Mongoose does for [versions.push]). *)
Inductive SaveMode : Type := Overwrite | Push.

Inductive Call : Type :=
| Received (req : Controller.UpdateRequest) (env : Env)
| Fetched (req : Controller.UpdateRequest) (env : Env)
    (file : Controller.File) (uploadedBy : string)
    (i : nat) (fileMetadata : Model.FileMetadata)
| Stored (req : Controller.UpdateRequest) (env : Env)
    (file : Controller.File) (uploadedBy : string)
    (i : nat) (fileMetadata : Model.FileMetadata)
    (sha256Hash ipfsHash : string)
| Responded (r : Controller.Response Controller.UpdateData).

Definition savePushed (env : Env) (i : nat) (pushed : Model.FileVersion)
  : M unit := λ w,
  if negb (storeAccepts env) then
    (Throw "FileMetadata validation failed", w)
  else
    (Return (),
     set_db (alter (λ stored,
                      Model.set_versions
                        (Model.versions stored ++ [pushed]) (now env) stored)
                   i (db w)) w).

Definition serverError (e : string) : Controller.Response Controller.UpdateData :=
  Controller.failed "Failed to add new version" e None.

(** One stretch of a call, up to its next [await] or its response. *)
Definition advance (mode : SaveMode) (c : Call) (w : World) : Call * World :=
  match c with
  | Received req env =>
    match Controller.upd_file req with
    | None => (Responded (Controller.reply 400 false "No file provided" None), w)
    | Some file =>
      if negb (Js.truthy (Controller.upd_uploadedBy req)) then
        (Responded (Controller.reply 400 false "uploadedBy is required" None), w)
      else
        match Model.findOne (Model.byId (Controller.upd_fileId req)) (db w) with
        | None => (Responded (Controller.reply 404 false "File not found" None), w)
        | Some (i, fileMetadata) =>
          (Fetched req env file (default "" (Controller.upd_uploadedBy req))
             i fileMetadata, w)
        end
    end
  | Fetched req env file uploadedBy i fileMetadata =>
    let sha256Hash :=
      HashUtils.generateSHA256FromBuffer (Controller.buffer file) in
    match List.find (λ v, String.eqb (Model.sha256Hash v) sha256Hash)
            (Model.versions fileMetadata) with
    | Some existingVersion =>
      (Responded
         (Controller.reply 409 false "This version already exists"
            (Some (Controller.ExistingVersion
                     (Model.versionNumber existingVersion)))), w)
    | None =>
      match IpfsService.uploadFile (Controller.buffer file) w with
      | (Throw e, w') => (Responded (serverError e), w')
      | (Return ipfsResult, w') =>
        (Stored req env file uploadedBy i fileMetadata sha256Hash
           (IpfsService.hash ipfsResult), w')
      end
    end
  | Stored req env file uploadedBy i fileMetadata sha256Hash ipfsHash =>
    let '(newVersion, fileMetadata') :=
      Model.addVersion (now env)
        (Controller.versionData file sha256Hash ipfsHash uploadedBy)
        fileMetadata in
    let saved :=
      match mode with
      | Overwrite => Store.save env i fileMetadata' w
      | Push => savePushed env i (Model.castVersion (now env) newVersion) w
      end in
    match saved with
    | (Throw e, w') => (Responded (serverError e), w')
    | (Return _, w') =>
      (Responded
         (Controller.reply 201 true "New version added successfully"
            (Some (Controller.VersionAdded (Model.fileId fileMetadata')
                     newVersion))), w')
    end
  | Responded r => (Responded r, w)
  end.

Record System : Type := { world : World; calls : list Call }.

(** The call at position [k] runs its next stretch. *)
Definition stepCall (mode : SaveMode) (s : System) (k : nat) : System :=
  match calls s !! k with
  | None => s
  | Some c =>
    let '(c', w') := advance mode c (world s) in
    {| world := w'; calls := <[k := c']> (calls s) |}
  end.

Definition runSchedule (mode : SaveMode) (schedule : list nat) (s : System)
  : System :=
  fold_left (stepCall mode) schedule s.

(** The calls as they arrive, and the schedule that serves [n] calls one
    after another: the three stretches of call [first], then those of the
    next call, and so on. *)
Definition receive (reqs : list (Controller.UpdateRequest * Env)) : list Call :=
  (λ re, Received re.1 re.2) <$> reqs.

Definition serialSchedule (first n : nat) : list nat :=
  flat_map (λ k, [k; k; k]) (seq first n).

Definition response (c : Call)
  : option (Controller.Response Controller.UpdateData) :=
  match c with
  | Responded r => Some r
  | _ => None
  end.

(** The version number a call answered with, when it succeeded. *)
Definition succeededWith (c : Call) : option Z :=
  match c with
  | Responded r =>
    match Controller.status r, Controller.data r with
    | 201%Z, Some (Controller.VersionAdded _ v) => Some (Model.nv_versionNumber v)
    | _, _ => None
    end
  | _ => None
  end.

End WithPrimitives.
End Concurrent.

(** ** Stand-in primitives for worked examples

    The examples below run the handlers on concrete requests; they use
    these transparent stand-ins: digests and content identifiers that
    wrap their input, and a document store that reads a pattern as a
    case-insensitive search for a substring, a number as its decimal
    string, the operators [$eq], [$ne] and [$in] (an array being read as
    [$in]) on strings as MongoDB does, a limit of 0 as no limit and a
    negative limit as its absolute value. *)
Module Demo.

Definition closed_trimEnd (s : string) : Js.trimEnd (s ++ ")") = s ++ ")".
Proof.
  induction s as [|c s IH]; [reflexivity|].
  change (String c s ++ ")") with (String c (s ++ ")")).
  cbn [Js.trimEnd]. rewrite IH. by destruct s.
Qed.

Definition wrapped_trimmed (c : ascii) (s : string) :
  Js.isWhiteSpace c = false →
  Js.trim (String c (s ++ ")")) = String c (s ++ ")").
Proof.
  intros Hc. unfold Js.trim. cbn [Js.trimStart]. rewrite Hc.
  cbn [Js.trimEnd]. rewrite closed_trimEnd. by destruct s.
Qed.

Definition contains (pattern s : string) : bool :=
  match String.index 0 pattern s with
  | Some _ => true
  | None => false
  end.

Definition pattern (v : Js.Value) : option (string → bool) :=
  match v with
  | Js.VString p =>
    if String.eqb p "(" then None
    else Some (λ s, contains (Js.toLowerCase p) (Js.toLowerCase s))
  | _ => None
  end.

(** The strings of an array of strings, trimmed. *)
Fixpoint strings (items : list Js.Value) : option (list string) :=
  match items with
  | [] => Some []
  | Js.VString s :: rest => (λ l, Js.trim s :: l) <$> strings rest
  | _ :: _ => None
  end.

Definition oneOf (wanted : list string) (stored : string) : bool :=
  existsb (String.eqb stored) wanted.

Definition reading (v : Js.Value) : option (string → bool) :=
  match v with
  | Js.VNumber n => Some (λ stored, String.eqb stored (Js.numberToString n))
  | Js.VArray items => oneOf <$> strings items
  | Js.VObject [(op, Js.VString s)] =>
    if String.eqb op "$eq" then Some (λ stored, String.eqb stored (Js.trim s))
    else if String.eqb op "$ne"
         then Some (λ stored, negb (String.eqb stored (Js.trim s)))
    else None
  | Js.VObject [(op, Js.VArray items)] =>
    if String.eqb op "$in" then oneOf <$> strings items else None
  | _ => None
  end.

Definition cursorOther (skip limit : Js.Number) : option (nat * option nat) :=
  match skip, limit with
  | Js.Num s, Js.Num l =>
    if (s <? 0)%Z then None
    else if (l =? 0)%Z then Some (Z.to_nat s, None)
    else Some (Z.to_nat s, Some (Z.to_nat (Z.abs l)))
  | _, _ => None
  end.

Definition primitives : Primitives :=
  {| sha256_hex := λ b, "sha256:" ++ string_of_list_byte b;
     md5_hex := λ s, "md5(" ++ s ++ ")";
     cid_of := λ b, "Qm(" ++ string_of_list_byte b ++ ")";
     cid_size := λ b, (Z.of_nat (length b) + 8)%Z;
     regex_i := pattern;
     query_value := reading;
     cursor_other := cursorOther;
     md5_hex_trimmed := λ s, wrapped_trimmed "m" ("d5(" ++ s) eq_refl;
     cid_of_trimmed :=
       λ b, wrapped_trimmed "Q" ("m(" ++ string_of_list_byte b) eq_refl |}.

Definition bytes (s : string) : list byte := list_byte_of_string s.

Definition node : IpfsNode :=
  {| isConnected := true; online := true; blocks := ∅ |}.

Definition env (t : Z) : Env :=
  {| now := t; entropy := λ n, if Nat.eqb n 0 then "0a0b0c0d" else "1a1b1c1d";
     storeAccepts := true |}.

Definition file (name content : string) : Controller.File :=
  {| Controller.buffer := bytes content;
     Controller.originalname := name;
     Controller.mimetype := "text/plain";
     Controller.size := Z.of_nat (String.length content) |}.

Definition upload (owner name content : string) : Controller.UploadRequest :=
  {| Controller.up_file := Some (file name content);
     Controller.up_owner := Some owner;
     Controller.up_description := None;
     Controller.up_tags := None |}.

Definition update (fid by_ content : string) : Controller.UpdateRequest :=
  {| Controller.upd_fileId := fid;
     Controller.upd_file := Some (file "greeting.txt" content);
     Controller.upd_uploadedBy := Some by_ |}.

(** The store after alice uploaded "hello world" as greeting.txt. *)
Definition world1 : World :=
  snd (@Controller.uploadFile primitives
         (upload "alice" "greeting.txt" "hello world") (env 1000)
         (Engine.emptyWorld node)).

Definition greetingId : string :=
  "md5(greeting.txt_alice_1000_0a0b0c0d)".

Definition version1 : Model.FileVersion :=
  {| Model.versionNumber := 1;
     Model.sha256Hash := "sha256:hello world";
     Model.ipfsHash := "Qm(hello world)";
     Model.fileSize := 11;
     Model.mimeType := "text/plain";
     Model.uploadedAt := 1000;
     Model.uploadedBy := "alice" |}.

(** The file stored in [world1]. *)
Definition greeting : Model.FileMetadata :=
  {| Model.fileId := greetingId;
     Model.originalFileName := "greeting.txt";
     Model.owner := "alice";
     Model.isActive := true;
     Model.versions := [version1];
     Model.tags := [];
     Model.description := "";
     Model.createdAt := 1000;
     Model.updatedAt := 1000 |}.

(** alice uploads "hello world", then appends "hello world v2". *)
Definition history : list (@Engine.Op) :=
  [ Engine.CreateFile (upload "alice" "greeting.txt" "hello world") (env 1000);
    Engine.AppendVersion (update greetingId "alice" "hello world v2") (env 2000) ].

Definition world2 : World :=
  @Engine.run primitives history (Engine.emptyWorld node).

Definition version2 : Model.FileVersion :=
  {| Model.versionNumber := 2;
     Model.sha256Hash := "sha256:hello world v2";
     Model.ipfsHash := "Qm(hello world v2)";
     Model.fileSize := 14;
     Model.mimeType := "text/plain";
     Model.uploadedAt := 2000;
     Model.uploadedBy := "alice" |}.

(** The file stored in [world2]. *)
Definition greeting2 : Model.FileMetadata :=
  Model.set_versions [version1; version2] 2000 greeting.

(** Two more appends, served one after the other. *)
Definition twoAppends : list (Controller.UpdateRequest * Env) :=
  [ (update greetingId "alice" "hello world v2", env 2000);
    (update greetingId "bob" "hello world v3", env 2001) ].

(** The same two appends in flight together; under [interleaved] every
    stretch of the first call is followed by the same stretch of the
    second. *)
Definition racers : Concurrent.System :=
  {| Concurrent.world := world1;
     Concurrent.calls := Concurrent.receive twoAppends |}.

Definition interleaved : list nat := [0; 1; 0; 1; 0; 1]%nat.

(** The same two calls under the serial schedule [0; 0; 0; 1; 1; 1]. *)
Definition served : Concurrent.System :=
  @Concurrent.runSchedule primitives Concurrent.Push
    (Concurrent.serialSchedule 0 2) racers.

(** A second upload by alice of a file of the same name, in the same
    millisecond, for which [crypto.randomBytes] returns the same bytes as
    for the first upload; the bytes of the next call would differ. *)
Definition collidingEnv : Env :=
  {| now := 1000;
     entropy := λ n, if Nat.eqb n 1 then "0a0b0c0d" else "2a2b2c2d";
     storeAccepts := true |}.

Definition collidingUpload : Controller.UploadRequest :=
  upload "alice" "greeting.txt" "another text".

Definition collision : Controller.Response Controller.UploadData * World :=
  @Controller.uploadFile primitives collidingUpload collidingEnv world1.

(** [world1] after the block of version 1 was replaced in the content
    store, and [world1] with a node that does not answer. *)
Definition tampered : World :=
  set_ipfs (set_blocks (<["Qm(hello world)" := bytes "hello w0rld!"]>
                          (blocks (ipfs world1))) (ipfs world1)) world1.

Definition unreachable : World :=
  set_ipfs {| isConnected := true; online := false;
              blocks := blocks (ipfs world1) |} world1.

Definition verify1 : Controller.VerifyRequest :=
  {| Controller.vf_fileId := greetingId; Controller.vf_versionIndex := "1" |}.

Definition delete (fid : string) (owner : string) : Controller.DeleteRequest :=
  {| Controller.del_fileId := fid;
     Controller.del_owner := Some (Js.VString owner) |}.

(** A delete request whose owner is not a string. *)
Definition deleteAs (fid : string) (owner : Js.Value) : Controller.DeleteRequest :=
  {| Controller.del_fileId := fid; Controller.del_owner := Some owner |}.

Definition search (query owner tags : option string) : Controller.SearchRequest :=
  {| Controller.q_query := Js.VString <$> query;
     Controller.q_owner := Js.VString <$> owner;
     Controller.q_tags := Js.VString <$> tags;
     Controller.q_page := None;
     Controller.q_limit := None |}.

Definition searchOwner (owner : string) : Controller.SearchRequest :=
  search None (Some owner) None.

Definition searchNothing : Controller.SearchRequest :=
  search None (Some "") None.

(** The second page of a search by owner, one file to the page. *)
Definition secondOf (owner : string) : Controller.SearchRequest :=
  {| Controller.q_query := None;
     Controller.q_owner := Some (Js.VString owner);
     Controller.q_tags := None;
     Controller.q_page := Some (Js.VString "2");
     Controller.q_limit := Some (Js.VString "1") |}.

(** alice's first upload, her append to it, and her deletion of it. *)
Definition uploaded : Controller.Response Controller.UploadData * World :=
  @Controller.uploadFile primitives
    (upload "alice" "greeting.txt" "hello world") (env 1000)
    (Engine.emptyWorld node).


Definition deleted : Controller.Response Controller.Deleted * World :=
  @Controller.deleteFile primitives (delete greetingId "alice") (env 3000) world1.

(** An upload with tags. *)
Definition taggedUpload : Controller.UploadRequest :=
  {| Controller.up_file := Some (file "notes.txt" "some notes");
     Controller.up_owner := Some "carol";
     Controller.up_description := Some "notes";
     Controller.up_tags := Some "work, draft" |}.

Definition tagged : Controller.Response Controller.UploadData * World :=
  @Controller.uploadFile primitives taggedUpload (env 5000) world1.



(** After her first file, alice uploads a second one, and deletes the
    first. *)
Definition secondUpload : Controller.UploadRequest :=
  upload "alice" "second.txt" "second text".

Definition world3 : World :=
  snd (@Controller.uploadFile primitives secondUpload (env 6000) world1).

Definition world4 : World :=
  snd (@Controller.deleteFile primitives (delete greetingId "alice")
         (env 7000) world3).

(** One digest written in lower case and in upper case. *)
Definition lowerDigest : string :=
  "b94d27b9934d3e08a52e52d7da7dabfac484efe37a5380ee9088f7ace2efcde9".
Definition upperDigest : string :=
  "B94D27B9934D3E08A52E52D7DA7DABFAC484EFE37A5380EE9088F7ACE2EFCDE9".

End Demo.

(** ** Notions used to state the properties *)
Module Spec.

Definition versionNumbers (d : Model.FileMetadata) : list Z :=
  Model.versionNumber <$> Model.versions d.

Definition hashes (d : Model.FileMetadata) : list string :=
  Model.sha256Hash <$> Model.versions d.

Definition fileIds (l : list Model.FileMetadata) : list string :=
  Model.fileId <$> l.

(** The version numbers are 1, 2, ..., number of versions. *)
Definition contiguous (d : Model.FileMetadata) : Prop :=
  versionNumbers d = seqZ 1 (Model.versionCount d).

(** Left-to-right value of a decimal numeral. *)
Fixpoint accum (d : Decimal.uint) (a : Z) : Z :=
  match d with
  | Decimal.Nil => a
  | Decimal.D0 l => accum l (a * 10 + 0)
  | Decimal.D1 l => accum l (a * 10 + 1)
  | Decimal.D2 l => accum l (a * 10 + 2)
  | Decimal.D3 l => accum l (a * 10 + 3)
  | Decimal.D4 l => accum l (a * 10 + 4)
  | Decimal.D5 l => accum l (a * 10 + 5)
  | Decimal.D6 l => accum l (a * 10 + 6)
  | Decimal.D7 l => accum l (a * 10 + 7)
  | Decimal.D8 l => accum l (a * 10 + 8)
  | Decimal.D9 l => accum l (a * 10 + 9)
  end%Z.


(** The rest of a selector after its digits: empty, or starting with a
    code unit that is not a decimal digit. *)
Definition stopsDigits (rest : string) : Prop :=
  match rest with
  | EmptyString => True
  | String c _ => Js.digitValue 10 c = None
  end.



(** [parseInt] after white space and sign have been removed. *)
Definition parseUnsigned (s : string) : option Z :=
  let '(radix, s2) := Js.stripPrefix s in Js.parseDigits radix s2 None.

(** The fields of a stored file that no request changes. *)
Definition sameIdentity (d d' : Model.FileMetadata) : Prop :=
  Model.fileId d' = Model.fileId d
  ∧ Model.owner d' = Model.owner d
  ∧ Model.originalFileName d' = Model.originalFileName d
  ∧ Model.description d' = Model.description d
  ∧ Model.tags d' = Model.tags d
  ∧ Model.createdAt d' = Model.createdAt d.

(** A string made of pairs of hexadecimal digits. *)
Inductive HexPairs : string → Prop :=
| HexPairs_nil : HexPairs ""
| HexPairs_pair c1 c2 r :
    HashUtils.isHexDigit c1 = true → HashUtils.isHexDigit c2 = true →
    HexPairs r → HexPairs (String c1 (String c2 r)).

(** The lower-case hexadecimal digit of a value below 16. *)
Definition hexChar (v : Z) : ascii :=
  if (v <? 10)%Z then ascii_of_nat (48 + Z.to_nat v)
  else ascii_of_nat (87 + Z.to_nat v).

(** What a search with the text filters [owner] and [tags], and with the
    test [named] that the store makes of the text query, asks of a stored
    file: to be active; to have a name or a description that passes the
    test; to belong to the owner, when the owner filter is populated; to
    carry one of the comma-separated tags, when the tags filter is
    populated.  A filter that is absent or empty asks nothing. *)
Definition meets (named : option (string → bool)) (owner tags : option string)
    (d : Model.FileMetadata) : bool :=
  Model.isActive d
  && match named with
     | Some test => test (Model.originalFileName d) || test (Model.description d)
     | None => true
     end
  && (if Js.truthy owner
      then String.eqb (Model.owner d) (Js.trim (default "" owner))
      else true)
  && (if Js.truthy tags
      then bool_decide
             (Exists (λ t, t ∈ Js.trim <$> Js.split "," (default "" tags))
                (Model.tags d))
      else true).

(** The test that the store makes of a text query: none when the query
    is absent or empty; [None] when the store refuses the pattern. *)
Definition queryTest `{Primitives} (query : option string)
  : option (option (string → bool)) :=
  if Js.truthy query
  then Some <$> regex_i (Js.VString (default "" query))
  else Some None.

(** Creation times from the newest to the oldest. *)
Definition newestFirst (l : list Z) : Prop :=
  StronglySorted (λ a b, (b ≤ a)%Z) l.

(** The page [p] of [l], [n] items to the page. *)
Definition pageOf {A} (p n : Z) (l : list A) : list A :=
  take (Z.to_nat n) (drop (Z.to_nat ((p - 1) * n)) l).

End Spec.
(** * Properties *)

(** ** White space at the ends of a string *)
Section Strings.
Import Spec.

Lemma trimStart_clean c r :
  Js.isWhiteSpace c = false → Js.trimStart (String c r) = String c r.
Proof. intros Hc. cbn [Js.trimStart]. by rewrite Hc. Qed.

Lemma trimEnd_cons c r :
  Js.trimEnd (String c r)
  = match Js.trimEnd r with
    | EmptyString =>
      if Js.isWhiteSpace c then EmptyString else String c EmptyString
    | kept => String c kept
    end.
Proof. reflexivity. Qed.

Lemma trimEnd_idempotent s : Js.trimEnd (Js.trimEnd s) = Js.trimEnd s.
Proof.
  induction s as [|c s IH]; [done|]. rewrite trimEnd_cons.
  destruct (Js.trimEnd s) as [|k kept] eqn:Hkept.
  - destruct (Js.isWhiteSpace c) eqn:Hc; [done|].
    rewrite trimEnd_cons. cbn [Js.trimEnd]. by rewrite Hc.
  - rewrite trimEnd_cons, IH. done.
Qed.

(** What [trimStart] returns is empty or starts with a code unit that is
    not white space, and [trimEnd] keeps that. *)
Lemma trimStart_head s :
  match Js.trimStart s with
  | EmptyString => True
  | String c _ => Js.isWhiteSpace c = false
  end.
Proof.
  induction s as [|c s IH]; [done|]. cbn [Js.trimStart].
  by destruct (Js.isWhiteSpace c) eqn:Hc.
Qed.

Lemma trimStart_trimEnd s :
  match s with
  | EmptyString => True
  | String c _ => Js.isWhiteSpace c = false
  end →
  Js.trimStart (Js.trimEnd s) = Js.trimEnd s.
Proof.
  destruct s as [|c r]; [done|]. intros Hc. rewrite trimEnd_cons.
  destruct (Js.trimEnd r); rewrite ?Hc; cbn [Js.trimStart]; by rewrite Hc.
Qed.

Lemma trim_idempotent s : Js.trim (Js.trim s) = Js.trim s.
Proof.
  unfold Js.trim.
  rewrite (trimStart_trimEnd (Js.trimStart s)) by apply trimStart_head.
  apply trimEnd_idempotent.
Qed.

End Strings.

(** ** Parsing of numbers *)
Section ParseInt.
Import Spec.

Lemma accum_pos d p : accum d (Z.pos p) = Z.pos (Pos.of_uint_acc d p).
Proof.
  revert p. induction d; intros p; simpl; try reflexivity;
    match goal with
    | |- accum _ ?a = Z.pos (Pos.of_uint_acc _ ?q) =>
      replace a with (Z.pos q) by lia; apply IHd
    end.
Qed.

Lemma accum_of_uint d : accum d 0 = Z.of_uint d.
Proof.
  unfold Z.of_uint.
  induction d; simpl; try reflexivity;
    rewrite Z.mul_0_l, Z.add_0_l; [exact IHd | apply accum_pos ..].
Qed.

Lemma parseDigits_stop rest a :
  stopsDigits rest → Js.parseDigits 10 rest a = a.
Proof. destruct rest; simpl; [done|]. by intros ->. Qed.

Lemma parseDigits_uint d rest a :
  stopsDigits rest → d ≠ Decimal.Nil →
  Js.parseDigits 10 (NilEmpty.string_of_uint d ++ rest) a
  = Some (accum d (default 0%Z a)).
Proof.
  intros Hrest. revert a.
  induction d; intros a Hd; [done|..];
    (destruct d;
     [ simpl; rewrite parseDigits_stop by done; reflexivity
     | cbn [NilEmpty.string_of_uint String.append Js.parseDigits];
       (etrans; [apply (IHd _ ltac:(discriminate))|]); reflexivity .. ]).
Qed.

Lemma parseIntString_unsigned s :
  Js.parseIntString s
  = let '(sign, s1) := Js.stripSign (Js.trimStart s) in
    match parseUnsigned s1 with
    | None => Js.NaN
    | Some m => Js.Num (sign * m)
    end.
Proof.
  unfold Js.parseIntString, parseUnsigned.
  destruct (Js.stripSign _) as [sign s1]. by destruct (Js.stripPrefix s1).
Qed.

Lemma parseUnsigned_uint d rest :
  stopsDigits rest → (1 ≤ Z.of_uint d)%Z →
  parseUnsigned (NilEmpty.string_of_uint d ++ rest) = Some (Z.of_uint d).
Proof.
  intros Hrest Hd.
  assert (d ≠ Decimal.Nil) as Hnil by (intros ->; done).
  assert (Js.stripPrefix (NilEmpty.string_of_uint d ++ rest)
          = (10%Z, NilEmpty.string_of_uint d ++ rest)) as Hpre.
  { destruct d; try done. by destruct d. }
  unfold parseUnsigned. rewrite Hpre.
  rewrite parseDigits_uint by done. simpl. by rewrite accum_of_uint.
Qed.

Lemma uint_starts_unsigned d rest :
  d ≠ Decimal.Nil →
  Js.stripSign (Js.trimStart (NilEmpty.string_of_uint d ++ rest))
  = (1%Z, NilEmpty.string_of_uint d ++ rest).
Proof. by destruct d. Qed.

(** A selector that starts with the decimal numeral [d], followed by
    something that is not a digit, parses to the value of [d]. *)
Lemma parseIntString_uint d rest :
  stopsDigits rest → (1 ≤ Z.of_uint d)%Z →
  Js.parseIntString (NilEmpty.string_of_uint d ++ rest) = Js.Num (Z.of_uint d).
Proof.
  intros Hrest Hd.
  assert (d ≠ Decimal.Nil) as Hnil by (intros ->; done).
  rewrite parseIntString_unsigned, uint_starts_unsigned by done.
  rewrite parseUnsigned_uint by done. f_equal. lia.
Qed.

Lemma append_empty_r s : (s ++ "")%string = s.
Proof.
  induction s as [|c s IH]; [done|]. exact (f_equal (String c) IH).
Qed.

(** [parseInt] of a number of the embedding gives the number back. *)
Lemma parseInt_number n : Js.parseInt (Js.VNumber n) = n.
Proof.
  destruct n as [|z]; [reflexivity|].
  unfold Js.parseInt. cbn [Js.toString]. unfold Js.numberToString.
  destruct z as [|p|p]; [reflexivity|..]; simpl.
  - pose proof (DecimalPos.Unsigned.to_uint_nonnil p) as Hnil.
    pose proof (DecimalPos.Unsigned.of_to p) as Hof.
    assert (Z.of_uint (Pos.to_uint p) = Z.pos p) as Hval
      by (unfold Z.of_uint; by rewrite Hof).
    unfold NilZero.string_of_uint.
    destruct (Pos.to_uint p) eqn:Hu; [done|..];
      rewrite <- (append_empty_r (NilEmpty.string_of_uint _)),
        parseIntString_uint, Hval by (done || lia); done.
  - pose proof (DecimalPos.Unsigned.to_uint_nonnil p) as Hnil.
    pose proof (DecimalPos.Unsigned.of_to p) as Hof.
    assert (Z.of_uint (Pos.to_uint p) = Z.pos p) as Hval
      by (unfold Z.of_uint; by rewrite Hof).
    rewrite parseIntString_unsigned.
    change (Js.stripSign (Js.trimStart (String "-" ?s))) with (((-1)%Z, s)).
    unfold NilZero.string_of_uint.
    destruct (Pos.to_uint p) eqn:Hu; [done|..];
      rewrite <- (append_empty_r (NilEmpty.string_of_uint _)),
        parseUnsigned_uint, Hval by (done || lia); f_equal; lia.
Qed.

End ParseInt.

(** ** Lookups in the collection and in a version list *)
Section Lookups.
Import Spec.

Lemma hasHash_true hash d :
  Model.hasHash hash d = true ↔ hash ∈ hashes d.
Proof.
  unfold Model.hasHash, hashes. rewrite existsb_exists, list_elem_of_fmap.
  split.
  - intros (v & Hv & Heq). apply String.eqb_eq in Heq.
    exists v. split; [done|]. by apply list_elem_of_In.
  - intros (v & -> & Hv). exists v.
    split; [by apply list_elem_of_In|]. apply String.eqb_refl.
Qed.

Lemma findOne_Some cond l i d :
  Model.findOne cond l = Some (i, d) →
  l !! i = Some d ∧ cond d = true.
Proof. unfold Model.findOne. by intros (? & ? & _)%list_find_Some. Qed.

Lemma findOne_None cond l :
  Model.findOne cond l = None ↔ Forall (λ d, cond d = false) l.
Proof.
  unfold Model.findOne. rewrite list_find_None.
  apply Forall_proper; [|done]. intros d. by destruct (cond d).
Qed.

Lemma findOne_is_Some cond l d :
  d ∈ l → cond d = true → is_Some (Model.findOne cond l).
Proof. intros. by eapply (list_find_elem_of (λ d, cond d = true)). Qed.

(** [versions.find(v => v.sha256Hash === hash)] *)
Lemma find_hash_Some hash vs v :
  List.find (λ v, String.eqb (Model.sha256Hash v) hash) vs = Some v →
  v ∈ vs ∧ Model.sha256Hash v = hash.
Proof.
  intros [Hin Heq]%find_some. rewrite list_elem_of_In.
  by apply String.eqb_eq in Heq.
Qed.

Lemma find_hash_None hash vs :
  List.find (λ v, String.eqb (Model.sha256Hash v) hash) vs = None ↔
  hash ∉ Model.sha256Hash <$> vs.
Proof.
  rewrite list_elem_of_fmap. split.
  - intros Hnone (v & -> & Hv).
    apply list_elem_of_In in Hv. apply (find_none _ _ Hnone) in Hv.
    by rewrite String.eqb_refl in Hv.
  - intros Hnot. destruct (List.find _ vs) as [v|] eqn:Hfind; [|done].
    apply find_hash_Some in Hfind as [Hv Heq]. destruct Hnot. eauto.
Qed.

Lemma contiguous_first d v :
  Model.versions d = [v] → Model.versionNumber v = 1%Z → contiguous d.
Proof.
  unfold contiguous, versionNumbers, Model.versionCount.
  intros -> Hv. simpl. by rewrite Hv.
Qed.

Lemma contiguous_append d v ts :
  contiguous d →
  Model.versionNumber v = (Model.versionCount d + 1)%Z →
  contiguous (Model.set_versions (Model.versions d ++ [v]) ts d).
Proof.
  unfold contiguous, versionNumbers, Model.versionCount. simpl.
  intros Hd Hv. rewrite fmap_app, length_app, Hd. simpl.
  rewrite Nat.add_1_r, seqZ_S, Hv. f_equal. f_equal. lia.
Qed.

End Lookups.

(** ** What each handler does to the collection *)
Section Outcomes.
Context `{Primitives}.
Import Spec.

Ltac run_handler :=
  unfold Controller.uploadFile, Controller.addNewVersion,
    Controller.deleteFile, Controller.downloadFile,
    Controller.verifyFileIntegrity,
    tryCatch, catch, throw, pure, mbind, M_bind, mret, M_ret,
    Store.findOne, Store.findByHash, Store.saveNew, Store.save,
    Store.findOneOwned,
    IpfsService.uploadFile, IpfsService.downloadFile,
    HashUtils.generateFileId in *.

Lemma fileIdOf_trimmed originalName owner timestamp randomBytes :
  Js.trim (HashUtils.fileIdOf originalName owner timestamp randomBytes)
  = HashUtils.fileIdOf originalName owner timestamp randomBytes.
Proof. apply md5_hex_trimmed. Qed.

Lemma existsb_fileId_false fid l :
  existsb (λ d, String.eqb (Model.fileId d) fid) l = false → fid ∉ fileIds l.
Proof.
  intros Hex (d & -> & Hd)%list_elem_of_fmap.
  assert (existsb (λ d0, String.eqb (Model.fileId d0) (Model.fileId d)) l = true)
    as Htrue; [|congruence].
  apply existsb_exists. exists d.
  split; [by apply list_elem_of_In | apply String.eqb_refl].
Qed.

Lemma uploadFile_outcome req env w r w' :
  Controller.uploadFile req env w = (r, w') →
  (db w' = db w ∧ Controller.status r ≠ 201%Z)
  ∨ (∃ doc v file,
       Controller.status r = 201%Z
       ∧ Controller.up_file req = Some file
       ∧ db w' = (db w ++ [doc])%list
       ∧ Model.versions doc = [v]
       ∧ Model.versionNumber v = 1%Z
       ∧ Model.sha256Hash v = sha256_hex (Controller.buffer file)
       ∧ Model.isActive doc = true
       ∧ (Model.fileId doc ∉ fileIds (db w))
       ∧ Model.findByHash (sha256_hex (Controller.buffer file)) (db w) = None
       ∧ ∃ name owner ipfsHash size mime at_,
           Controller.data r
           = Some (Controller.Uploaded (Model.fileId doc) name owner
                     (Model.sha256Hash v) ipfsHash size mime 1 at_)).
Proof.
  intros Hrun. run_handler.
  repeat case_match; simplify_eq; simpl in *;
    try (left; split; [done | discriminate]).
  all: right; eexists _, _, _; split_and!;
    first [ done
          | apply existsb_fileId_false; by destruct (existsb _ _)
          | eexists _, _, _, _, _, _; cbn; by rewrite fileIdOf_trimmed ].
Qed.

Lemma addNewVersion_outcome req env w r w' :
  Controller.addNewVersion req env w = (r, w') →
  (db w' = db w ∧ Controller.status r ≠ 201%Z)
  ∨ (∃ i doc v file,
       Controller.status r = 201%Z
       ∧ Controller.upd_file req = Some file
       ∧ Model.findOne (Model.byId (Controller.upd_fileId req)) (db w)
         = Some (i, doc)
       ∧ Model.versionNumber v = (Model.versionCount doc + 1)%Z
       ∧ Model.sha256Hash v = sha256_hex (Controller.buffer file)
       ∧ (Model.sha256Hash v ∉ hashes doc)
       ∧ db w' = <[i := Model.set_versions (Model.versions doc ++ [v])
                           (now env) doc]> (db w)
       ∧ ∃ answered,
           v = Model.castVersion (now env) answered
           ∧ Controller.data r
             = Some (Controller.VersionAdded (Model.fileId doc) answered)).
Proof.
  intros Hrun. run_handler. unfold Model.addVersion in *.
  repeat case_match; simplify_eq; simpl in *;
    try (left; split; [done | discriminate]).
  right. eexists _, _, _, _. split_and!.
  3: done.
  6: (unfold Model.set_updatedAt; simpl; reflexivity).
  all: first [done | by apply find_hash_None | by eexists].
Qed.

Lemma deleteFile_outcome req env w r w' :
  Controller.deleteFile req env w = (r, w') →
  (db w' = db w ∧ Controller.status r ≠ 200%Z)
  ∨ (∃ i doc ownerIs,
       Controller.status r = 200%Z
       ∧ Js.truthyValue (Controller.del_owner req) = true
       ∧ Store.stringQuery (default Js.VNull (Controller.del_owner req))
         = Some ownerIs
       ∧ Model.findOne
           (Model.byIdOwner (Controller.del_fileId req) ownerIs) (db w)
         = Some (i, doc)
       ∧ db w' = <[i := Model.set_updatedAt (now env)
                           (Model.set_isActive false doc)]> (db w)).
Proof.
  intros Hrun. run_handler.
  destruct (Js.truthyValue (Controller.del_owner req)) eqn:Howner;
    [|simpl in Hrun; simplify_eq; left; split; [done|discriminate]].
  cbn [negb] in Hrun.
  destruct (Store.stringQuery _) as [ownerIs|] eqn:Hquery;
    [|simpl in Hrun; simplify_eq; left; split; [done|discriminate]].
  repeat case_match; simplify_eq; simpl in *;
    try (left; split; [done | discriminate]).
  right. by eexists _, _, _.
Qed.

(** Every handler leaves the version numbers of every stored file
    contiguous. *)
Lemma exec_contiguous op w :
  Forall contiguous (db w) → Forall contiguous (db (Engine.exec w op)).
Proof.
  intros Hw. destruct op as [req env|req env|req env]; simpl.
  - destruct (Controller.uploadFile req env w) as [r w'] eqn:Hrun. simpl.
    apply uploadFile_outcome in Hrun
      as [[-> _]|(doc & v & file & _ & _ & -> & Hvs & Hv & _)]; [done|].
    apply Forall_app. split; [done|].
    apply Forall_singleton. by eapply contiguous_first.
  - destruct (Controller.addNewVersion req env w) as [r w'] eqn:Hrun. simpl.
    apply addNewVersion_outcome in Hrun
      as [[-> _]|(i & doc & v & file & _ & _ & Hfind & Hv & _ & _ & -> & _)];
      [done|].
    apply findOne_Some in Hfind as [Hi _].
    apply Forall_insert; [done|].
    apply contiguous_append; [|done].
    by eapply (Forall_lookup_1 _ _ _ _ Hw).
  - destruct (Controller.deleteFile req env w) as [r w'] eqn:Hrun. simpl.
    apply deleteFile_outcome in Hrun
      as [[-> _]|(i & doc & ownerIs & _ & _ & _ & Hfind & ->)]; [done|].
    apply findOne_Some in Hfind as [Hi _].
    apply Forall_insert; [done|].
    by apply (Forall_lookup_1 _ _ _ _ Hw Hi).
Qed.

Lemma run_contiguous ops w :
  Forall contiguous (db w) → Forall contiguous (db (Engine.run ops w)).
Proof.
  revert w. induction ops as [|op ops IH]; intros w Hw; [done|].
  apply IH. by apply exec_contiguous.
Qed.

End Outcomes.
(** ** Version numbering and deduplication *)
Section VersionHistory.
Context `{Primitives}.
Import Spec.

Ltac run_handler :=
  unfold Controller.uploadFile, Controller.addNewVersion,
    Controller.deleteFile, Controller.downloadFile,
    Controller.verifyFileIntegrity,
    tryCatch, catch, throw, pure, mbind, M_bind, mret, M_ret,
    Store.findOne, Store.findByHash, Store.saveNew, Store.save,
    IpfsService.uploadFile, IpfsService.downloadFile,
    HashUtils.generateFileId in *.

(** C1. Every file stored after any sequence of requests served from
    the empty store has the version numbers 1, 2, ..., number of
    versions; a successful [uploadFile] stores a new file whose single
    version has number 1, and a successful [addNewVersion] appends to
    the fetched file one version whose number is the file's version
    count plus one, and answers with the plain object of which that
    version is the stored form. *)
Theorem version_numbers_contiguous (ops : list Engine.Op) (node : IpfsNode) :
  Forall contiguous (db (Engine.run ops (Engine.emptyWorld node)))
  ∧ (∀ req env w r w',
       Controller.uploadFile req env w = (r, w') →
       Controller.status r = 201%Z →
       ∃ doc v,
         db w' = (db w ++ [doc])%list
         ∧ Model.versions doc = [v]
         ∧ Model.versionNumber v = 1%Z
         ∧ ∃ name owner ipfsHash size mime at_,
             Controller.data r
             = Some (Controller.Uploaded (Model.fileId doc) name owner
                       (Model.sha256Hash v) ipfsHash size mime 1 at_))
  ∧ (∀ req env w r w',
       Controller.addNewVersion req env w = (r, w') →
       Controller.status r = 201%Z →
       ∃ i doc v,
         Model.findOne (Model.byId (Controller.upd_fileId req)) (db w)
         = Some (i, doc)
         ∧ Model.versionNumber v = (Model.versionCount doc + 1)%Z
         ∧ db w' = <[i := Model.set_versions (Model.versions doc ++ [v])
                             (now env) doc]> (db w)
         ∧ ∃ answered,
             v = Model.castVersion (now env) answered
             ∧ Controller.data r
               = Some (Controller.VersionAdded (Model.fileId doc) answered)).
Proof.
  split_and!.
  - apply run_contiguous. constructor.
  - intros req env w r w' Hrun Hok.
    apply uploadFile_outcome in Hrun
      as [[_ Hno]|(doc & v & file & _ & _ & Hdb & Hvs & Hv & _ & _ & _ & _ & Hdata)];
      [done|].
    exists doc, v. done.
  - intros req env w r w' Hrun Hok.
    apply addNewVersion_outcome in Hrun
      as [[_ Hno]|(i & doc & v & file & _ & _ & Hfind & Hv & _ & _ & Hdb & Hdata)];
      [done|].
    exists i, doc, v. done.
Qed.

Lemma findByHash_Some hash l i d :
  Model.findByHash hash l = Some (i, d) →
  l !! i = Some d ∧ hash ∈ hashes d ∧ Model.isActive d = true.
Proof.
  intros [Hi [Hh Ha]%andb_true_iff]%findOne_Some.
  by apply hasHash_true in Hh.
Qed.

Lemma findByHash_is_Some hash l d :
  d ∈ l → Model.isActive d = true → hash ∈ hashes d →
  is_Some (Model.findByHash hash l).
Proof.
  intros Hd Ha Hh. eapply findOne_is_Some; [done|].
  apply andb_true_iff. split; [by apply hasHash_true | done].
Qed.

Lemma uploadFile_duplicate req env w file i existing :
  Controller.up_file req = Some file →
  Js.truthy (Controller.up_owner req) = true →
  Model.findByHash (sha256_hex (Controller.buffer file)) (db w)
  = Some (i, existing) →
  Controller.uploadFile req env w
  = (Controller.reply 409 false "File with identical content already exists"
       (Some (Controller.ExistingFile (Model.fileId existing)
                (sha256_hex (Controller.buffer file)))), w).
Proof.
  intros Hfile Howner Hfind. run_handler.
  unfold HashUtils.generateSHA256FromBuffer.
  rewrite Hfile, Howner. simpl. by rewrite Hfind.
Qed.

Lemma uploadFile_409 req env w :
  Controller.status (Controller.uploadFile req env w).1 = 409%Z →
  ∃ file, Controller.up_file req = Some file
          ∧ is_Some (Model.findByHash (sha256_hex (Controller.buffer file)) (db w)).
Proof.
  run_handler. unfold HashUtils.generateSHA256FromBuffer.
  repeat case_match; simplify_eq; simpl; try discriminate.
  intros _. eauto.
Qed.

(** C2. When the digest of the uploaded payload is the hash of a
    version of an active file of the store, [uploadFile] (with a file and
    an owner in the request) answers 409 with the identifier of an active
    file that holds this hash and leaves the whole world as it was: no
    new file, no change to a stored file, no block written to the content
    store.  When only inactive files hold the hash, the answer is not
    409. *)
Theorem create_rejects_duplicate_content req env w file :
  Controller.up_file req = Some file →
  Js.truthy (Controller.up_owner req) = true →
  let digest := HashUtils.generateSHA256FromBuffer (Controller.buffer file) in
  ((∃ d, d ∈ db w ∧ Model.isActive d = true ∧ digest ∈ hashes d) →
   ∃ existing,
     existing ∈ db w ∧ Model.isActive existing = true
     ∧ digest ∈ hashes existing
     ∧ Controller.uploadFile req env w
       = (Controller.reply 409 false
            "File with identical content already exists"
            (Some (Controller.ExistingFile (Model.fileId existing) digest)),
          w))
  ∧ ((∀ d, d ∈ db w → digest ∈ hashes d → Model.isActive d = false) →
     Controller.status (Controller.uploadFile req env w).1 ≠ 409%Z).
Proof.
  intros Hfile Howner digest. split.
  - intros (d & Hd & Ha & Hh).
    destruct (findByHash_is_Some digest (db w) d) as [[i existing] Hfind];
      [done..|].
    pose proof (findByHash_Some _ _ _ _ Hfind) as (Hi & Hh' & Ha').
    exists existing. split_and!; [|done|done|].
    + by eapply list_elem_of_lookup_2.
    + by eapply uploadFile_duplicate.
  - intros Hinactive (file' & Hfile' & [[i d] Hfind])%uploadFile_409.
    assert (file' = file) as -> by congruence.
    apply findByHash_Some in Hfind as (Hi & Hh & Ha).
    apply list_elem_of_lookup_2 in Hi.
    specialize (Hinactive d Hi Hh). congruence.
Qed.

Lemma elem_of_fmap_NoDup_eq {A B} (f : A → B) (l : list A) x y :
  NoDup (f <$> l) → x ∈ l → y ∈ l → f x = f y → x = y.
Proof.
  induction l as [|a l IH]; intros Hnd Hx Hy Hf; [by apply elem_of_nil in Hx|].
  rewrite fmap_cons in Hnd. apply NoDup_cons in Hnd as [Ha Hnd].
  apply elem_of_cons in Hx as [->|Hx]; apply elem_of_cons in Hy as [->|Hy];
    [done|..|by apply IH].
  - destruct Ha. rewrite Hf. by apply list_elem_of_fmap_2.
  - destruct Ha. rewrite <- Hf. by apply list_elem_of_fmap_2.
Qed.

(** C3. When the digest of the payload is the hash of a version of the
    active file that [addNewVersion] fetches (the request carrying a file
    and [uploadedBy]), the answer is 409 with the number of a version of
    that file which has this hash (the given version itself when no two
    versions of the file share a hash), and the world is left as it was:
    no block is written to the content store and the file keeps its
    versions. *)
Theorem append_rejects_duplicate_version req env w file i F v :
  Controller.upd_file req = Some file →
  Js.truthy (Controller.upd_uploadedBy req) = true →
  Model.findOne (Model.byId (Controller.upd_fileId req)) (db w) = Some (i, F) →
  v ∈ Model.versions F →
  Model.sha256Hash v
  = HashUtils.generateSHA256FromBuffer (Controller.buffer file) →
  ∃ v',
    v' ∈ Model.versions F
    ∧ Model.sha256Hash v' = Model.sha256Hash v
    ∧ (NoDup (hashes F) → v' = v)
    ∧ Controller.addNewVersion req env w
      = (Controller.reply 409 false "This version already exists"
           (Some (Controller.ExistingVersion (Model.versionNumber v'))), w)
    ∧ ipfs (Controller.addNewVersion req env w).2 = ipfs w
    ∧ db (Controller.addNewVersion req env w).2 !! i = Some F.
Proof.
  intros Hfile Hby Hfind Hv Hsha.
  destruct (List.find
              (λ x, String.eqb (Model.sha256Hash x)
                      (HashUtils.generateSHA256FromBuffer (Controller.buffer file)))
              (Model.versions F)) as [v'|] eqn:Hdup.
  - pose proof (find_hash_Some _ _ _ Hdup) as [Hv' Hsha'].
    assert (Controller.addNewVersion req env w
            = (Controller.reply 409 false "This version already exists"
                 (Some (Controller.ExistingVersion (Model.versionNumber v'))), w))
      as Hrun.
    { run_handler. rewrite Hfile, Hby. simpl. rewrite Hfind, Hdup. done. }
    exists v'. rewrite Hrun. simpl. split_and!; try done.
    + congruence.
    + intros Hnd. eapply (elem_of_fmap_NoDup_eq Model.sha256Hash); eauto.
      congruence.
    + by apply findOne_Some in Hfind as [Hi _].
  - apply find_hash_None in Hdup. destruct Hdup.
    rewrite <- Hsha. by apply list_elem_of_fmap_2.
Qed.

End VersionHistory.

(** ** Soft delete *)
Section SoftDelete.
Context `{Primitives}.
Import Spec.

Ltac run_handler :=
  unfold Controller.deleteFile,
    tryCatch, catch, throw, pure, mbind, M_bind, mret, M_ret,
    Store.findOne, Store.findOneOwned, Store.save in *.

Local Abbreviation notFound :=
  (Controller.reply 404%Z false "File not found or access denied"
     (@None Controller.Deleted)).

Lemma byIdOwner_true fid ownerIs d :
  Model.byIdOwner fid ownerIs d = true ↔
  Model.fileId d = Js.trim fid ∧ ownerIs (Model.owner d) = true
  ∧ Model.isActive d = true.
Proof.
  unfold Model.byIdOwner. rewrite !andb_true_iff, !String.eqb_eq. tauto.
Qed.

(** The test made of a claimed owner that is a string. *)
Lemma stringQuery_string claimed :
  Store.stringQuery (Js.VString claimed)
  = Some (λ stored, String.eqb stored (Js.trim claimed)).
Proof. reflexivity. Qed.

Lemma deleteFile_none req env w ownerIs :
  Js.truthyValue (Controller.del_owner req) = true →
  Store.stringQuery (default Js.VNull (Controller.del_owner req))
  = Some ownerIs →
  Model.findOne
    (Model.byIdOwner (Controller.del_fileId req) ownerIs) (db w) = None →
  Controller.deleteFile req env w = (notFound, w).
Proof.
  intros Howner Hquery Hfind. run_handler. rewrite Howner. cbn [negb].
  by rewrite Hquery, Hfind.
Qed.

Lemma fileIds_insert l i d d' :
  l !! i = Some d → Model.fileId d' = Model.fileId d →
  fileIds (<[i := d']> l) = fileIds l.
Proof.
  intros Hi Hid. unfold fileIds. rewrite list_fmap_insert, Hid.
  apply list_insert_id. by rewrite list_lookup_fmap, Hi.
Qed.

(** The [unique] index: no two stored files share a [fileId]. *)
Lemma exec_unique_ids op w :
  NoDup (fileIds (db w)) → NoDup (fileIds (db (Engine.exec w op))).
Proof.
  intros Hw. destruct op as [req env|req env|req env]; simpl.
  - destruct (Controller.uploadFile req env w) as [r w'] eqn:Hrun. simpl.
    apply uploadFile_outcome in Hrun
      as [[-> _]|(doc & v & file & _ & _ & -> & _ & _ & _ & _ & Hfresh & _)];
      [done|].
    unfold fileIds. rewrite fmap_app. apply NoDup_app. split_and!; [done| |].
    + intros x Hx Hx'. apply list_elem_of_singleton in Hx'. by subst.
    + apply NoDup_singleton.
  - destruct (Controller.addNewVersion req env w) as [r w'] eqn:Hrun. simpl.
    apply addNewVersion_outcome in Hrun
      as [[-> _]|(i & doc & v & file & _ & _ & Hfind & _ & _ & _ & -> & _)];
      [done|].
    apply findOne_Some in Hfind as [Hi _].
    by erewrite fileIds_insert.
  - destruct (Controller.deleteFile req env w) as [r w'] eqn:Hrun. simpl.
    apply deleteFile_outcome in Hrun
      as [[-> _]|(i & doc & ownerIs & _ & _ & _ & Hfind & ->)]; [done|].
    apply findOne_Some in Hfind as [Hi _].
    by erewrite fileIds_insert.
Qed.

Lemma run_unique_ids ops node :
  NoDup (fileIds (db (Engine.run ops (Engine.emptyWorld node)))).
Proof.
  assert (∀ w, NoDup (fileIds (db w)) → NoDup (fileIds (db (Engine.run ops w))))
    as Hrun.
  { induction ops as [|op ops IH]; intros w Hw; [done|].
    apply IH. by apply exec_unique_ids. }
  apply Hrun. constructor.
Qed.

(** With distinct identifiers, the file that a query on [fileId] finds is
    the only stored file with that identifier. *)
Lemma findOne_unique cond (l : list Model.FileMetadata) i d :
  NoDup (fileIds l) → l !! i = Some d → cond d = true →
  (∀ d', cond d' = true → Model.fileId d' = Model.fileId d) →
  Model.findOne cond l = Some (i, d).
Proof.
  intros Hnd Hi Hd Hid. unfold Model.findOne. apply list_find_Some.
  split_and!; [done|done|].
  intros j y Hj Hlt Hy. apply Hid in Hy.
  assert (i = j) as ->; [|lia].
  eapply (NoDup_lookup _ _ _ (Model.fileId d) Hnd); unfold fileIds;
    rewrite list_lookup_fmap; [by rewrite Hi|by rewrite Hj, <- Hy].
Qed.

(** C6, as the code has it.  A claimed owner that is missing or falsy is
    answered 400 before any lookup.  With a claimed owner that is a
    non-empty string, the requested [fileId] and the claimed owner are
    compared with the stored values after their [trim] setters ran: when
    no stored file is active with that [fileId] and that owner,
    [deleteFile] answers 404 (the same answer whether the file is
    missing, inactive or owned by someone else) and changes nothing; when
    there is such a file (file identifiers being distinct) and the store
    accepts the write, the answer is 200, the stored file has
    [isActive = false], and the same request made again answers 404. *)
Theorem soft_delete_owner_check req env w :
  let fid := Controller.del_fileId req in
  (Js.truthyValue (Controller.del_owner req) = false →
   Controller.deleteFile req env w
   = (Controller.reply 400 false "Owner verification required" None, w))
  ∧ ∀ claimed,
      Controller.del_owner req = Some (Js.VString claimed) →
      claimed ≠ "" →
      ((∀ d, d ∈ db w →
             ¬ (Model.fileId d = Js.trim fid
                ∧ Model.owner d = Js.trim claimed
                ∧ Model.isActive d = true)) →
       Controller.deleteFile req env w = (notFound, w))
      ∧ (∀ i F,
           NoDup (fileIds (db w)) →
           db w !! i = Some F →
           Model.fileId F = Js.trim fid →
           Model.owner F = Js.trim claimed →
           Model.isActive F = true →
           storeAccepts env = true →
           ∃ w',
             Controller.deleteFile req env w
             = (Controller.reply 200 true "File deleted successfully"
                  (Some {| Controller.deleted_fileId := fid;
                           Controller.deletedAt := now env |}), w')
             ∧ db w' = <[i := Model.set_updatedAt (now env)
                                 (Model.set_isActive false F)]> (db w)
             ∧ Model.isActive <$> db w' !! i = Some false
             ∧ ∀ env2, Controller.deleteFile req env2 w' = (notFound, w')).
Proof.
  intros fid. split.
  { intros Hfalsy. run_handler. by rewrite Hfalsy. }
  intros claimed Howner Hne.
  assert (Js.truthyValue (Controller.del_owner req) = true) as Htruthy.
  { rewrite Howner. cbn. by destruct claimed. }
  assert (Store.stringQuery (default Js.VNull (Controller.del_owner req))
          = Some (λ stored, String.eqb stored (Js.trim claimed))) as Hquery
    by (by rewrite Howner).
  split.
  - intros Hnone. eapply deleteFile_none; [done|done|].
    apply findOne_None, Forall_forall. intros d Hd.
    specialize (Hnone d Hd). fold fid.
    destruct (Model.byIdOwner fid _ d) eqn:Hcond; [|done].
    apply byIdOwner_true in Hcond as (? & ?%String.eqb_eq & ?). by destruct Hnone.
  - intros i F Hnd Hi Hid Hown Hact Hacc.
    assert (Model.findOne
              (Model.byIdOwner fid (λ stored, String.eqb stored (Js.trim claimed)))
              (db w) = Some (i, F)) as Hfind.
    { apply findOne_unique; [done|done| |].
      - apply byIdOwner_true. by rewrite String.eqb_eq.
      - intros d' (? & _)%byIdOwner_true. congruence. }
    eexists. split_and!.
    + run_handler. rewrite Htruthy. cbn [negb]. fold fid.
      rewrite Hquery, Hfind, Hacc. simpl. reflexivity.
    + done.
    + simpl. rewrite list_lookup_insert_eq; [done|]. by eapply lookup_lt_Some.
    + intros env2. eapply deleteFile_none; [done|done|]. fold fid.
      apply findOne_None, Forall_forall. intros d Hd. simpl in Hd.
      apply list_elem_of_lookup in Hd as [j Hj].
      destruct (decide (i = j)) as [<-|Hne'].
      * rewrite list_lookup_insert_eq in Hj by (by eapply lookup_lt_Some).
        simplify_eq. unfold Model.byIdOwner. simpl. apply andb_false_r.
      * rewrite list_lookup_insert_ne in Hj by done.
        destruct (Model.byIdOwner fid _ d) eqn:Hd; [|done].
        apply byIdOwner_true in Hd as (Hid' & _ & _).
        destruct Hne'. eapply (NoDup_lookup _ _ _ _ Hnd).
        -- unfold fileIds. by rewrite list_lookup_fmap, Hi.
        -- unfold fileIds. rewrite list_lookup_fmap, Hj. simpl. congruence.
Qed.

End SoftDelete.
(** ** Integrity verification *)
Section Integrity.
Context `{Primitives}.
Import Spec.

Ltac run_handler :=
  unfold Controller.verifyFileIntegrity,
    tryCatch, catch, throw, pure, mbind, M_bind, mret, M_ret,
    Store.findOne in *.

Lemma downloadFile_world cid w :
  (IpfsService.downloadFile cid w).2 = w.
Proof. unfold IpfsService.downloadFile. by repeat case_match. Qed.

(** C5. For the version that [verifyFileIntegrity] resolves in an active
    file: when the content store returns a payload, the answer is 200
    whatever the comparison gives, and carries the match flag (digests
    compared without regard to case), the size flag and the recomputed
    digest; when the fetch from the content store fails, the answer is the
    500 of the inner handler, with its own message and the failure as
    [error].  Nothing is written in either case. *)
Theorem verify_reports_mismatch_as_result req env w i F version :
  Model.findOne (Model.byId (Controller.vf_fileId req)) (db w) = Some (i, F) →
  let versionNumber := Js.parseInt (Js.VString (Controller.vf_versionIndex req)) in
  Model.getVersion (Js.VNumber versionNumber) F = Some version →
  (∀ fileBuffer,
     (IpfsService.downloadFile (Model.ipfsHash version) w).1 = Return fileBuffer →
     let matches :=
       String.eqb (Js.toLowerCase (sha256_hex fileBuffer))
         (Js.toLowerCase (Model.sha256Hash version)) in
     Controller.verifyFileIntegrity req env w
     = (Controller.reply 200 true
          (if matches then "File integrity verified"
           else "File integrity verification failed")
          (Some (Controller.VerificationResult (Controller.vf_fileId req)
                   versionNumber (Model.ipfsHash version)
                   (Model.sha256Hash version) (sha256_hex fileBuffer) matches
                   (Z.of_nat (length fileBuffer)) (Model.fileSize version)
                   (Z.eqb (Z.of_nat (length fileBuffer)) (Model.fileSize version))
                   (now env))), w))
  ∧ (∀ e,
       (IpfsService.downloadFile (Model.ipfsHash version) w).1 = Throw e →
       Controller.verifyFileIntegrity req env w
       = (Controller.failed "Failed to download file from IPFS for verification" e
            (Some (Controller.VerifyContext (Controller.vf_fileId req)
                     versionNumber (Model.ipfsHash version))), w)).
Proof.
  intros Hfind versionNumber Hversion.
  pose proof (downloadFile_world (Model.ipfsHash version) w) as Hw.
  split.
  - intros fileBuffer Hget matches. run_handler.
    rewrite Hfind. cbv beta iota zeta. fold versionNumber. rewrite Hversion.
    destruct (IpfsService.downloadFile _ w) as [res w1]. simpl in *.
    by subst.
  - intros e Hget. run_handler.
    rewrite Hfind. cbv beta iota zeta. fold versionNumber. rewrite Hversion.
    destruct (IpfsService.downloadFile _ w) as [res w1]. simpl in *.
    by subst.
Qed.

End Integrity.

(** ** Version resolution *)
Section Resolution.
Import Spec.

Lemma getVersion_number (n : Js.Number) d :
  Model.getVersion (Js.VNumber n) d
  = List.find (λ v, Js.strictEq (Js.Num (Model.versionNumber v)) n)
      (Model.versions d).
Proof. unfold Model.getVersion. by rewrite parseInt_number. Qed.


Lemma getLatestVersion_last d :
  Model.getLatestVersion d = last (Model.versions d).
Proof.
  unfold Model.getLatestVersion. rewrite last_lookup.
  destruct (Model.versions d) as [|v vs]; [done|].
  simpl. by rewrite Nat.sub_0_r.
Qed.

(** In a list numbered [a], [a + 1], ... the first version with the
    highest number is the last one. *)
Lemma find_highest vs a N :
  Model.versionNumber <$> vs = seqZ a (Z.of_nat (length vs)) →
  vs ≠ [] →
  N = (a + Z.of_nat (length vs) - 1)%Z →
  List.find (λ v, Z.eqb (Model.versionNumber v) N) vs = last vs.
Proof.
  revert a. induction vs as [|x vs IH]; intros a Hnum Hne HN; [done|].
  rewrite seqZ_cons in Hnum by (simpl; lia).
  rewrite fmap_cons in Hnum. injection Hnum as Hx Hrest.
  destruct vs as [|y vs].
  - simpl in *. replace N with (Model.versionNumber x) by lia.
    by rewrite Z.eqb_refl.
  - cbn [List.find].
    destruct (Z.eqb_spec (Model.versionNumber x) N) as [Heq|_].
    { simpl in HN. lia. }
    change (last (x :: y :: vs)) with (last (y :: vs)).
    apply (IH (Z.succ a)); [|done|simpl in *; lia].
    rewrite Hrest. f_equal. simpl. lia.
Qed.

Lemma numberToString_truthy n : Js.truthy (Some (Js.numberToString n)) = true.
Proof.
  destruct n as [|[|p|p]]; [done|done|..]; simpl;
    unfold NilZero.string_of_uint; by destruct (Pos.to_uint p).
Qed.

Lemma selectVersion_present s d :
  Js.truthy (Some s) = true →
  Controller.selectVersion (Some s) d
  = match Model.getVersion (Js.VNumber (Js.parseIntString s)) d with
    | None =>
      inl (Controller.reply 404 false
             ("Version " ++ Js.numberToString (Js.parseIntString s) ++ " not found")
             None)
    | Some version => inr version
    end.
Proof. intros Hs. unfold Controller.selectVersion. by rewrite Hs. Qed.

(** C7. In a file whose versions are numbered 1..N with N at least 1
    (and a safe integer), [getLatestVersion] and [getVersion(N)] return
    the same version, whose number is N; so do the download route without
    a version selector and with the selector N.  In a file without
    versions both lookups return nothing and the download route answers
    404 for every selector. *)
Theorem latest_is_highest_version (F : Model.FileMetadata) :
  (∀ N, (1 ≤ N)%Z → Js.safeInteger N → versionNumbers F = seqZ 1 N →
     ∃ v, Model.getLatestVersion F = Some v
          ∧ Model.getVersion (Js.VNumber (Js.Num N)) F = Some v
          ∧ Model.versionNumber v = N
          ∧ Controller.selectVersion None F = inr v
          ∧ Controller.selectVersion (Some (Js.numberToString (Js.Num N))) F
            = inr v)
  ∧ (Model.versions F = [] →
     Model.getLatestVersion F = None
     ∧ (∀ arg, Model.getVersion arg F = None)
     ∧ ∀ idx, ∃ r, Controller.selectVersion idx F = inl r
                   ∧ Controller.status r = 404%Z).
Proof.
  split.
  - intros N HN _ Hnum. unfold versionNumbers in Hnum.
    assert (N = Z.of_nat (length (Model.versions F))) as HlenN.
    { apply (f_equal length) in Hnum.
      rewrite length_fmap, length_seqZ in Hnum. lia. }
    assert (Model.versions F ≠ []) as Hne.
    { intros Hnil. rewrite Hnil in HlenN. simpl in HlenN. lia. }
    assert (is_Some (last (Model.versions F))) as [v Hlast].
    { destruct (Model.versions F) as [|x vs] using rev_ind; [done|].
      rewrite last_snoc. eauto. }
    assert (List.find (λ x, Z.eqb (Model.versionNumber x) N) (Model.versions F)
            = Some v) as Hfind.
    { rewrite <- Hlast. apply (find_highest _ 1); [|done|lia].
      by rewrite Hnum, HlenN. }
    assert (Model.getVersion (Js.VNumber (Js.Num N)) F = Some v) as Hget
      by (by rewrite getVersion_number).
    assert (Model.getLatestVersion F = Some v) as Hlatest
      by (by rewrite getLatestVersion_last).
    exists v. split_and!; [done|done| | |].
    + apply find_some in Hfind as [_ Heq]. by apply Z.eqb_eq in Heq.
    + unfold Controller.selectVersion. simpl. by rewrite Hlatest.
    + rewrite selectVersion_present by apply numberToString_truthy.
      change (Js.parseIntString (Js.numberToString (Js.Num N)))
        with (Js.parseInt (Js.VNumber (Js.Num N))).
      by rewrite parseInt_number, Hget.
  - intros Hnil.
    assert (∀ arg, Model.getVersion arg F = None) as Hget
      by (intros arg; unfold Model.getVersion; by rewrite Hnil).
    split_and!; [|done|].
    + unfold Model.getLatestVersion. by rewrite Hnil.
    + intros idx. unfold Controller.selectVersion, Model.getLatestVersion.
      rewrite Hget, Hnil. destruct (Js.truthy idx); eauto.
Qed.

End Resolution.

(** ** Version selectors of the routes *)
Section Selectors.
Context `{Primitives}.
Import Spec.





End Selectors.

(** ** Search *)
Section Search.
Context `{Primitives}.
Import Spec.

Ltac run_handler :=
  unfold Controller.searchFiles, Store.find, Store.countDocuments,
    tryCatch, catch, throw, pure, mbind, M_bind, mret, M_ret in *.

Local Abbreviation newer :=
  (λ a b : Model.FileMetadata, (Model.createdAt b ≤ Model.createdAt a)%Z).

Lemma insertNewest_Permutation d l : Store.insertNewest d l ≡ₚ d :: l.
Proof.
  induction l as [|x l IH]; [done|]. cbn [Store.insertNewest].
  destruct (Model.createdAt x <=? Model.createdAt d)%Z; [done|].
  rewrite IH. apply Permutation_swap.
Qed.

Lemma sortNewestFirst_Permutation l : Store.sortNewestFirst l ≡ₚ l.
Proof.
  induction l as [|x l IH]; [done|].
  cbn [Store.sortNewestFirst foldr]. rewrite insertNewest_Permutation.
  by f_equiv.
Qed.

Lemma insertNewest_sorted d l :
  StronglySorted newer l → StronglySorted newer (Store.insertNewest d l).
Proof.
  induction 1 as [|x l Hl IH Hx]; cbn [Store.insertNewest].
  { repeat constructor. }
  destruct (Z.leb_spec (Model.createdAt x) (Model.createdAt d)) as [Hle|Hlt].
  - constructor; [by constructor|].
    constructor; [done|]. eapply Forall_impl; [exact Hx|].
    intros y Hy. cbv beta in *. lia.
  - constructor; [done|].
    rewrite insertNewest_Permutation. constructor; [lia|done].
Qed.

Lemma sortNewestFirst_sorted l : StronglySorted newer (Store.sortNewestFirst l).
Proof.
  induction l as [|x l IH]; [constructor|].
  cbn [Store.sortNewestFirst foldr]. by apply insertNewest_sorted.
Qed.

Lemma window_sublist {A} passed most (l : list A) :
  Store.window passed most l `sublist_of` l.
Proof.
  destruct most as [n|]; cbn [Store.window]; [|apply sublist_drop].
  etrans; [apply sublist_take|apply sublist_drop].
Qed.

Lemma window_sorted {A} (R : relation A) passed most (l : list A) :
  StronglySorted R l → StronglySorted R (Store.window passed most l).
Proof.
  intros Hl. rewrite <- (take_drop passed l) in Hl.
  apply StronglySorted_app_1_r in Hl.
  destruct most as [n|]; cbn [Store.window]; [|done].
  rewrite <- (take_drop n (drop passed l)) in Hl.
  by apply StronglySorted_app_1_l in Hl.
Qed.



Lemma truthyValue_string (s : option string) :
  Js.truthyValue (Js.VString <$> s) = Js.truthy s.
Proof. by destruct s. Qed.

(** [tags: {$in: wanted}] *)
Lemma tagsIn_Exists (wanted stored : list string) :
  existsb (λ t, existsb (String.eqb t) wanted) stored
  = bool_decide (Exists (λ t, t ∈ wanted) stored).
Proof.
  apply eq_true_iff_eq. rewrite existsb_exists, bool_decide_eq_true, Exists_exists.
  split.
  - intros (t & Ht & (t' & Ht' & ->%String.eqb_eq)%existsb_exists).
    exists t'. by rewrite !list_elem_of_In.
  - intros (t & Ht & Hw). exists t. rewrite <- list_elem_of_In.
    split; [done|]. apply existsb_exists. exists t.
    rewrite <- list_elem_of_In. split; [done|apply String.eqb_refl].
Qed.

(** The conditions built from filters that are strings. *)
Lemma searchConditions_strings req query owner tags :
  Controller.q_query req = Js.VString <$> query →
  Controller.q_owner req = Js.VString <$> owner →
  Controller.q_tags req = Js.VString <$> tags →
  Controller.searchConditions req
  = Return {| Store.c_regex :=
                if Js.truthy query then Js.VString <$> query else None;
              Store.c_owner :=
                if Js.truthy owner then Js.VString <$> owner else None;
              Store.c_tagsIn :=
                if Js.truthy tags
                then Some (Js.trim <$> Js.split "," (default "" tags))
                else None |}.
Proof.
  intros Hq Ho Ht. unfold Controller.searchConditions.
  rewrite Hq, Ho, Ht, !truthyValue_string.
  destruct tags as [tags|]; cbn [fmap option_fmap option_map Js.truthy default];
    [destruct (negb (String.eqb tags ""))|]; reflexivity.
Qed.

Lemma regex_component query :
  match (if Js.truthy query then Js.VString <$> query else None) with
  | Some pattern => Some <$> regex_i pattern
  | None => Some None
  end = queryTest query.
Proof. unfold queryTest. destruct query as [q|]; [|done]. by destruct (Js.truthy _). Qed.

Lemma owner_component owner :
  ∃ ownerIs,
    match (if Js.truthy owner then Js.VString <$> owner else None) with
    | Some v => Some <$> Store.stringQuery v
    | None => Some None
    end = Some ownerIs
    ∧ ∀ stored,
        match ownerIs with Some test => test stored | None => true end
        = (if Js.truthy owner
           then String.eqb stored (Js.trim (default "" owner)) else true).
Proof.
  destruct owner as [o|]; [|by exists None].
  destruct (Js.truthy (Some o)) eqn:Ho; [|by exists None].
  eexists (Some _). split; [reflexivity|done].
Qed.

Lemma tags_component tags stored :
  match (if Js.truthy tags
         then Some (Js.trim <$> Js.split "," (default "" tags)) else None) with
  | Some wanted => existsb (λ t, existsb (String.eqb t) wanted) stored
  | None => true
  end
  = (if Js.truthy tags
     then bool_decide
            (Exists (λ t, t ∈ Js.trim <$> Js.split "," (default "" tags)) stored)
     else true).
Proof. destruct (Js.truthy tags); [apply tagsIn_Exists|done]. Qed.

Lemma matcher_strings query owner tags :
  let conditions :=
    {| Store.c_regex :=
         if Js.truthy query then Js.VString <$> query else None;
       Store.c_owner :=
         if Js.truthy owner then Js.VString <$> owner else None;
       Store.c_tagsIn :=
         if Js.truthy tags
         then Some (Js.trim <$> Js.split "," (default "" tags))
         else None |} in
  match queryTest query with
  | Some re =>
    ∃ test, Store.matcher conditions = Some test
            ∧ ∀ d, test d = meets re owner tags d
  | None => Store.matcher conditions = None
  end.
Proof.
  intros conditions. unfold Store.matcher, conditions.
  cbn [Store.c_regex Store.c_owner Store.c_tagsIn].
  rewrite regex_component.
  destruct (owner_component owner) as (ownerIs & -> & Hown).
  destruct (queryTest query) as [re|]; [|done].
  eexists. split; [reflexivity|]. intros d. unfold meets.
  by rewrite Hown, tags_component.
Qed.

(** A search with filters that are strings, a page number and a page
    size of at least 1. *)
Lemma searchFiles_strings req w query owner tags p l :
  Controller.q_query req = Js.VString <$> query →
  Controller.q_owner req = Js.VString <$> owner →
  Controller.q_tags req = Js.VString <$> tags →
  Js.truthy query || Js.truthy owner || Js.truthy tags = true →
  Controller.queryNumber 1 (Controller.q_page req) = Js.Num p →
  Controller.queryNumber 10 (Controller.q_limit req) = Js.Num l →
  (1 ≤ p)%Z → (1 ≤ l)%Z →
  match queryTest query with
  | Some named =>
    let matching := List.filter (meets named owner tags) (db w) in
    Controller.searchFiles req w
    = (Controller.reply 200 true ""
         (Some {| Controller.files :=
                    Controller.summary
                    <$> pageOf p l (Store.sortNewestFirst matching);
                  Controller.sd_pagination :=
                    Controller.pagination (Controller.q_page req)
                      (Controller.q_limit req)
                      (Z.of_nat (length matching));
                  Controller.searchCriteria :=
                    {| Controller.sc_query := Controller.q_query req;
                       Controller.sc_owner := Controller.q_owner req;
                       Controller.sc_tags := Controller.q_tags req |} |}),
       w)
  | None =>
    ∃ e, Controller.searchFiles req w
         = (Controller.failed "Failed to search files" e None, w)
  end.
Proof.
  intros Hq Ho Ht Hsome Hp Hl Hp1 Hl1.
  pose proof (matcher_strings query owner tags) as Hmatch.
  cbv zeta in Hmatch.
  run_handler.
  rewrite (searchConditions_strings req query owner tags Hq Ho Ht).
  assert (negb (Js.truthyValue (Controller.q_query req))
          && negb (Js.truthyValue (Controller.q_owner req))
          && negb (Js.truthyValue (Controller.q_tags req)) = false) as ->.
  { rewrite Hq, Ho, Ht, !truthyValue_string.
    by destruct (Js.truthy query), (Js.truthy owner), (Js.truthy tags). }
  rewrite Hp, Hl. cbn [Js.minus Js.times].
  destruct (queryTest query) as [named|].
  - destruct Hmatch as (test & -> & Htest).
    unfold Store.cursor.
    assert (((p - 1) * l <? 0)%Z = false) as -> by (apply Z.ltb_ge; nia).
    assert ((1 <=? l)%Z = true) as -> by (by apply Z.leb_le).
    by rewrite (filter_ext _ _ Htest).
  - rewrite Hmatch. by eexists.
Qed.

(** C9. [searchFiles] answers 400 exactly when the text query, the owner
    and the tags are all empty or missing, and then changes nothing.
    Otherwise it evaluates the populated filters.  With filters that are
    strings and a page number and a page size of at least 1 (safe
    integers): when the store refuses the pattern of the text query the
    answer is 500; otherwise the answer is 200, the count is the number
    of stored files that are active and meet every populated filter (name
    or description matching the query, owner equal to the trimmed owner
    filter, one tag among the trimmed comma-separated tags), and the
    files are the requested page of these files, newest first. *)
Theorem search_requires_a_filter req w :
  let allEmpty :=
    negb (Js.truthyValue (Controller.q_query req))
    && negb (Js.truthyValue (Controller.q_owner req))
    && negb (Js.truthyValue (Controller.q_tags req)) in
  (Controller.status (Controller.searchFiles req w).1 = 400%Z ↔ allEmpty = true)
  ∧ (allEmpty = true →
     Controller.searchFiles req w
     = (Controller.reply 400 false "At least one search parameter is required"
          None, w))
  ∧ ∀ query owner tags p l,
      Controller.q_query req = Js.VString <$> query →
      Controller.q_owner req = Js.VString <$> owner →
      Controller.q_tags req = Js.VString <$> tags →
      allEmpty = false →
      Controller.queryNumber 1 (Controller.q_page req) = Js.Num p →
      Controller.queryNumber 10 (Controller.q_limit req) = Js.Num l →
      (1 ≤ p)%Z → (1 ≤ l)%Z →
      Js.safeInteger p → Js.safeInteger l → Js.safeInteger ((p - 1) * l) →
      match queryTest query with
      | Some named =>
        let matching := List.filter (meets named owner tags) (db w) in
        ∃ sorted,
          sorted ≡ₚ matching
          ∧ newestFirst (Model.createdAt <$> sorted)
          ∧ Controller.searchFiles req w
            = (Controller.reply 200 true ""
                 (Some {| Controller.files :=
                            Controller.summary <$> pageOf p l sorted;
                          Controller.sd_pagination :=
                            Controller.pagination (Controller.q_page req)
                              (Controller.q_limit req)
                              (Z.of_nat (length matching));
                          Controller.searchCriteria :=
                            {| Controller.sc_query := Controller.q_query req;
                               Controller.sc_owner := Controller.q_owner req;
                               Controller.sc_tags := Controller.q_tags req |} |}),
               w)
      | None =>
        ∃ e, Controller.searchFiles req w
             = (Controller.failed "Failed to search files" e None, w)
      end.
Proof.
  intros allEmpty.
  assert (allEmpty = true →
          Controller.searchFiles req w
          = (Controller.reply 400 false
               "At least one search parameter is required" None, w)) as Hempty.
  { intros Hall. run_handler. fold allEmpty. by rewrite Hall. }
  assert (allEmpty = false →
          Controller.status (Controller.searchFiles req w).1 ≠ 400%Z) as Hsome.
  { intros Hall. run_handler. fold allEmpty. rewrite Hall.
    repeat case_match; simpl; discriminate. }
  split_and!; [|done|].
  { split.
    - intros Hst. destruct allEmpty eqn:Hall; [done|]. by destruct Hsome.
    - intros Hall. by rewrite Hempty. }
  intros query owner tags p l Hq Ho Ht Hall Hp Hl Hp1 Hl1 _ _ _.
  assert (Js.truthy query || Js.truthy owner || Js.truthy tags = true) as Hany.
  { unfold allEmpty in Hall. rewrite Hq, Ho, Ht, !truthyValue_string in Hall.
    by destruct (Js.truthy query), (Js.truthy owner), (Js.truthy tags). }
  pose proof (searchFiles_strings req w query owner tags p l
                Hq Ho Ht Hany Hp Hl Hp1 Hl1) as Hrun.
  destruct (queryTest query) as [named|]; [|done].
  exists (Store.sortNewestFirst (List.filter (meets named owner tags) (db w))).
  split_and!; [apply sortNewestFirst_Permutation| |done].
  unfold newestFirst.
  eapply StronglySorted_fmap; [|apply sortNewestFirst_sorted]. done.
Qed.

End Search.
(** ** Identifier generation *)
Section Identifiers.
Context `{Primitives}.
Import Spec.

Ltac run_handler :=
  unfold Controller.uploadFile,
    tryCatch, catch, throw, pure, mbind, M_bind, mret, M_ret,
    Store.findByHash, Store.saveNew,
    IpfsService.uploadFile, HashUtils.generateFileId in *.

Lemma existsb_fileId_true fid l :
  fid ∈ fileIds l → existsb (λ d, String.eqb (Model.fileId d) fid) l = true.
Proof.
  intros (d & -> & Hd)%list_elem_of_fmap. apply existsb_exists. exists d.
  split; [by apply list_elem_of_In | apply String.eqb_refl].
Qed.

(** C8, as the code has it. [uploadFile] generates at most one
    identifier per request.  When that identifier is already the
    [fileId] of a stored file, the request fails with the handler's 500
    answer, nothing is stored, and exactly one identifier has been
    generated.  A request answered 201 has stored a file whose [fileId]
    no file of the store had. *)
Theorem file_id_generated_once req env w r w' :
  Controller.uploadFile req env w = (r, w') →
  (drawn w' ≤ S (drawn w))%nat
  ∧ (∀ file,
       Controller.up_file req = Some file →
       Js.truthy (Controller.up_owner req) = true →
       Model.findByHash (sha256_hex (Controller.buffer file)) (db w) = None →
       isConnected (ipfs w) = true → online (ipfs w) = true →
       HashUtils.fileIdOf (Controller.originalname file)
         (default "" (Controller.up_owner req)) (now env) (entropy env (drawn w))
       ∈ fileIds (db w) →
       Controller.status r = 500%Z
       ∧ Controller.message r = "Failed to upload file"
       ∧ db w' = db w
       ∧ drawn w' = S (drawn w))
  ∧ (Controller.status r = 201%Z →
     ∃ doc, db w' = (db w ++ [doc])%list
            ∧ (Model.fileId doc ∉ fileIds (db w))).
Proof.
  intros Hrun. split_and!.
  - run_handler. repeat case_match; simplify_eq; simpl; lia.
  - intros file Hfile Howner Hfresh Hconn Honline Hcollide.
    apply existsb_fileId_true in Hcollide.
    run_handler. unfold HashUtils.generateSHA256FromBuffer in *.
    rewrite Hfile, Howner in Hrun. simpl in Hrun.
    rewrite Hfresh, Hconn, Honline in Hrun. simpl in Hrun.
    rewrite fileIdOf_trimmed, Hcollide in Hrun.
    destruct (storeAccepts env); simpl in Hrun; by simplify_eq.
  - intros Hok.
    apply uploadFile_outcome in Hrun
      as [[_ Hno]|(doc & v & file & _ & _ & Hdb & _ & _ & _ & _ & Hfresh & _)];
      [done|].
    by exists doc.
Qed.

End Identifiers.

(** ** Appends to one file: one after another, and interleaved *)
Section Appends.
Context `{Primitives}.
Import Spec.

Ltac run_handler :=
  unfold Controller.addNewVersion,
    tryCatch, catch, throw, pure, mbind, M_bind, mret, M_ret,
    Store.findOne, Store.save, IpfsService.uploadFile in *.

Local Abbreviation added fid v :=
  (Controller.reply 201%Z true "New version added successfully"
     (Some (Controller.VersionAdded fid v))).

Lemma addNewVersion_appends req env w file i F :
  Controller.upd_file req = Some file →
  Js.truthy (Controller.upd_uploadedBy req) = true →
  Model.findOne (Model.byId (Controller.upd_fileId req)) (db w) = Some (i, F) →
  sha256_hex (Controller.buffer file) ∉ hashes F →
  isConnected (ipfs w) = true → online (ipfs w) = true →
  storeAccepts env = true →
  ∃ answered w',
    let v := Model.castVersion (now env) answered in
    Controller.addNewVersion req env w = (added (Model.fileId F) answered, w')
    ∧ db w' = <[i := Model.set_versions (Model.versions F ++ [v]) (now env) F]>
                (db w)
    ∧ isConnected (ipfs w') = true ∧ online (ipfs w') = true
    ∧ Model.versionNumber v = (Model.versionCount F + 1)%Z
    ∧ Model.sha256Hash v = sha256_hex (Controller.buffer file).
Proof.
  intros Hfile Hby Hfind Hnew Hconn Honline Hacc.
  apply find_hash_None in Hnew.
  eexists _, _. cbv zeta. split_and!.
  - run_handler. unfold HashUtils.generateSHA256FromBuffer.
    rewrite Hfile, Hby. simpl. rewrite Hfind, Hnew, Hconn, Honline. simpl.
    rewrite Hacc. simpl. reflexivity.
  - done.
  - done.
  - done.
  - done.
  - done.
Qed.

Lemma findOne_insert_same cond (l : list Model.FileMetadata) i d d' :
  Model.findOne cond l = Some (i, d) → cond d' = true →
  Model.findOne cond (<[i := d']> l) = Some (i, d').
Proof.
  unfold Model.findOne. intros (Hi & Hd & Hfirst)%list_find_Some Hd'.
  apply list_find_Some. split_and!; [|done|].
  - apply list_lookup_insert_eq. by eapply lookup_lt_Some.
  - intros j y Hj Hlt. rewrite list_lookup_insert_ne in Hj by lia.
    by eapply Hfirst.
Qed.

(** Appends served one after another number their versions without gap
    or repetition. *)
Lemma appendAll_contiguous
    (reqs : list (Controller.UpdateRequest * Env)) fid w i F :
  Model.findOne (Model.byId fid) (db w) = Some (i, F) →
  isConnected (ipfs w) = true → online (ipfs w) = true →
  Forall (λ re, Controller.upd_fileId re.1 = fid
                ∧ Js.truthy (Controller.upd_uploadedBy re.1) = true
                ∧ storeAccepts re.2 = true
                ∧ is_Some (Engine.payloadDigest re.1)) reqs →
  NoDup ((λ re, Engine.payloadDigest re.1) <$> reqs) →
  (∀ re digest, re ∈ reqs → Engine.payloadDigest re.1 = Some digest →
                digest ∉ hashes F) →
  ∃ F' new answers,
    db (Engine.appendAll reqs w).2 !! i = Some F'
    ∧ Model.versions F' = (Model.versions F ++ new)%list
    ∧ length new = length reqs
    ∧ Model.versionNumber <$> new
      = seqZ (Model.versionCount F + 1) (Z.of_nat (length reqs))
    ∧ Model.nv_versionNumber <$> answers = Model.versionNumber <$> new
    ∧ (Engine.appendAll reqs w).1
      = (λ answered, added (Model.fileId F) answered) <$> answers.
Proof.
  revert w F.
  induction reqs as [|[req env] rest IH];
    intros w F Hfind Hconn Honline Hreqs Hnd Hfresh.
  - exists F, [], []. simpl. rewrite app_nil_r.
    apply findOne_Some in Hfind as [Hi _]. done.
  - apply Forall_cons in Hreqs as [(Hfid & Hby & Hacc & [digest Hdig]) Hreqs].
    simpl in Hfid, Hby, Hacc, Hdig. subst fid.
    rewrite fmap_cons in Hnd. apply NoDup_cons in Hnd as [Hfirst Hnd].
    simpl in Hfirst. rewrite Hdig in Hfirst.
    unfold Engine.payloadDigest in Hdig.
    destruct (Controller.upd_file req) as [file|] eqn:Hfile; [|done].
    simpl in Hdig. injection Hdig as Hdig.
    unfold HashUtils.generateSHA256FromBuffer in Hdig.
    assert (sha256_hex (Controller.buffer file) ∉ hashes F) as Hnew.
    { rewrite Hdig. apply (Hfresh (req, env)); [apply list_elem_of_here|].
      unfold Engine.payloadDigest. simpl. rewrite Hfile. simpl.
      unfold HashUtils.generateSHA256FromBuffer. by rewrite Hdig. }
    destruct (addNewVersion_appends req env w file i F)
      as (answered & w1 & Hrun & Hdb & Hconn1 & Honline1 & Hv & Hsha); [done..|].
    set (v := Model.castVersion (now env) answered) in *.
    assert (Model.nv_versionNumber answered = Model.versionNumber v) as Hnv
      by done.
    clearbody v.
    set (F1 := Model.set_versions (Model.versions F ++ [v]) (now env) F) in *.
    assert (Model.findOne (Model.byId (Controller.upd_fileId req)) (db w1)
            = Some (i, F1)) as Hfind1.
    { rewrite Hdb. eapply findOne_insert_same; [done|].
      by apply findOne_Some in Hfind as [_ Hcond]. }
    destruct (IH w1 F1) as (F' & new & answers & Hi & Hvs & Hlen & Hnum & Hans & Hrs);
      [done..| |].
    { intros re dg Hre Hdg. unfold hashes, F1. simpl.
      rewrite fmap_app. apply not_elem_of_app. split.
      - eapply Hfresh; [by apply list_elem_of_further|done].
      - simpl. rewrite Hsha, Hdig. intros ->%list_elem_of_singleton.
        apply Hfirst. rewrite <- Hdg.
        by apply (list_elem_of_fmap_2 (λ re, Engine.payloadDigest re.1)). }
    exists F', (v :: new), (answered :: answers).
    cbn [Engine.appendAll]. rewrite Hrun.
    destruct (Engine.appendAll rest w1) as [rs w2] eqn:Hrest.
    cbn [fst snd] in *.
    split_and!; [done| | | | |].
    + rewrite Hvs. unfold F1. simpl. by rewrite <- app_assoc.
    + simpl. by rewrite Hlen.
    + rewrite fmap_cons, Hnum, Hv. unfold F1, Model.versionCount.
      cbn [Model.versions Model.set_versions length].
      rewrite length_app.
      rewrite (seqZ_cons _ (Z.of_nat (S _))) by lia. f_equal.
      f_equal; simpl; lia.
    + by rewrite !fmap_cons, Hans, Hnv.
    + by rewrite fmap_cons, Hrs.
Qed.

Lemma alter_lookup_insert {A} (f : A → A) (l : list A) i x :
  l !! i = Some x → alter f i l = <[i := f x]> l.
Proof.
  intros Hi. rewrite list_insert_alter.
  apply list_alter_ext; [|done]. intros y Hy. congruence.
Qed.

(** The three stretches of a call, run without another call in between,
    are the handler: same answer, same world, whatever the save mode. *)
Lemma advance_uninterrupted mode req env w :
  let s1 := Concurrent.advance mode (Concurrent.Received req env) w in
  let s2 := Concurrent.advance mode s1.1 s1.2 in
  let s3 := Concurrent.advance mode s2.1 s2.2 in
  s3 = (Concurrent.Responded (Controller.addNewVersion req env w).1,
        (Controller.addNewVersion req env w).2).
Proof.
  run_handler.
  unfold Concurrent.advance, Concurrent.savePushed, Concurrent.serverError,
    IpfsService.uploadFile, Store.save, Model.addVersion.
  destruct (Controller.upd_file req) as [file|]; [|done].
  destruct (Js.truthy (Controller.upd_uploadedBy req)); [|done].
  cbn [negb fst snd].
  destruct (Model.findOne _ (db w)) as [[i F]|] eqn:Hfind; [|done].
  cbn [fst snd].
  destruct (List.find _ (Model.versions F)); [done|].
  destruct (isConnected (ipfs w)); [|done].
  destruct (online (ipfs w)); [|done].
  cbn [negb fst snd].
  destruct (storeAccepts env); [|by destruct mode].
  destruct mode; cbn [negb fst snd]; [done|].
  apply findOne_Some in Hfind as [Hi _].
  unfold set_db, set_ipfs. cbn [db ipfs drawn].
  by rewrite (alter_lookup_insert _ _ _ _ Hi).
Qed.

Lemma stepCall_middle mode w answered c rest :
  Concurrent.stepCall mode
    {| Concurrent.world := w; Concurrent.calls := answered ++ c :: rest |}
    (length answered)
  = {| Concurrent.world := (Concurrent.advance mode c w).2;
       Concurrent.calls := answered ++ (Concurrent.advance mode c w).1 :: rest |}.
Proof.
  unfold Concurrent.stepCall. cbn [Concurrent.calls Concurrent.world].
  rewrite list_lookup_middle by done.
  destruct (Concurrent.advance mode c w) as [c' w'].
  rewrite insert_app_r_alt by done. by rewrite Nat.sub_diag.
Qed.

Lemma runSchedule_cons mode k schedule s :
  Concurrent.runSchedule mode (k :: schedule) s
  = Concurrent.runSchedule mode schedule (Concurrent.stepCall mode s k).
Proof. reflexivity. Qed.

(** Under the serial schedule the system does what the handler does when
    it is called on the requests in turn, whatever the save mode. *)
Lemma serial_schedule_appendAll mode reqs answered w :
  Concurrent.runSchedule mode
    (Concurrent.serialSchedule (length answered) (length reqs))
    {| Concurrent.world := w;
       Concurrent.calls := answered ++ Concurrent.receive reqs |}
  = {| Concurrent.world := (Engine.appendAll reqs w).2;
       Concurrent.calls :=
         answered ++ (Concurrent.Responded <$> (Engine.appendAll reqs w).1) |}.
Proof.
  revert answered w. induction reqs as [|[req env] rest IH]; intros answered w; [done|].
  change (Concurrent.serialSchedule (length answered) (length ((req, env) :: rest)))
    with (length answered :: length answered :: length answered
          :: Concurrent.serialSchedule (S (length answered)) (length rest)).
  change (Concurrent.receive ((req, env) :: rest))
    with (Concurrent.Received req env :: Concurrent.receive rest).
  rewrite !runSchedule_cons, !stepCall_middle.
  pose proof (advance_uninterrupted mode req env w) as Hthree.
  cbv zeta in Hthree. rewrite Hthree. cbn [fst snd Engine.appendAll].
  destruct (Controller.addNewVersion req env w) as [r w1]. cbn [fst snd].
  specialize (IH (answered ++ [Concurrent.Responded r])%list w1).
  rewrite length_app, Nat.add_1_r, <- !app_assoc in IH.
  cbn [app] in IH. rewrite IH.
  by destruct (Engine.appendAll rest w1).
Qed.

(** C4, as the code has it.  [addNewVersion] calls for one active file
    that are served one after another (each carrying a file and
    [uploadedBy], with payload digests that differ from one another and
    from the hashes the file already has, the content store answering and
    the metadata store accepting the writes) all answer 201, and the file
    ends with as many new versions as there were calls, numbered from its
    former version count plus one upwards without gap or repetition, the
    k-th call being answered with the k-th new version. *)
Theorem serial_appends_are_contiguous mode
    (reqs : list (Controller.UpdateRequest * Env)) fid w i F :
  Model.findOne (Model.byId fid) (db w) = Some (i, F) →
  isConnected (ipfs w) = true → online (ipfs w) = true →
  Forall (λ re, Controller.upd_fileId re.1 = fid
                ∧ Js.truthy (Controller.upd_uploadedBy re.1) = true
                ∧ storeAccepts re.2 = true
                ∧ is_Some (Engine.payloadDigest re.1)) reqs →
  NoDup ((λ re, Engine.payloadDigest re.1) <$> reqs) →
  (∀ re digest, re ∈ reqs → Engine.payloadDigest re.1 = Some digest →
                digest ∉ hashes F) →
  let final :=
    Concurrent.runSchedule mode
      (Concurrent.serialSchedule 0 (length reqs))
      {| Concurrent.world := w; Concurrent.calls := Concurrent.receive reqs |} in
  ∃ F' new,
    db (Concurrent.world final) !! i = Some F'
    ∧ Model.versions F' = (Model.versions F ++ new)%list
    ∧ length new = length reqs
    ∧ Model.versionNumber <$> new
      = seqZ (Model.versionCount F + 1) (Z.of_nat (length reqs))
    ∧ Concurrent.succeededWith <$> Concurrent.calls final
      = Some <$> seqZ (Model.versionCount F + 1) (Z.of_nat (length reqs)).
Proof.
  intros Hfind Hconn Honline Hreqs Hnd Hfresh final.
  destruct (appendAll_contiguous reqs fid w i F)
    as (F' & new & answers & Hi & Hvs & Hlen & Hnum & Hans & Hrs); [done..|].
  assert (final
          = {| Concurrent.world := (Engine.appendAll reqs w).2;
               Concurrent.calls :=
                 Concurrent.Responded <$> (Engine.appendAll reqs w).1 |})
    as ->.
  { apply (serial_schedule_appendAll mode reqs [] w). }
  cbn [Concurrent.world Concurrent.calls].
  exists F', new. split_and!; [done..|].
  rewrite Hrs, <- Hnum, <- Hans, <- !list_fmap_compose. done.
Qed.

End Appends.

(** * Worked examples *)

Example parseInt_truncates : Js.parseIntString "2.9" = Js.Num 2.
Proof. reflexivity. Qed.

Example parseInt_hexadecimal : Js.parseIntString " -0x1F" = Js.Num (-31).
Proof. reflexivity. Qed.

Example split_trim_tags :
  Js.trim <$> Js.split "," "a, b ,,c" = ["a"; "b"; ""; "c"].
Proof. reflexivity. Qed.

Example world1_holds_greeting : db Demo.world1 = [Demo.greeting].
Proof. vm_compute. reflexivity. Qed.

(** alice's upload and append leave one file with versions 1 and 2. *)
Lemma version_numbers_contiguous_witness :
  Spec.versionNumbers <$> db Demo.world2 = [[1; 2]%Z]
  ∧ Forall Spec.contiguous (db Demo.world2).
Proof.
  split; [vm_compute; reflexivity|].
  exact (proj1 (@version_numbers_contiguous Demo.primitives Demo.history Demo.node)).
Defined.

(** bob uploads the bytes alice already stored. *)
Lemma create_rejects_duplicate_content_witness :
  Controller.up_file (Demo.upload "bob" "copy.txt" "hello world")
  = Some (Demo.file "copy.txt" "hello world")
  ∧ Js.truthy (Controller.up_owner (Demo.upload "bob" "copy.txt" "hello world"))
    = true
  ∧ ∃ existing,
      existing ∈ db Demo.world1
      ∧ @Controller.uploadFile Demo.primitives
          (Demo.upload "bob" "copy.txt" "hello world") (Demo.env 3000) Demo.world1
        = (Controller.reply 409 false "File with identical content already exists"
             (Some (Controller.ExistingFile (Model.fileId existing)
                      "sha256:hello world")), Demo.world1).
Proof.
  split; [reflexivity|]. split; [reflexivity|].
  destruct (@create_rejects_duplicate_content Demo.primitives
              (Demo.upload "bob" "copy.txt" "hello world") (Demo.env 3000)
              Demo.world1 (Demo.file "copy.txt" "hello world")
              eq_refl eq_refl) as [Hdup _].
  destruct Hdup as (existing & Hin & _ & _ & Hrun).
  - exists Demo.greeting. split_and!.
    + vm_compute. apply list_elem_of_here.
    + reflexivity.
    + vm_compute. apply list_elem_of_here.
  - exists existing. split; [exact Hin | exact Hrun].
Defined.

(** bob appends the bytes of version 1 to alice's file. *)
Lemma append_rejects_duplicate_version_witness :
  Model.findOne (Model.byId Demo.greetingId) (db Demo.world1)
  = Some (0%nat, Demo.greeting)
  ∧ Demo.version1 ∈ Model.versions Demo.greeting
  ∧ @Controller.addNewVersion Demo.primitives
      (Demo.update Demo.greetingId "bob" "hello world") (Demo.env 3000) Demo.world1
    = (Controller.reply 409 false "This version already exists"
         (Some (Controller.ExistingVersion 1)), Demo.world1).
Proof.
  assert (Model.findOne (Model.byId Demo.greetingId) (db Demo.world1)
          = Some (0%nat, Demo.greeting)) as Hfind by (vm_compute; reflexivity).
  assert (Demo.version1 ∈ Model.versions Demo.greeting) as Hin
    by apply list_elem_of_here.
  split; [exact Hfind|]. split; [exact Hin|].
  destruct (@append_rejects_duplicate_version Demo.primitives
              (Demo.update Demo.greetingId "bob" "hello world") (Demo.env 3000)
              Demo.world1 (Demo.file "greeting.txt" "hello world") 0%nat
              Demo.greeting Demo.version1 eq_refl eq_refl Hfind Hin eq_refl)
    as (v' & _ & _ & Hsame & Hrun & _).
  rewrite Hrun. rewrite (Hsame ltac:(vm_compute; apply NoDup_singleton)).
  reflexivity.
Defined.

Example world2_holds_two_versions : db Demo.world2 = [Demo.greeting2].
Proof. vm_compute. reflexivity. Qed.

(** The two appends of [Demo.racers], interleaved: both calls answer 201
    with version number 2.  When [save] pushes the new version, the file
    ends with the numbers 1, 2, 2; when [save] writes the whole document,
    it ends with 1, 2 and one of the two versions is lost. *)
Lemma concurrent_appends_share_a_number :
  (λ re, @Engine.payloadDigest Demo.primitives re.1) <$> Demo.twoAppends
  = [Some "sha256:hello world v2"; Some "sha256:hello world v3"]
  ∧ Concurrent.succeededWith
    <$> Concurrent.calls
          (@Concurrent.runSchedule Demo.primitives Concurrent.Push
             Demo.interleaved Demo.racers)
    = [Some 2%Z; Some 2%Z]
  ∧ Spec.versionNumbers
    <$> db (Concurrent.world
              (@Concurrent.runSchedule Demo.primitives Concurrent.Push
                 Demo.interleaved Demo.racers))
    = [[1; 2; 2]%Z]
  ∧ Concurrent.succeededWith
    <$> Concurrent.calls
          (@Concurrent.runSchedule Demo.primitives Concurrent.Overwrite
             Demo.interleaved Demo.racers)
    = [Some 2%Z; Some 2%Z]
  ∧ Spec.versionNumbers
    <$> db (Concurrent.world
              (@Concurrent.runSchedule Demo.primitives Concurrent.Overwrite
                 Demo.interleaved Demo.racers))
    = [[1; 2]%Z].
Proof. split_and!; vm_compute; reflexivity. Qed.

(** The same two appends served one after the other. *)
Lemma serial_appends_are_contiguous_witness :
  Model.findOne (Model.byId Demo.greetingId) (db Demo.world1)
  = Some (0%nat, Demo.greeting)
  ∧ Spec.versionNumbers <$> db (Concurrent.world Demo.served) = [[1; 2; 3]%Z]
  ∧ Concurrent.succeededWith <$> Concurrent.calls Demo.served
    = [Some 2%Z; Some 3%Z]
  ∧ ∃ F' new,
      db (Concurrent.world Demo.served) !! 0%nat = Some F'
      ∧ Model.versions F' = (Model.versions Demo.greeting ++ new)%list
      ∧ Model.versionNumber <$> new = seqZ 2 2.
Proof.
  assert (Model.findOne (Model.byId Demo.greetingId) (db Demo.world1)
          = Some (0%nat, Demo.greeting)) as Hfind by (vm_compute; reflexivity).
  split; [exact Hfind|]. split; [vm_compute; reflexivity|].
  split; [vm_compute; reflexivity|].
  destruct (@serial_appends_are_contiguous Demo.primitives Concurrent.Push
              Demo.twoAppends Demo.greetingId Demo.world1 0%nat Demo.greeting
              Hfind eq_refl eq_refl)
    as (F' & new & Hi & Hvs & _ & Hnum & _).
  - repeat constructor; simpl; eexists; reflexivity.
  - vm_compute. repeat constructor.
    + intros [Heq|Hin]%elem_of_cons; [discriminate|].
      by apply elem_of_nil in Hin.
    + apply not_elem_of_nil.
  - intros re digest Hre Hdigest Hin.
    apply list_elem_of_singleton in Hin. subst digest.
    apply elem_of_cons in Hre as [->|Hre]; [discriminate|].
    apply list_elem_of_singleton in Hre. subst re. discriminate.
  - exists F', new. split_and!; [exact Hi|exact Hvs|exact Hnum].
Defined.

(** Verification of version 1 after its block was replaced, and with a
    node that does not answer. *)
Lemma verify_reports_mismatch_as_result_witness :
  Model.findOne (Model.byId Demo.greetingId) (db Demo.tampered)
  = Some (0%nat, Demo.greeting)
  ∧ @Controller.verifyFileIntegrity Demo.primitives Demo.verify1 (Demo.env 3000)
      Demo.tampered
    = (Controller.reply 200 true "File integrity verification failed"
         (Some (Controller.VerificationResult Demo.greetingId (Js.Num 1)
                  "Qm(hello world)" "sha256:hello world" "sha256:hello w0rld!"
                  false 12 11 false 3000)), Demo.tampered)
  ∧ @Controller.verifyFileIntegrity Demo.primitives Demo.verify1 (Demo.env 3000)
      Demo.unreachable
    = (Controller.failed "Failed to download file from IPFS for verification"
         "Failed to download file from IPFS: request failed"
         (Some (Controller.VerifyContext Demo.greetingId (Js.Num 1)
                  "Qm(hello world)")), Demo.unreachable).
Proof.
  assert (Model.findOne (Model.byId Demo.greetingId) (db Demo.tampered)
          = Some (0%nat, Demo.greeting)) as Hfind by (vm_compute; reflexivity).
  assert (Model.findOne (Model.byId Demo.greetingId) (db Demo.unreachable)
          = Some (0%nat, Demo.greeting)) as Hfind' by (vm_compute; reflexivity).
  split; [exact Hfind|]. split.
  - destruct (@verify_reports_mismatch_as_result Demo.primitives Demo.verify1
                (Demo.env 3000) Demo.tampered 0%nat Demo.greeting Demo.version1
                Hfind eq_refl) as [Hresult _].
    rewrite (Hresult (Demo.bytes "hello w0rld!") ltac:(vm_compute; reflexivity)).
    reflexivity.
  - destruct (@verify_reports_mismatch_as_result Demo.primitives Demo.verify1
                (Demo.env 3000) Demo.unreachable 0%nat Demo.greeting Demo.version1
                Hfind' eq_refl) as [_ Herror].
    rewrite (Herror "Failed to download file from IPFS: request failed"
               ltac:(vm_compute; reflexivity)).
    reflexivity.
Defined.

(** A request that claims the owner " alice " deletes the file whose
    stored owner is "alice", and a request with an empty owner is
    answered 400, whatever file it names. *)
Lemma claimed_owner_is_trimmed_and_required :
  db Demo.world1 = [Demo.greeting]
  ∧ Model.owner Demo.greeting ≠ " alice "
  ∧ (@Controller.deleteFile Demo.primitives
       (Demo.delete Demo.greetingId " alice ") (Demo.env 3000) Demo.world1).1
    = Controller.reply 200 true "File deleted successfully"
        (Some {| Controller.deleted_fileId := Demo.greetingId;
                 Controller.deletedAt := 3000 |})
  ∧ Model.isActive
    <$> db (@Controller.deleteFile Demo.primitives
              (Demo.delete Demo.greetingId " alice ") (Demo.env 3000)
              Demo.world1).2 !! 0%nat
    = Some false
  ∧ @Controller.deleteFile Demo.primitives
      (Demo.delete "no such file" "") (Demo.env 3000) Demo.world1
    = (Controller.reply 400 false "Owner verification required" None,
       Demo.world1).
Proof. split_and!; try (vm_compute; reflexivity). discriminate. Qed.

(** bob cannot delete alice's file; alice can, once; a request without
    an owner is answered 400. *)
Lemma soft_delete_owner_check_witness :
  @Controller.deleteFile Demo.primitives (Demo.delete Demo.greetingId "bob")
    (Demo.env 3000) Demo.world1
  = (Controller.reply 404 false "File not found or access denied" None,
     Demo.world1)
  ∧ @Controller.deleteFile Demo.primitives (Demo.delete Demo.greetingId "")
      (Demo.env 3000) Demo.world1
    = (Controller.reply 400 false "Owner verification required" None,
       Demo.world1)
  ∧ ∃ w',
      @Controller.deleteFile Demo.primitives
        (Demo.delete Demo.greetingId "alice") (Demo.env 3000) Demo.world1
      = (Controller.reply 200 true "File deleted successfully"
           (Some {| Controller.deleted_fileId := Demo.greetingId;
                    Controller.deletedAt := 3000 |}), w')
      ∧ Model.isActive <$> db w' !! 0%nat = Some false
      ∧ @Controller.deleteFile Demo.primitives
          (Demo.delete Demo.greetingId "alice") (Demo.env 4000) w'
        = (Controller.reply 404 false "File not found or access denied" None, w').
Proof.
  assert (db Demo.world1 = [Demo.greeting]) as Hdb by (vm_compute; reflexivity).
  split_and!.
  - apply (proj1 (proj2 (@soft_delete_owner_check Demo.primitives
                           (Demo.delete Demo.greetingId "bob") (Demo.env 3000)
                           Demo.world1) "bob" eq_refl ltac:(discriminate))).
    intros d Hd. rewrite Hdb in Hd. apply list_elem_of_singleton in Hd.
    subst d. intros (_ & Hown & _). discriminate.
  - apply (proj1 (@soft_delete_owner_check Demo.primitives
                    (Demo.delete Demo.greetingId "") (Demo.env 3000)
                    Demo.world1)). reflexivity.
  - destruct (proj2 (proj2 (@soft_delete_owner_check Demo.primitives
                              (Demo.delete Demo.greetingId "alice")
                              (Demo.env 3000) Demo.world1)
                       "alice" eq_refl ltac:(discriminate))
                0%nat Demo.greeting)
      as (w' & Hrun & _ & Hflag & Hagain).
    + rewrite Hdb. apply NoDup_singleton.
    + by rewrite Hdb.
    + vm_compute. reflexivity.
    + vm_compute. reflexivity.
    + reflexivity.
    + reflexivity.
    + exists w'. split_and!; [exact Hrun|exact Hflag|apply Hagain].
Defined.

(** With the stand-in store, a request whose owner is the operator
    object [{$ne: 'bob'}] deletes alice's file as well. *)
Example delete_with_operator_object :
  (@Controller.deleteFile Demo.primitives
     (Demo.deleteAs Demo.greetingId (Js.VObject [("$ne", Js.VString "bob")]))
     (Demo.env 3000) Demo.world1).1
  = Controller.reply 200 true "File deleted successfully"
      (Some {| Controller.deleted_fileId := Demo.greetingId;
               Controller.deletedAt := 3000 |}).
Proof. vm_compute. reflexivity. Qed.

(** In the file with versions 1 and 2, the latest version is version 2. *)
Lemma latest_is_highest_version_witness :
  Spec.versionNumbers Demo.greeting2 = seqZ 1 2
  ∧ Model.getLatestVersion Demo.greeting2 = Some Demo.version2
  ∧ ∃ v, Model.getLatestVersion Demo.greeting2 = Some v
         ∧ Model.getVersion (Js.VNumber (Js.Num 2)) Demo.greeting2 = Some v
         ∧ Controller.selectVersion None Demo.greeting2 = inr v
         ∧ Controller.selectVersion (Some "2") Demo.greeting2 = inr v.
Proof.
  assert (Spec.versionNumbers Demo.greeting2 = seqZ 1 2) as Hnum
    by (vm_compute; reflexivity).
  split; [exact Hnum|]. split; [vm_compute; reflexivity|].
  destruct (proj1 (latest_is_highest_version Demo.greeting2) 2%Z
              ltac:(lia) ltac:(unfold Js.safeInteger; lia) Hnum)
    as (v & Hlatest & Hget & _ & Hnone & Hsel).
  exists v. split_and!; [exact Hlatest|exact Hget|exact Hnone|exact Hsel].
Defined.

(** alice's second upload generates the identifier of her first file: the
    request fails with the handler's 500 answer after a single call of
    [crypto.randomBytes], although the identifier made from the bytes of
    the next call is free. *)
Lemma colliding_identifier_is_not_retried :
  @HashUtils.fileIdOf Demo.primitives "greeting.txt" "alice" 1000
     (entropy Demo.collidingEnv (drawn Demo.world1))
  ∈ Spec.fileIds (db Demo.world1)
  ∧ Demo.collision.1
    = Controller.failed "Failed to upload file" "E11000 duplicate key error" None
  ∧ db Demo.collision.2 = db Demo.world1
  ∧ drawn Demo.world1 = 1%nat
  ∧ drawn Demo.collision.2 = 2%nat
  ∧ (@HashUtils.fileIdOf Demo.primitives "greeting.txt" "alice" 1000
       (entropy Demo.collidingEnv 2)
     ∉ Spec.fileIds (db Demo.world1)).
Proof.
  split_and!; try (vm_compute; reflexivity).
  - vm_compute. apply list_elem_of_here.
  - vm_compute. intros Hin%list_elem_of_singleton. discriminate.
Qed.

Lemma file_id_generated_once_witness :
  @Controller.uploadFile Demo.primitives Demo.collidingUpload Demo.collidingEnv
    Demo.world1 = (Demo.collision.1, Demo.collision.2)
  ∧ (drawn Demo.collision.2 ≤ S (drawn Demo.world1))%nat
  ∧ Controller.status Demo.collision.1 = 500%Z
  ∧ db Demo.collision.2 = db Demo.world1.
Proof.
  assert (@Controller.uploadFile Demo.primitives Demo.collidingUpload
            Demo.collidingEnv Demo.world1 = (Demo.collision.1, Demo.collision.2))
    as Hrun by (vm_compute; reflexivity).
  split; [exact Hrun|].
  destruct (@file_id_generated_once Demo.primitives Demo.collidingUpload
              Demo.collidingEnv Demo.world1 _ _ Hrun) as (Hdrawn & Hcollide & _).
  split; [exact Hdrawn|].
  destruct (Hcollide (Demo.file "greeting.txt" "another text")
              eq_refl eq_refl ltac:(vm_compute; reflexivity) eq_refl eq_refl)
    as (Hstatus & _ & Hdb & _).
  - vm_compute. apply list_elem_of_here.
  - split; [exact Hstatus|exact Hdb].
Defined.

(** A search without a filter, and a search by owner after alice
    uploaded two files. *)
Lemma search_requires_a_filter_witness :
  @Controller.searchFiles Demo.primitives Demo.searchNothing Demo.world3
  = (Controller.reply 400 false "At least one search parameter is required" None,
     Demo.world3)
  ∧ Controller.fs_originalFileName
    <$> default [] (Controller.files
                    <$> Controller.data
                          (@Controller.searchFiles Demo.primitives
                             (Demo.searchOwner " alice") Demo.world3).1)
    = ["second.txt"; "greeting.txt"]
  ∧ ∃ sorted,
      sorted ≡ₚ db Demo.world3
      ∧ Controller.files
        <$> Controller.data
              (@Controller.searchFiles Demo.primitives
                 (Demo.searchOwner " alice") Demo.world3).1
        = Some (Controller.summary <$> Spec.pageOf 1 10 sorted).
Proof.
  split_and!.
  - apply (@search_requires_a_filter Demo.primitives Demo.searchNothing
             Demo.world3). reflexivity.
  - vm_compute. reflexivity.
  - destruct (proj2 (proj2 (@search_requires_a_filter Demo.primitives
                              (Demo.searchOwner " alice") Demo.world3))
                None (Some " alice") None 1%Z 10%Z
                eq_refl eq_refl eq_refl eq_refl eq_refl eq_refl
                ltac:(lia) ltac:(lia)
                ltac:(unfold Js.safeInteger; lia)
                ltac:(unfold Js.safeInteger; lia)
                ltac:(unfold Js.safeInteger; lia))
      as (sorted & Hperm & _ & Hrun).
    exists sorted. split.
    + rewrite Hperm. vm_compute. reflexivity.
    + rewrite Hrun. reflexivity.
Defined.


(** * Further properties of the code *)

(** ** Comparison of digests in hashUtils.js *)
Section SecureCompare.
Import Spec.

Lemma digit_lower c v :
  Js.digitValue 16 c = Some v →
  (0 ≤ v < 16)%Z ∧ Js.toLowerChar c = hexChar v.
Proof.
  intros Hv.
  destruct c as [[] [] [] [] [] [] [] []]; vm_compute in Hv;
    first [discriminate | injection Hv as <-; split; [lia|reflexivity]].
Qed.

Lemma hexChar_digit v : (0 ≤ v < 16)%Z → Js.digitValue 16 (hexChar v) = Some v.
Proof.
  intros Hv.
  assert (v ∈ seqZ 0 16) as Hin by (apply elem_of_seqZ; lia).
  vm_compute in Hin.
  repeat (apply elem_of_cons in Hin as [->|Hin]; [reflexivity|]).
  by apply elem_of_nil in Hin.
Qed.

Lemma lower_eq_value c1 c2 v1 v2 :
  Js.digitValue 16 c1 = Some v1 → Js.digitValue 16 c2 = Some v2 →
  (Js.toLowerChar c1 = Js.toLowerChar c2 ↔ v1 = v2).
Proof.
  intros [Hb1 Hl1]%digit_lower [Hb2 Hl2]%digit_lower. rewrite Hl1, Hl2. split.
  - intros Heq. apply (f_equal (Js.digitValue 16)) in Heq.
    rewrite !hexChar_digit in Heq by done. congruence.
  - by intros ->.
Qed.

Lemma isHexDigit_value c :
  HashUtils.isHexDigit c = true → ∃ v, Js.digitValue 16 c = Some v.
Proof.
  unfold HashUtils.isHexDigit. destruct (Js.digitValue 16 c); [eauto|done].
Qed.

Lemma bufferFromHex_pair c1 c2 r v1 v2 :
  Js.digitValue 16 c1 = Some v1 → Js.digitValue 16 c2 = Some v2 →
  Node.bufferFromHex (String c1 (String c2 r))
  = (v1 * 16 + v2)%Z :: Node.bufferFromHex r.
Proof. intros H1 H2. cbn [Node.bufferFromHex]. by rewrite H1, H2. Qed.

Lemma bufferFromHex_length h :
  HexPairs h → (2 * length (Node.bufferFromHex h))%nat = String.length h.
Proof.
  induction 1 as [|c1 c2 r [v1 H1]%isHexDigit_value [v2 H2]%isHexDigit_value _ IH];
    [done|].
  rewrite (bufferFromHex_pair _ _ _ _ _ H1 H2). simpl. lia.
Qed.

Lemma bufferFromHex_lower h1 h2 :
  HexPairs h1 → HexPairs h2 →
  (Node.bufferFromHex h1 = Node.bufferFromHex h2
   ↔ Js.toLowerCase h1 = Js.toLowerCase h2).
Proof.
  intros Hp1. revert h2.
  induction Hp1 as [|c1 c2 r [v1 H1]%isHexDigit_value [v2 H2]%isHexDigit_value _ IH];
    intros h2 Hp2;
    destruct Hp2 as [|d1 d2 r' [w1 G1]%isHexDigit_value [w2 G2]%isHexDigit_value Hr'];
    rewrite ?(bufferFromHex_pair _ _ _ _ _ H1 H2),
      ?(bufferFromHex_pair _ _ _ _ _ G1 G2);
    [done|by split|by split|].
  pose proof (digit_lower _ _ H1) as [Hv1 _].
  pose proof (digit_lower _ _ H2) as [Hv2 _].
  pose proof (digit_lower _ _ G1) as [Hw1 _].
  pose proof (digit_lower _ _ G2) as [Hw2 _].
  cbn [Js.toLowerCase]. split.
  - intros Heq. injection Heq as Hhead Htail.
    assert (v1 = w1 ∧ v2 = w2) as [-> ->] by lia.
    rewrite (proj2 (lower_eq_value _ _ _ _ H1 G1) eq_refl).
    rewrite (proj2 (lower_eq_value _ _ _ _ H2 G2) eq_refl).
    f_equal. f_equal. by apply IH.
  - intros Heq. injection Heq as Hc1 Hc2 Htail.
    apply (lower_eq_value _ _ _ _ H1 G1) in Hc1 as ->.
    apply (lower_eq_value _ _ _ _ H2 G2) in Hc2 as ->.
    f_equal. by apply IH.
Qed.

Lemma forallb_hex_pairs n h :
  String.length h = (2 * n)%nat →
  forallb HashUtils.isHexDigit (list_ascii_of_string h) = true →
  HexPairs h.
Proof.
  revert h. induction n as [|n IH]; intros h Hlen Hall.
  - destruct h; [constructor|done].
  - destruct h as [|c1 [|c2 r]]; [done|simpl in Hlen; lia|].
    simpl in Hall, Hlen.
    apply andb_true_iff in Hall as [Hc1 [Hc2 Hr]%andb_true_iff].
    constructor; [done|done|]. apply IH; [lia|done].
Qed.

Lemma isValidSHA256_pairs h :
  HashUtils.isValidSHA256 (Some h) = true →
  HexPairs h ∧ String.length h = 64%nat ∧ Js.truthy (Some h) = true.
Proof.
  unfold HashUtils.isValidSHA256.
  destruct (Js.truthy (Some h)) eqn:Htruthy; [|done]. cbn [negb].
  intros [Hlen%Nat.eqb_eq Hall]%andb_true_iff.
  split_and!; [|done|done]. by apply (forallb_hex_pairs 32).
Qed.

(** X1. On two well-formed SHA-256 strings (64 hexadecimal digits)
    [secureCompare] answers [true] exactly when the strings are equal up
    to the case of their letters: it agrees with the comparison made by
    [verifyHash]. *)
Theorem secureCompare_valid_hashes h1 h2 :
  HashUtils.isValidSHA256 (Some h1) = true →
  HashUtils.isValidSHA256 (Some h2) = true →
  (HashUtils.secureCompare (Some h1) (Some h2) = true
   ↔ Js.toLowerCase h1 = Js.toLowerCase h2).
Proof.
  intros (Hp1 & Hlen1 & Ht1)%isValidSHA256_pairs
         (Hp2 & Hlen2 & Ht2)%isValidSHA256_pairs.
  unfold HashUtils.secureCompare, Node.timingSafeEqual.
  rewrite Ht1, Ht2, Hlen1, Hlen2. cbn [negb orb Nat.eqb].
  pose proof (bufferFromHex_length _ Hp1) as Hb1.
  pose proof (bufferFromHex_length _ Hp2) as Hb2.
  assert (length (Node.bufferFromHex h1) = length (Node.bufferFromHex h2))
    as Hsame by lia.
  rewrite Hsame, Nat.eqb_refl, bool_decide_eq_true.
  by apply bufferFromHex_lower.
Qed.

Lemma bufferFromHex_not_hex c r :
  HashUtils.isHexDigit c = false → Node.bufferFromHex (String c r) = [].
Proof.
  unfold HashUtils.isHexDigit. destruct r as [|c2 r]; [done|].
  cbn [Node.bufferFromHex]. by destruct (Js.digitValue 16 c).
Qed.

(** X2. [secureCompare] answers [true] for any two strings of the same
    length that both start with a character that is not a hexadecimal
    digit, whatever the strings are: both decode to the empty buffer. *)
Theorem secureCompare_accepts_non_hex c1 r1 c2 r2 :
  HashUtils.isHexDigit c1 = false →
  HashUtils.isHexDigit c2 = false →
  String.length r1 = String.length r2 →
  HashUtils.secureCompare (Some (String c1 r1)) (Some (String c2 r2)) = true.
Proof.
  intros Hc1 Hc2 Hlen. unfold HashUtils.secureCompare, Node.timingSafeEqual.
  rewrite (bufferFromHex_not_hex _ _ Hc1), (bufferFromHex_not_hex _ _ Hc2).
  cbn [String.length Js.truthy String.eqb negb orb]. rewrite Hlen.
  cbn [Nat.eqb]. by rewrite Nat.eqb_refl.
Qed.

End SecureCompare.

(** ** What the stored history keeps through any sequence of requests *)
Section History.
Context `{Primitives}.
Import Spec.

(** A request leaves the collection as it is, adds one active file with
    a single version, or rewrites one active file, keeping its identity
    and appending to its versions. *)
Lemma exec_shape op w :
  db (Engine.exec w op) = db w
  ∨ (∃ doc v, db (Engine.exec w op) = (db w ++ [doc])%list
              ∧ Model.versions doc = [v])
  ∨ (∃ i doc doc',
       db w !! i = Some doc ∧ Model.isActive doc = true
       ∧ db (Engine.exec w op) = <[i := doc']> (db w)
       ∧ sameIdentity doc doc'
       ∧ (Model.versions doc' = Model.versions doc
          ∨ ∃ v, Model.versions doc' = (Model.versions doc ++ [v])%list
                 ∧ Model.sha256Hash v ∉ hashes doc)).
Proof.
  destruct op as [req env|req env|req env]; simpl.
  - destruct (Controller.uploadFile req env w) as [r w'] eqn:Hrun. simpl.
    apply uploadFile_outcome in Hrun
      as [[-> _]|(doc & v & file & _ & _ & -> & Hvs & _)]; [by left|].
    right. left. by exists doc, v.
  - destruct (Controller.addNewVersion req env w) as [r w'] eqn:Hrun. simpl.
    apply addNewVersion_outcome in Hrun
      as [[-> _]|(i & doc & v & file & _ & _ & Hfind & _ & _ & Hnew & -> & _)];
      [by left|].
    apply findOne_Some in Hfind as [Hi [_ Hact]%andb_true_iff].
    right. right. eexists i, doc, _. split_and!; [done|done|done|done|].
    right. by exists v.
  - destruct (Controller.deleteFile req env w) as [r w'] eqn:Hrun. simpl.
    apply deleteFile_outcome in Hrun
      as [[-> _]|(i & doc & ownerIs & _ & _ & _ & Hfind & ->)]; [by left|].
    apply findOne_Some in Hfind as [Hi [_ Hact]%andb_true_iff].
    right. right. eexists i, doc, _. split_and!; [done|done|done|done|].
    by left.
Qed.

Lemma run_invariant (P : Model.FileMetadata → Prop) :
  (∀ doc v, Model.versions doc = [v] → P doc) →
  (∀ doc doc', P doc → sameIdentity doc doc' →
     Model.versions doc' = Model.versions doc → P doc') →
  (∀ doc doc' v, P doc → sameIdentity doc doc' →
     Model.versions doc' = (Model.versions doc ++ [v])%list →
     Model.sha256Hash v ∉ hashes doc → P doc') →
  ∀ ops w, Forall P (db w) → Forall P (db (Engine.run ops w)).
Proof.
  intros Hnew Hsame Happ ops.
  induction ops as [|op ops IH]; intros w Hw; [done|].
  apply IH.
  destruct (exec_shape op w)
    as [->|[(doc & v & -> & Hvs)
           |(i & doc & doc' & Hi & _ & -> & Hid & [Hvs|(v & Hvs & Hfresh)])]].
  - done.
  - apply Forall_app. split; [done|]. apply Forall_singleton. by eapply Hnew.
  - apply Forall_insert; [done|].
    eapply Hsame; [|done|done]. by eapply (Forall_lookup_1 _ _ _ _ Hw).
  - apply Forall_insert; [done|].
    eapply Happ; [|done|done|done]. by eapply (Forall_lookup_1 _ _ _ _ Hw).
Qed.

(** X3. Every file stored after any sequence of requests served from the
    empty store has at least one version: its [currentVersion] and
    [getLatestVersion] are the same version, and the number of that
    version is the file's [versionCount]. *)
Theorem stored_file_has_current_version (ops : list Engine.Op) (node : IpfsNode) :
  Forall (λ d, ∃ v, Model.currentVersion d = Some v
                    ∧ Model.getLatestVersion d = Some v
                    ∧ Model.versionNumber v = Model.versionCount d)
    (db (Engine.run ops (Engine.emptyWorld node))).
Proof.
  assert (Forall (λ d, Model.versions d ≠ [])
            (db (Engine.run ops (Engine.emptyWorld node)))) as Hne.
  { apply run_invariant; [..|constructor].
    - by intros doc v ->.
    - intros doc doc' Hdoc _ Hvs. by rewrite Hvs.
    - intros doc doc' v _ _ Hvs _. rewrite Hvs. by destruct (Model.versions doc). }
  pose proof (run_contiguous ops (Engine.emptyWorld node)
                ltac:(constructor)) as Hcont.
  assert (Forall (λ d, Model.versions d ≠ [] ∧ contiguous d)
            (db (Engine.run ops (Engine.emptyWorld node)))) as Hboth
    by (by apply Forall_and).
  eapply Forall_impl; [exact Hboth|].
  intros d [Hd Hc].
  unfold contiguous, versionNumbers, Model.versionCount in Hc.
  unfold Model.currentVersion, Model.getLatestVersion, Model.versionCount.
  destruct (Model.versions d) as [|x vs] eqn:Hvs; [done|].
  set (n := length (x :: vs)) in *.
  assert (0 < n)%nat as Hn by (unfold n; simpl; lia).
  assert (is_Some ((x :: vs) !! (n - 1)%nat)) as [v Hv].
  { apply lookup_lt_is_Some. fold n. lia. }
  exists v.
  assert (Nat.ltb 0 n = true) as -> by (apply Nat.ltb_lt; lia).
  assert (Nat.eqb n 0 = false) as -> by (apply Nat.eqb_neq; lia).
  split_and!; [done|done|].
  apply (f_equal (λ l, l !! (n - 1)%nat)) in Hc.
  rewrite list_lookup_fmap, Hv in Hc. clearbody n.
  rewrite lookup_seqZ_lt in Hc by lia.
  simpl in Hc. injection Hc as ->. lia.
Qed.

(** X4. In every file stored after any sequence of requests served from
    the empty store, no two versions have the same content hash. *)
Theorem stored_hashes_are_distinct (ops : list Engine.Op) (node : IpfsNode) :
  Forall (λ d, NoDup (hashes d)) (db (Engine.run ops (Engine.emptyWorld node))).
Proof.
  apply run_invariant; [..|constructor].
  - intros doc v Hvs. unfold hashes. rewrite Hvs. apply NoDup_singleton.
  - intros doc doc' Hdoc _ Hvs. unfold hashes in *. by rewrite Hvs.
  - intros doc doc' v Hdoc _ Hvs Hfresh. unfold hashes in *.
    rewrite Hvs, fmap_app. apply NoDup_app. split_and!; [done| |].
    + intros h Hh Hin. apply list_elem_of_singleton in Hin. by subst.
    + apply NoDup_singleton.
Qed.

Lemma sameIdentity_trans d1 d2 d3 :
  sameIdentity d1 d2 → sameIdentity d2 d3 → sameIdentity d1 d3.
Proof.
  unfold sameIdentity.
  intros (? & ? & ? & ? & ? & ?) (? & ? & ? & ? & ? & ?).
  split_and!; congruence.
Qed.

(** X5. Versions are only ever appended: through any sequence of
    requests a stored file stays at its position, keeps its [fileId],
    owner, name, description, tags and creation time, and its former
    version list is a prefix of the later one. *)
Theorem history_is_append_only (ops : list Engine.Op) w i d :
  db w !! i = Some d →
  ∃ d', db (Engine.run ops w) !! i = Some d'
        ∧ sameIdentity d d'
        ∧ Model.versions d `prefix_of` Model.versions d'.
Proof.
  revert w d. induction ops as [|op ops IH]; intros w d Hi.
  { exists d. split_and!; [done| |done]. by split_and!. }
  assert (∃ d1, db (Engine.exec w op) !! i = Some d1
                ∧ sameIdentity d d1
                ∧ Model.versions d `prefix_of` Model.versions d1)
    as (d1 & Hi1 & Hid1 & Hpre1).
  { destruct (exec_shape op w)
      as [->|[(doc & v & -> & _)
             |(j & doc & doc' & Hj & _ & -> & Hid & Hvs)]].
    - exists d. split_and!; [done| |done]. by split_and!.
    - exists d. split_and!; [by apply lookup_app_l_Some| |done]. by split_and!.
    - destruct (decide (j = i)) as [->|Hne].
      + assert (doc = d) as -> by congruence.
        exists doc'. split_and!; [|done|].
        * apply list_lookup_insert_eq. by eapply lookup_lt_Some.
        * destruct Hvs as [->|(v & -> & _)]; [done|]. by apply prefix_app_r.
      + exists d. rewrite list_lookup_insert_ne by done.
        split_and!; [done| |done]. by split_and!. }
  destruct (IH _ _ Hi1) as (d' & Hi' & Hid' & Hpre').
  exists d'. split_and!; [done| |by etrans].
  by eapply sameIdentity_trans.
Qed.

(** X6. A file that is inactive is never changed again: whatever
    requests follow, the stored document stays exactly as it is, with all
    its versions, and stays inactive. *)
Theorem inactive_file_is_frozen (ops : list Engine.Op) w i d :
  db w !! i = Some d → Model.isActive d = false →
  db (Engine.run ops w) !! i = Some d.
Proof.
  revert w. induction ops as [|op ops IH]; intros w Hi Hoff; [done|].
  apply IH; [|done].
  destruct (exec_shape op w)
    as [->|[(doc & v & -> & _)|(j & doc & doc' & Hj & Hact & -> & _)]].
  - done.
  - by apply lookup_app_l_Some.
  - rewrite list_lookup_insert_ne; [done|]. intros ->. congruence.
Qed.

(** X8. The handlers that read ([getFileMetadata], [downloadFile],
    [verifyFileIntegrity], [searchFiles]) leave both stores as they
    were, whatever they answer. *)
Theorem read_handlers_change_nothing w :
  (∀ fid, (Controller.getFileMetadata fid w).2 = w)
  ∧ (∀ req, (Controller.downloadFile req w).2 = w)
  ∧ (∀ req env, (Controller.verifyFileIntegrity req env w).2 = w)
  ∧ (∀ req, (Controller.searchFiles req w).2 = w).
Proof.
  split_and!; intros;
    unfold Controller.getFileMetadata, Controller.downloadFile,
      Controller.verifyFileIntegrity, Controller.searchFiles,
      Store.find, Store.countDocuments,
      tryCatch, catch, pure, mbind, M_bind, mret, M_ret,
      Store.findOne, IpfsService.downloadFile;
    by repeat case_match; simplify_eq.
Qed.

End History.

(** ** Upload, then read back *)
Section RoundTrips.
Context `{Primitives}.
Import Spec.

Ltac run_handler :=
  unfold Controller.uploadFile, Controller.addNewVersion,
    Controller.deleteFile, Controller.downloadFile,
    Controller.verifyFileIntegrity,
    Controller.getFileMetadata,
    tryCatch, catch, throw, pure, mbind, M_bind, mret, M_ret,
    Store.findOne, Store.findByHash, Store.saveNew, Store.save,
    IpfsService.uploadFile, IpfsService.downloadFile,
    HashUtils.generateFileId in *.

Lemma findOne_appended fid (l : list Model.FileMetadata) doc :
  Js.trim fid ∉ fileIds l → Model.byId fid doc = true →
  Model.findOne (Model.byId fid) (l ++ [doc]) = Some (length l, doc).
Proof.
  intros Hfresh Hdoc. unfold Model.findOne. apply list_find_Some.
  split_and!; [by apply list_lookup_middle|done|].
  intros j y Hj Hlt Hy. rewrite lookup_app_l in Hj by done.
  apply andb_true_iff in Hy as [Hy%String.eqb_eq _]. apply Hfresh.
  rewrite <- Hy. apply list_elem_of_fmap_2. by eapply list_elem_of_lookup_2.
Qed.

Lemma trim_fmap_idempotent (l : list string) :
  Js.trim <$> (Js.trim <$> l) = Js.trim <$> l.
Proof.
  rewrite <- list_fmap_compose. apply list_fmap_ext.
  intros _ s _. apply trim_idempotent.
Qed.

(** What a successful [uploadFile] leaves behind. *)
Lemma uploadFile_created req env w r w' :
  Controller.uploadFile req env w = (r, w') →
  Controller.status r = 201%Z →
  ∃ file doc,
    Controller.up_file req = Some file
    ∧ db w' = (db w ++ [doc])%list
    ∧ Model.findOne (Model.byId (Model.fileId doc)) (db w')
      = Some (length (db w), doc)
    ∧ Model.versions doc
      = [Model.castVersion (now env)
           (Controller.firstVersion file (default "" (Controller.up_owner req))
              (sha256_hex (Controller.buffer file))
              (cid_of (Controller.buffer file)))]
    ∧ Model.originalFileName doc = Js.trim (Controller.originalname file)
    ∧ Model.owner doc = Js.trim (default "" (Controller.up_owner req))
    ∧ Js.truthy (Controller.up_owner req) = true
    ∧ Model.isActive doc = true
    ∧ Model.tags doc
      = (if Js.truthy (Controller.up_tags req)
         then Js.trim <$> Js.split "," (default "" (Controller.up_tags req))
         else [])
    ∧ Model.createdAt doc = now env
    ∧ isConnected (ipfs w') = true ∧ online (ipfs w') = true
    ∧ blocks (ipfs w') !! cid_of (Controller.buffer file)
      = Some (Controller.buffer file)
    ∧ Controller.data r
      = Some (Controller.Uploaded (Model.fileId doc)
                (Controller.originalname file)
                (default "" (Controller.up_owner req))
                (sha256_hex (Controller.buffer file))
                (cid_of (Controller.buffer file))
                (Controller.size file) (Controller.mimetype file) 1 (now env)).
Proof.
  intros Hrun Hok. run_handler.
  unfold HashUtils.generateSHA256FromBuffer in *.
  destruct (Controller.up_file req) as [file|]; [|by (simpl in Hrun; simplify_eq)].
  destruct (Js.truthy (Controller.up_owner req)) eqn:Howner; [|by (simpl in Hrun; simplify_eq)].
  cbn [negb] in Hrun.
  destruct (Model.findByHash _ (db w)) as [[]|]; [by (simpl in Hrun; simplify_eq)|].
  destruct (isConnected (ipfs w)) eqn:Hconn; [|by (simpl in Hrun; simplify_eq)].
  destruct (online (ipfs w)) eqn:Honline; [|by (simpl in Hrun; simplify_eq)].
  cbn [negb db ipfs drawn set_ipfs set_blocks IpfsService.hash] in Hrun.
  destruct (storeAccepts env); [|by (simpl in Hrun; simplify_eq)]. cbn [negb] in Hrun.
  destruct (existsb _ (db w)) eqn:Hex; [by (simpl in Hrun; simplify_eq)|].
  apply existsb_fileId_false in Hex. cbn in Hex.
  injection Hrun as <- <-.
  eexists file, _. split_and!; try reflexivity; try done.
  - cbn [db set_db]. apply findOne_appended.
    + cbn. by rewrite trim_idempotent.
    + unfold Model.byId. cbn. by rewrite trim_idempotent, String.eqb_refl.
  - cbn [Model.tags Model.set_updatedAt Model.set_versions Model.create
           Model.f_tags].
    destruct (Controller.up_tags req) as [t|]; [|reflexivity].
    cbn [Js.truthy]. destruct (negb (String.eqb t "")); [|reflexivity].
    cbn [default]. apply trim_fmap_idempotent.
  - cbn. apply lookup_insert_eq.
  - cbn. by rewrite fileIdOf_trimmed.
Qed.

Lemma getVersion_first v vs d :
  Model.versions d = v :: vs → Model.versionNumber v = 1%Z →
  Model.getVersion (Js.VNumber (Js.parseInt (Js.VString "1"))) d = Some v.
Proof.
  intros Hvs Hv. rewrite getVersion_number, Hvs.
  change (Js.parseInt (Js.VString "1")) with (Js.Num 1).
  cbn [List.find Js.strictEq]. by rewrite Hv.
Qed.

(** X9. Verifying version 1 of a file right after its successful upload
    answers 200 with [isValid = true] and the recomputed digest equal to
    the recorded one; [sizesMatch] tells whether the size reported in the
    upload was the length of the payload. *)
Theorem upload_then_verify_is_valid req env w r w' :
  Controller.uploadFile req env w = (r, w') →
  Controller.status r = 201%Z →
  ∃ file fid,
    Controller.up_file req = Some file
    ∧ (∃ name owner size mime at_,
         Controller.data r
         = Some (Controller.Uploaded fid name owner
                   (sha256_hex (Controller.buffer file))
                   (cid_of (Controller.buffer file)) size mime 1 at_))
    ∧ ∀ env2,
        Controller.verifyFileIntegrity
          {| Controller.vf_fileId := fid; Controller.vf_versionIndex := "1" |}
          env2 w'
        = (Controller.reply 200 true "File integrity verified"
             (Some (Controller.VerificationResult fid (Js.Num 1)
                      (cid_of (Controller.buffer file))
                      (sha256_hex (Controller.buffer file))
                      (sha256_hex (Controller.buffer file)) true
                      (Z.of_nat (length (Controller.buffer file)))
                      (Controller.size file)
                      (Z.eqb (Z.of_nat (length (Controller.buffer file)))
                         (Controller.size file))
                      (now env2))), w').
Proof.
  intros Hrun Hok.
  destruct (uploadFile_created _ _ _ _ _ Hrun Hok)
    as (file & doc & Hfile & _ & Hfind & Hvs & _ & _ & _ & _ & _ & _
        & Hconn & Honline & Hblock & Hdata).
  exists file, (Model.fileId doc). split_and!; [done|by eexists _, _, _, _, _|].
  intros env2. run_handler. cbn [Controller.vf_fileId Controller.vf_versionIndex].
  rewrite Hfind. cbv beta iota zeta.
  rewrite (getVersion_first _ _ _ Hvs eq_refl).
  cbn [Controller.firstVersion Model.castVersion Model.ipfsHash
         Model.sha256Hash Model.fileSize
         Model.nv_ipfsHash Model.nv_sha256Hash Model.nv_fileSize].
  rewrite cid_of_trimmed, Hconn, Honline, Hblock. cbn [negb].
  unfold HashUtils.verifyHash, HashUtils.generateSHA256FromBuffer.
  by rewrite String.eqb_refl.
Qed.


End RoundTrips.
(** ** Downloads, deletion and search *)
Section Visibility.
Context `{Primitives}.
Import Spec.

Ltac run_handler :=
  unfold Controller.uploadFile, Controller.addNewVersion,
    Controller.deleteFile, Controller.downloadFile,
    Controller.verifyFileIntegrity, Controller.searchFiles,
    Controller.getFileMetadata, Store.find, Store.countDocuments,
    tryCatch, catch, throw, pure, mbind, M_bind, mret, M_ret,
    Store.findOne, Store.findByHash, Store.saveNew, Store.save,
    IpfsService.uploadFile, IpfsService.downloadFile,
    HashUtils.generateFileId in *.

Lemma selectVersion_elem idx d v :
  Controller.selectVersion idx d = inr v → v ∈ Model.versions d.
Proof.
  unfold Controller.selectVersion, Model.getVersion, Model.getLatestVersion.
  repeat case_match; intros; simplify_eq.
  - apply list_elem_of_In. by eapply find_some.
  - by eapply list_elem_of_lookup_2.
Qed.

(** X11. A download answered 200 carries the block that the content
    store holds under the [ipfsHash] of a version of the requested active
    file, and the digest of these bytes equals that version's recorded
    hash up to letter case: content that fails the check is never
    served. *)
Theorem download_serves_only_verified_content req w r w' :
  Controller.downloadFile req w = (r, w') →
  Controller.status r = 200%Z →
  ∃ i doc v served,
    Model.findOne (Model.byId (Controller.dl_fileId req)) (db w) = Some (i, doc)
    ∧ v ∈ Model.versions doc
    ∧ Controller.data r = Some served
    ∧ blocks (ipfs w) !! Model.ipfsHash v = Some (Controller.body served)
    ∧ Js.toLowerCase (sha256_hex (Controller.body served))
      = Js.toLowerCase (Model.sha256Hash v)
    ∧ Controller.xFileHash served = Model.sha256Hash v
    ∧ Controller.xVersion served = Model.versionNumber v
    ∧ Controller.contentLength served
      = Z.of_nat (length (Controller.body served)).
Proof.
  intros Hrun Hok. run_handler. unfold HashUtils.verifyHash in *.
  unfold HashUtils.generateSHA256FromBuffer in *.
  destruct (Model.findOne _ (db w)) as [[i doc]|] eqn:Hfind;
    [|by (simpl in Hrun; simplify_eq)].
  cbv beta iota zeta in Hrun.
  destruct (Controller.selectVersion _ doc) as [notFound|v] eqn:Hsel.
  { unfold Controller.selectVersion in Hsel.
    repeat case_match; simplify_eq; simpl in Hok; discriminate. }
  apply selectVersion_elem in Hsel.
  repeat case_match; simplify_eq; simpl in Hok; try discriminate.
  eexists i, doc, v, _. split_and!; try done.
  match goal with
  | Heq : negb (String.eqb _ _) = false |- _ =>
    apply negb_false_iff, String.eqb_eq in Heq
  end.
  done.
Qed.

Lemma findOne_byId_none_inactive fid (l : list Model.FileMetadata) i d :
  NoDup (fileIds l) → l !! i = Some d → Model.fileId d = Js.trim fid →
  Model.isActive d = false →
  Model.findOne (Model.byId fid) l = None.
Proof.
  intros Hnd Hi Hfid Hoff. apply findOne_None, Forall_lookup.
  intros j y Hj. unfold Model.byId.
  destruct (String.eqb_spec (Model.fileId y) (Js.trim fid)) as [Hy|]; [|done].
  assert (i = j) as <-.
  { eapply (NoDup_lookup _ _ _ (Js.trim fid) Hnd); unfold fileIds;
      rewrite list_lookup_fmap; [by rewrite Hi, <- Hfid|by rewrite Hj, <- Hy]. }
  assert (y = d) as -> by congruence. by rewrite Hoff.
Qed.

(** X12. After a successful [deleteFile] in a store whose file
    identifiers are distinct, the file is out of reach under the
    requested [fileId] (which names it up to surrounding white space):
    [getFileMetadata], [downloadFile] and [verifyFileIntegrity] answer
    404 and no [addNewVersion] succeeds; yet the document is still stored
    at its position with all its versions. *)
Theorem soft_deleted_file_is_hidden req env w r w' :
  NoDup (fileIds (db w)) →
  Controller.deleteFile req env w = (r, w') →
  Controller.status r = 200%Z →
  let fid := Controller.del_fileId req in
  (∃ i d d', db w !! i = Some d ∧ db w' !! i = Some d'
             ∧ Model.fileId d = Js.trim fid
             ∧ Model.versions d' = Model.versions d
             ∧ Model.isActive d' = false)
  ∧ Controller.getFileMetadata fid w'
    = (Controller.reply 404 false "File not found" None, w')
  ∧ (∀ idx, Controller.downloadFile
              {| Controller.dl_fileId := fid; Controller.dl_versionIndex := idx |} w'
            = (Controller.reply 404 false "File not found" None, w'))
  ∧ (∀ idx env2, Controller.verifyFileIntegrity
                   {| Controller.vf_fileId := fid;
                      Controller.vf_versionIndex := idx |} env2 w'
                 = (Controller.reply 404 false "File not found" None, w'))
  ∧ (∀ req2 env2, Controller.upd_fileId req2 = fid →
       Controller.status (Controller.addNewVersion req2 env2 w').1 ≠ 201%Z
       ∧ db (Controller.addNewVersion req2 env2 w').2 = db w').
Proof.
  intros Hnd Hrun Hok fid.
  apply deleteFile_outcome in Hrun
    as [[_ Hno]|(i & doc & ownerIs & _ & _ & _ & Hfind & Hdb)]; [done|].
  apply findOne_Some in Hfind as [Hi Hdoc].
  apply andb_true_iff in Hdoc as [[Hfid%String.eqb_eq _]%andb_true_iff _].
  fold fid in Hfid.
  assert (db w' !! i
          = Some (Model.set_updatedAt (now env) (Model.set_isActive false doc)))
    as Hi'.
  { rewrite Hdb. apply list_lookup_insert_eq. by eapply lookup_lt_Some. }
  assert (Model.findOne (Model.byId fid) (db w') = None) as Hnone.
  { eapply findOne_byId_none_inactive; [|exact Hi'|done|done].
    rewrite Hdb. by erewrite fileIds_insert. }
  split_and!.
  - by eexists i, doc, _.
  - run_handler. by rewrite Hnone.
  - intros idx. run_handler. cbn [Controller.dl_fileId]. by rewrite Hnone.
  - intros idx env2. run_handler. cbn [Controller.vf_fileId]. by rewrite Hnone.
  - intros req2 env2 Hfid2.
    destruct (Controller.addNewVersion req2 env2 w') as [r2 w2] eqn:Hrun2.
    apply addNewVersion_outcome in Hrun2
      as [[Hsame Hno]|(j & doc2 & v & file & _ & _ & Hfind2 & _)]; [done|].
    rewrite Hfid2, Hnone in Hfind2. done.
Qed.

Lemma matcher_active conditions test d :
  Store.matcher conditions = Some test → test d = true →
  Model.isActive d = true.
Proof.
  unfold Store.matcher. intros Hmatch Htest.
  destruct (match Store.c_regex conditions with
            | Some pattern => Some <$> regex_i pattern
            | None => Some None
            end) as [re|]; [|done].
  destruct (match Store.c_owner conditions with
            | Some v => Some <$> Store.stringQuery v
            | None => Some None
            end) as [ownerIs|]; [|done].
  injection Hmatch as <-.
  by apply andb_true_iff in Htest
    as [[[Hact _]%andb_true_iff _]%andb_true_iff _].
Qed.

Lemma filter_length_le {A} (f g : A → bool) (l : list A) :
  (∀ x, f x = true → g x = true) →
  (length (List.filter f l) ≤ length (List.filter g l))%nat.
Proof.
  intros Hfg. induction l as [|x l IH]; [done|]. cbn [List.filter].
  destruct (f x) eqn:Hf.
  - rewrite (Hfg x Hf). simpl. lia.
  - destruct (g x); simpl; lia.
Qed.

(** What a search answers with, whatever the filters and the page are. *)
Lemma searchFiles_found req w found :
  Controller.data (Controller.searchFiles req w).1 = Some found →
  ∃ test passed most,
    (∀ d, test d = true → Model.isActive d = true)
    ∧ Controller.files found
      = Controller.summary
        <$> Store.window passed most
              (Store.sortNewestFirst (List.filter test (db w)))
    ∧ Controller.pg_totalCount (Controller.sd_pagination found)
      = Z.of_nat (length (List.filter test (db w))).
Proof.
  run_handler.
  destruct (negb _ && negb _ && negb _); [done|].
  destruct (Controller.searchConditions req) as [conditions|]; [|done].
  destruct (Store.matcher conditions) as [test|] eqn:Hmatch; [|done].
  destruct (Store.cursor _ _) as [[passed most]|]; [|done].
  cbn. intros [= <-]. exists test, passed, most.
  split_and!; [|done|done]. intros d. by apply (matcher_active conditions).
Qed.

(** X13. The files of a search answer are stored files that are active,
    they come newest first, and they are no more than the count the
    answer reports, which is itself no more than the number of active
    files: a soft-deleted file never appears in a search and is never
    counted. *)
Theorem search_returns_active_files req w found :
  Controller.data (Controller.searchFiles req w).1 = Some found →
  Forall (λ shown, ∃ d, d ∈ db w ∧ Model.isActive d = true
                        ∧ shown = Controller.summary d)
    (Controller.files found)
  ∧ newestFirst (Controller.fs_createdAt <$> Controller.files found)
  ∧ (Z.of_nat (length (Controller.files found))
     ≤ Controller.pg_totalCount (Controller.sd_pagination found))%Z
  ∧ (Controller.pg_totalCount (Controller.sd_pagination found)
     ≤ Z.of_nat (length (List.filter Model.isActive (db w))))%Z.
Proof.
  intros (test & passed & most & Hact & -> & ->)%searchFiles_found.
  pose proof (window_sublist passed most
                (Store.sortNewestFirst (List.filter test (db w)))) as Hsub.
  split_and!.
  - apply Forall_fmap, Forall_forall. intros d Hd. exists d.
    assert (d ∈ List.filter test (db w)) as [Hin Htest]%list_elem_of_In%filter_In.
    { rewrite <- (sortNewestFirst_Permutation (List.filter test (db w))).
      by eapply elem_of_sublist. }
    split_and!; [by apply list_elem_of_In|by apply Hact|done].
  - unfold newestFirst. rewrite <- list_fmap_compose.
    eapply StronglySorted_fmap;
      [|apply window_sorted, sortNewestFirst_sorted]. done.
  - rewrite length_fmap. apply sublist_length in Hsub.
    rewrite (Permutation_length (sortNewestFirst_Permutation _)) in Hsub. lia.
  - apply inj_le. by apply filter_length_le.
Qed.

End Visibility.

(** ** What an upload guarantees and what it leaves behind *)
Section Uploads.
Context `{Primitives}.
Import Spec.

Ltac run_handler :=
  unfold Controller.uploadFile,
    tryCatch, catch, throw, pure, mbind, M_bind, mret, M_ret,
    Store.findByHash, Store.saveNew,
    IpfsService.uploadFile, HashUtils.generateFileId in *.





(** X15. When [uploadFile] has written the payload to the content store
    and then fails (the store refuses the document, or the generated
    identifier collides), it answers 500, stores no document, and the
    block stays in the content store: nothing removes it. *)
Theorem failed_upload_leaves_block req env w r w' file :
  Controller.uploadFile req env w = (r, w') →
  Controller.up_file req = Some file →
  Js.truthy (Controller.up_owner req) = true →
  Model.findByHash (sha256_hex (Controller.buffer file)) (db w) = None →
  isConnected (ipfs w) = true → online (ipfs w) = true →
  Controller.status r ≠ 201%Z →
  Controller.status r = 500%Z
  ∧ db w' = db w
  ∧ blocks (ipfs w') !! cid_of (Controller.buffer file)
    = Some (Controller.buffer file).
Proof.
  intros Hrun Hfile Howner Hfresh Hconn Honline Hfail. run_handler.
  unfold HashUtils.generateSHA256FromBuffer in *.
  rewrite Hfile, Howner in Hrun. cbn [negb] in Hrun.
  rewrite Hfresh, Hconn, Honline in Hrun.
  cbn [negb db ipfs drawn set_ipfs set_blocks] in Hrun.
  destruct (storeAccepts env); cbn [negb] in Hrun.
  - destruct (existsb _ (db w)); simpl in Hrun; simplify_eq; simpl in *;
      try done; split_and!; [done|done|apply lookup_insert_eq].
  - simpl in Hrun. simplify_eq. simpl.
    split_and!; [done|done|apply lookup_insert_eq].
Qed.

(** X16. A successful [uploadFile] never duplicates active content: the
    digest of the stored payload was the hash of no version of any file
    that was active when the request arrived. *)
Theorem upload_content_is_new req env w r w' :
  Controller.uploadFile req env w = (r, w') →
  Controller.status r = 201%Z →
  ∃ file,
    Controller.up_file req = Some file
    ∧ Forall (λ d, Model.isActive d = true →
                   sha256_hex (Controller.buffer file) ∉ hashes d) (db w).
Proof.
  intros Hrun Hok.
  apply uploadFile_outcome in Hrun
    as [[_ Hno]|(doc & v & file & _ & Hfile & _ & _ & _ & _ & _ & _ & Hnone & _)];
    [done|].
  exists file. split; [done|].
  apply findOne_None in Hnone. eapply Forall_impl; [exact Hnone|].
  intros d Hd Hact Hin. apply hasHash_true in Hin.
  cbv beta in Hd. by rewrite Hin, Hact in Hd.
Qed.

End Uploads.

(** ** Pagination of listings *)
Section Paging.




End Paging.

(** ** Append, then read back *)
Section AppendThenRead.
Context `{Primitives}.
Import Spec.

Ltac run_handler :=
  unfold Controller.addNewVersion, Controller.downloadFile,
    Controller.getFileMetadata,
    tryCatch, catch, throw, pure, mbind, M_bind, mret, M_ret,
    Store.findOne, Store.save,
    IpfsService.uploadFile, IpfsService.downloadFile in *.



End AppendThenRead.

(** * Worked examples for the further properties *)

Lemma secureCompare_valid_hashes_witness :
  HashUtils.isValidSHA256 (Some Demo.lowerDigest) = true
  ∧ HashUtils.isValidSHA256 (Some Demo.upperDigest) = true
  ∧ HashUtils.secureCompare (Some Demo.lowerDigest) (Some Demo.upperDigest)
    = true.
Proof.
  split; [vm_compute; reflexivity|]. split; [vm_compute; reflexivity|].
  apply (secureCompare_valid_hashes Demo.lowerDigest Demo.upperDigest);
    vm_compute; reflexivity.
Defined.

Lemma secureCompare_accepts_non_hex_witness :
  HashUtils.isHexDigit "x" = false
  ∧ HashUtils.isHexDigit "q" = false
  ∧ HashUtils.secureCompare (Some "xyz1") (Some "qrs2") = true.
Proof.
  split; [reflexivity|]. split; [reflexivity|].
  apply (secureCompare_accepts_non_hex "x" "yz1" "q" "rs2"); reflexivity.
Defined.

Lemma history_is_append_only_witness :
  db Demo.world1 !! 0%nat = Some Demo.greeting
  ∧ ∃ d', db (@Engine.run Demo.primitives
                [Engine.AppendVersion
                   (Demo.update Demo.greetingId "alice" "hello world v2")
                   (Demo.env 2000)] Demo.world1) !! 0%nat = Some d'
          ∧ Model.versions Demo.greeting `prefix_of` Model.versions d'.
Proof.
  assert (db Demo.world1 !! 0%nat = Some Demo.greeting) as Hi
    by (vm_compute; reflexivity).
  split; [exact Hi|].
  destruct (@history_is_append_only Demo.primitives
              [Engine.AppendVersion
                 (Demo.update Demo.greetingId "alice" "hello world v2")
                 (Demo.env 2000)] Demo.world1 0%nat Demo.greeting Hi)
    as (d' & Hi' & _ & Hpre).
  exists d'. split; [exact Hi'|exact Hpre].
Defined.

Lemma inactive_file_is_frozen_witness :
  Model.isActive <$> db Demo.deleted.2 !! 0%nat = Some false
  ∧ db (@Engine.run Demo.primitives
          [Engine.AppendVersion
             (Demo.update Demo.greetingId "alice" "hello world v2")
             (Demo.env 4000)] Demo.deleted.2) !! 0%nat
    = db Demo.deleted.2 !! 0%nat.
Proof.
  split; [vm_compute; reflexivity|].
  assert (db Demo.deleted.2 !! 0%nat
          = Some (Model.set_updatedAt 3000 (Model.set_isActive false Demo.greeting)))
    as Hi by (vm_compute; reflexivity).
  rewrite Hi.
  apply (@inactive_file_is_frozen Demo.primitives); [exact Hi|reflexivity].
Defined.

Lemma upload_then_verify_is_valid_witness :
  Controller.status Demo.uploaded.1 = 201%Z
  ∧ ∃ fid, ∀ env2,
      Controller.status
        (@Controller.verifyFileIntegrity Demo.primitives
           {| Controller.vf_fileId := fid; Controller.vf_versionIndex := "1" |}
           env2 Demo.uploaded.2).1 = 200%Z.
Proof.
  assert (Controller.status Demo.uploaded.1 = 201%Z) as Hok by reflexivity.
  split; [exact Hok|].
  destruct (@upload_then_verify_is_valid Demo.primitives
              (Demo.upload "alice" "greeting.txt" "hello world") (Demo.env 1000)
              (Engine.emptyWorld Demo.node) Demo.uploaded.1 Demo.uploaded.2
              ltac:(vm_compute; reflexivity) Hok)
    as (file & fid & _ & _ & Hverify).
  exists fid. intros env2. rewrite Hverify. reflexivity.
Defined.


Lemma download_serves_only_verified_content_witness :
  Controller.status
    (@Controller.downloadFile Demo.primitives
       {| Controller.dl_fileId := Demo.greetingId;
          Controller.dl_versionIndex := Some "1" |} Demo.world1).1 = 200%Z
  ∧ ∃ v served,
      v ∈ Model.versions Demo.greeting
      ∧ blocks (ipfs Demo.world1) !! Model.ipfsHash v
        = Some (Controller.body served)
      ∧ Controller.xVersion served = Model.versionNumber v.
Proof.
  assert (Controller.status
            (@Controller.downloadFile Demo.primitives
               {| Controller.dl_fileId := Demo.greetingId;
                  Controller.dl_versionIndex := Some "1" |} Demo.world1).1
          = 200%Z) as Hok by (vm_compute; reflexivity).
  split; [exact Hok|].
  destruct (@download_serves_only_verified_content Demo.primitives
              {| Controller.dl_fileId := Demo.greetingId;
                 Controller.dl_versionIndex := Some "1" |} Demo.world1 _ _
              (surjective_pairing _) Hok)
    as (i & doc & v & served & Hfind & Hv & _ & Hblock & _ & _ & Hnum & _).
  vm_compute in Hfind. injection Hfind as <- <-.
  exists v, served. split_and!; [exact Hv|exact Hblock|exact Hnum].
Defined.

Lemma soft_deleted_file_is_hidden_witness :
  Controller.status Demo.deleted.1 = 200%Z
  ∧ Controller.getFileMetadata Demo.greetingId Demo.deleted.2
    = (Controller.reply 404 false "File not found" None, Demo.deleted.2)
  ∧ Controller.status
      (@Controller.addNewVersion Demo.primitives
         (Demo.update Demo.greetingId "alice" "hello world v2") (Demo.env 4000)
         Demo.deleted.2).1 ≠ 201%Z.
Proof.
  assert (Controller.status Demo.deleted.1 = 200%Z) as Hok by reflexivity.
  split; [exact Hok|].
  destruct (@soft_deleted_file_is_hidden Demo.primitives
              (Demo.delete Demo.greetingId "alice") (Demo.env 3000) Demo.world1
              Demo.deleted.1 Demo.deleted.2)
    as (_ & Hmeta & _ & _ & Happend).
  - vm_compute. apply NoDup_singleton.
  - vm_compute. reflexivity.
  - exact Hok.
  - split; [exact Hmeta|].
    exact (proj1 (Happend (Demo.update Demo.greetingId "alice" "hello world v2")
                    (Demo.env 4000) eq_refl)).
Defined.

(** After alice deleted her first file, a search for her files shows the
    second one only. *)
Lemma search_returns_active_files_witness :
  ∃ found,
    Controller.data
      (@Controller.searchFiles Demo.primitives (Demo.searchOwner "alice")
         Demo.world4).1 = Some found
    ∧ Controller.fs_originalFileName <$> Controller.files found = ["second.txt"]
    ∧ Controller.pg_totalCount (Controller.sd_pagination found) = 1%Z
    ∧ Forall (λ shown, ∃ d, d ∈ db Demo.world4 ∧ Model.isActive d = true
                            ∧ shown = Controller.summary d)
        (Controller.files found).
Proof.
  eexists. split; [vm_compute; reflexivity|].
  split; [reflexivity|]. split; [reflexivity|].
  apply (@search_returns_active_files Demo.primitives (Demo.searchOwner "alice")
           Demo.world4).
  vm_compute. reflexivity.
Defined.


Lemma failed_upload_leaves_block_witness :
  Controller.status Demo.collision.1 = 500%Z
  ∧ db Demo.collision.2 = db Demo.world1
  ∧ blocks (ipfs Demo.collision.2) !! "Qm(another text)"
    = Some (Demo.bytes "another text").
Proof.
  apply (@failed_upload_leaves_block Demo.primitives Demo.collidingUpload
           Demo.collidingEnv Demo.world1 Demo.collision.1 Demo.collision.2
           (Demo.file "greeting.txt" "another text"));
    try (vm_compute; reflexivity).
  vm_compute. discriminate.
Defined.

Lemma upload_content_is_new_witness :
  Controller.status Demo.tagged.1 = 201%Z
  ∧ Forall (λ d, Model.isActive d = true →
                 "sha256:some notes" ∉ Spec.hashes d) (db Demo.world1).
Proof.
  assert (Controller.status Demo.tagged.1 = 201%Z) as Hok
    by (vm_compute; reflexivity).
  split; [exact Hok|].
  destruct (@upload_content_is_new Demo.primitives Demo.taggedUpload
              (Demo.env 5000) Demo.world1 Demo.tagged.1 Demo.tagged.2
              ltac:(vm_compute; reflexivity) Hok) as (file & Hfile & Hnew).
  cbn in Hfile. injection Hfile as <-. exact Hnew.
Defined.



